(** * ClawLess intelligence router

    A shallow embedding of the inference-routing core of ClawLess:
    [ComplexityAnalyzer] (src/intelligence/complexity.ts),
    [QualityValidator] (src/intelligence/quality.ts),
    [IntelligenceRouter] (src/intelligence/router.ts, and the code flow of
    the router specification document), the two providers
    (src/intelligence/providers/ollama.ts and claude.ts), and [StateManager.recordCost]
    and [updateExecution] (src/runtime/state.ts over the tables of
    data/schema.sql).

    Conventions of the embedding.
    - A JavaScript string is a [string]; each [ascii] stands for one UTF-16
      code unit below 256, so the development covers the strings whose code
      units all lie in that range.  [String.length] is then [.length].
    - A JavaScript [number] that counts something (a score, a length, a
      token count) is a [Z]; a number that is computed with (a cost in
      dollars, a column of the ledger) is a double, [JsNumber.number];
      a number that is only passed on or tested (a temperature) is a [Q].
    - An optional field [f?: T] is an [option T]; [if (x)] is spelled out
      with the truthiness of the type of [x].
    - [async] code that throws is a computation in the monad [Effect.M]:
      it threads the trace of backend calls and returns a value or the
      thrown error. *)

From Stdlib Require Import ZArith QArith String Ascii List Bool Lia.
From Stdlib Require SpecFloat.
From stdpp Require Import base option list gmap strings pretty.
Import ListNotations.

Close Scope Q_scope.
Local Open Scope string_scope.
Local Open Scope Z_scope.

(* ===================================================================== *)
(** ** JavaScript strings and the regular expressions of the source      *)
(* ===================================================================== *)

Module JsString.

Definition code (c : ascii) : N := N_of_ascii c.

Definition in_range (lo hi : N) (c : ascii) : bool :=
  ((lo <=? code c) && (code c <=? hi))%N.

(** [[A-Z]], [[a-z]], [[0-9]] and the word characters of [\b] and [\w]. *)
Definition is_upper (c : ascii) : bool := in_range 65 90 c.
Definition is_lower (c : ascii) : bool := in_range 97 122 c.
Definition is_digit (c : ascii) : bool := in_range 48 57 c.
Definition is_word (c : ascii) : bool :=
  is_upper c || is_lower c || is_digit c || (code c =? 95)%N.

(** [\s] on code units below 256: TAB, LF, VT, FF, CR, space, NBSP. *)
Definition is_space (c : ascii) : bool :=
  in_range 9 13 c || (code c =? 32)%N || (code c =? 160)%N.

(** The line terminators that [.] refuses, below 256: LF and CR. *)
Definition is_line_terminator (c : ascii) : bool :=
  (code c =? 10)%N || (code c =? 13)%N.

(** [String.prototype.toLowerCase] on code units below 256: the ASCII
    capitals and the Latin-1 capitals U+00C0..U+00DE (U+00D7, the
    multiplication sign, apart) move up by 32. *)
Definition lower_char (c : ascii) : ascii :=
  if is_upper c || (in_range 192 222 c && negb (code c =? 215)%N)
  then ascii_of_N (code c + 32) else c.

Fixpoint toLowerCase (s : string) : string :=
  match s with
  | EmptyString => EmptyString
  | String c s' => String (lower_char c) (toLowerCase s')
  end.

(** Canonicalisation of the [/i] flag (no [/u] flag), as far as a pattern
    of ASCII letters can tell: an ASCII letter folds to its capital, and
    no code unit of 128 or more ever folds to an ASCII one. *)
Definition fold_char (c : ascii) : ascii :=
  if is_lower c then ascii_of_N (code c - 32) else c.

Definition eqb_ci (a b : ascii) : bool :=
  Ascii.eqb (fold_char a) (fold_char b).

(** [pat] matches at the start of [s], letters compared under [/i]. *)
Fixpoint prefix_ci (pat s : string) : bool :=
  match pat, s with
  | EmptyString, _ => true
  | String p pat', String c s' => eqb_ci p c && prefix_ci pat' s'
  | String _ _, EmptyString => false
  end.

(** [s.includes(needle)]. *)
Fixpoint includes (needle s : string) : bool :=
  String.prefix needle s ||
  match s with
  | EmptyString => false
  | String _ s' => includes needle s'
  end.

Definition head (s : string) : option ascii :=
  match s with
  | EmptyString => None
  | String c _ => Some c
  end.

Fixpoint drop (n : nat) (s : string) : string :=
  match n, s with
  | O, _ => s
  | S n', String _ s' => drop n' s'
  | S _, EmptyString => EmptyString
  end.

Fixpoint last (prev : option ascii) (s : string) : option ascii :=
  match s with
  | EmptyString => prev
  | String c s' => last (Some c) s'
  end.

(** Number of leading characters of [s] in the class [p]: what a greedy
    [[p]*] consumes. *)
Fixpoint run_length (p : ascii -> bool) (s : string) : nat :=
  match s with
  | EmptyString => O
  | String c s' => if p c then S (run_length p s') else O
  end.

(** [\b] between the character before a position ([None] at the start of
    the input) and the character at it ([None] at the end). *)
Definition word_side (c : option ascii) : bool :=
  match c with
  | Some c => is_word c
  | None => false
  end.

Definition word_boundary (before after : option ascii) : bool :=
  xorb (word_side before) (word_side after).

(** [re.test(s)]: the pattern matches at some position of [s].  [at_pos]
    is given the character before the position and the input from the
    position on. *)
Fixpoint regex_test (at_pos : option ascii -> string -> bool)
         (prev : option ascii) (s : string) : bool :=
  at_pos prev s ||
  match s with
  | EmptyString => false
  | String c s' => regex_test at_pos (Some c) s'
  end.

(** [s.match(re)] for a global pattern whose matches are never empty:
    the matches from left to right, each search resuming where the
    previous match ended.  [at_pos] returns the length of the match at a
    position; [skip] counts the characters still covered by the last
    match. *)
Fixpoint match_all (at_pos : option ascii -> string -> option nat)
         (skip : nat) (prev : option ascii) (s : string) : list string :=
  match s with
  | EmptyString => []
  | String c s' =>
      match skip with
      | S k => match_all at_pos k (Some c) s'
      | O =>
          match at_pos prev s with
          | Some n => String.substring 0 n s
                        :: match_all at_pos (Nat.pred n) (Some c) s'
          | None => match_all at_pos O (Some c) s'
          end
      end
  end.

(** [/\b(w1|w2|...)\b/i] at a position, every [wi] made of letters. *)
Definition words_at (words : list string)
           (prev : option ascii) (s : string) : bool :=
  word_boundary prev (head s) &&
  existsb (fun w =>
             prefix_ci w s &&
             word_boundary (last None w) (head (drop (String.length w) s)))
          words.

(** [/\?.*\?/] at a position: a question mark, then another one before
    the line ends. *)
Fixpoint line_has (c : ascii) (s : string) : bool :=
  match s with
  | EmptyString => false
  | String d s' =>
      if is_line_terminator d then false
      else Ascii.eqb c d || line_has c s'
  end.

Definition question_twice_at (_ : option ascii) (s : string) : bool :=
  match s with
  | String c s' => Ascii.eqb c "?" && line_has "?" s'
  | EmptyString => false
  end.

(** [/https?:\/\/[^\s]+/] at a position.  When [https://] is there and
    nothing but white space follows, giving the [s] back cannot help:
    the next character would have to be [:]. *)
Definition url_at (_ : option ascii) (s : string) : option nat :=
  let tail (k : nat) :=
    let n := run_length (fun c => negb (is_space c)) (drop k s) in
    if (0 <? n)%nat then Some (k + n)%nat else None in
  if String.prefix "https://" s then tail 8%nat
  else if String.prefix "http://" s then tail 7%nat
  else None.

(** [/\b[A-Z][a-z]+\b/] at a position.  The greedy [[a-z]+] takes the
    whole run of small letters; a shorter run would end between two
    word characters, where [\b] fails. *)
Definition capitalized_at (prev : option ascii) (s : string) : option nat :=
  match s with
  | String c s' =>
      let n := run_length is_lower s' in
      if word_boundary prev (Some c) && is_upper c && (0 <? n)%nat &&
         word_boundary (last (Some c) (String.substring 0 n s'))
                       (head (drop n s'))
      then Some (S n) else None
  | EmptyString => None
  end.

End JsString.

(* ===================================================================== *)
(** ** JavaScript numbers that are computed with                          *)
(* ===================================================================== *)

(** A cost, and every number once it is added up in the ledger, is an
    IEEE 754 binary64 value.  [SpecFloat] of the Standard Library is the
    reference semantics of these: 53 bits of precision, the infinities at
    the exponent 1024, one NaN, every operation rounded to the nearest
    double, ties to even. *)
Module JsNumber.

Definition prec : Z := 53.
Definition emax : Z := 1024.

Definition number : Set := SpecFloat.spec_float.

Definition zero : number := SpecFloat.S754_zero false.
Definition add : number -> number -> number := SpecFloat.SFadd prec emax.
Definition mul : number -> number -> number := SpecFloat.SFmul prec emax.
Definition div : number -> number -> number := SpecFloat.SFdiv prec emax.

(** [x <= y] *)
Definition leb : number -> number -> bool := SpecFloat.SFleb.

(** The double that an integer literal denotes: the nearest one. *)
Definition of_Z (z : Z) : number :=
  SpecFloat.binary_normalize prec emax z 0 false.

(** [n / d]; for integers below [2 ^ 53] this is the double nearest to
    the fraction, the one a decimal literal such as [0.1] denotes. *)
Definition ratio (n d : Z) : number := div (of_Z n) (of_Z d).

(** The exact value of a finite double. *)
Definition value (x : number) : option Q :=
  match x with
  | SpecFloat.S754_zero _ => Some 0%Q
  | SpecFloat.S754_finite s m e =>
      let q := if 0 <=? e then inject_Z (Z.pos m * 2 ^ e)
               else (Z.pos m # Z.to_pos (2 ^ (- e)))%Q in
      Some (if s then (- q)%Q else q)
  | _ => None
  end.

(** The integer part of a finite double that is not negative. *)
Definition to_Z (x : number) : Z :=
  match x with
  | SpecFloat.S754_finite false m e =>
      if 0 <=? e then Z.pos m * 2 ^ e else Z.pos m / 2 ^ (- e)
  | _ => 0
  end.

(** Neither NaN nor below zero. *)
Definition not_negative (x : number) : bool :=
  match x with
  | SpecFloat.S754_zero _ => true
  | SpecFloat.S754_infinity s => negb s
  | SpecFloat.S754_nan => false
  | SpecFloat.S754_finite s _ _ => negb s
  end.

(** Neither NaN nor below zero, and in the one form a double has: the
    mantissa of 53 bits, or the least exponent. *)
Definition nonnegative (x : number) : bool :=
  match x with
  | SpecFloat.S754_finite s m e => negb s && SpecFloat.bounded prec emax m e
  | _ => not_negative x
  end.

(** The double with the mantissa [M] at the exponent [E], for [M] up to
    [2 ^ 53]: what rounding returns once the mantissa is found. *)
Definition pack (M E : Z) : number :=
  if M =? 0 then SpecFloat.S754_zero false
  else if M <? 2 ^ 53 then
    if E <=? 971 then SpecFloat.S754_finite false (Z.to_pos M) E
    else SpecFloat.S754_infinity false
  else
    if E + 1 <=? 971 then SpecFloat.S754_finite false (Z.to_pos (M / 2)) (E + 1)
    else SpecFloat.S754_infinity false.

(** The double of a positive integer that is at most [2 ^ 53], in closed
    form. *)
Definition canon (V : Z) : number :=
  pack (V * 2 ^ 53 / 2 ^ (Z.log2 V + 1)) (Z.log2 V + 1 - 53).

End JsNumber.

(* ===================================================================== *)
(** ** Shared types (src/shared/types.ts)                                *)
(* ===================================================================== *)

Inductive TaskType : Set :=
| extraction
| classification
| planning
| code_review
| security_analysis
| workflow_compilation
| error_recovery.

Inductive Model : Set := ollama | claude.

Inductive RecommendedModel : Set := rec_none | rec_ollama | rec_claude.

(** [===] on the three recommendations. *)
Definition recommended_eqb (a b : RecommendedModel) : bool :=
  match a, b with
  | rec_none, rec_none | rec_ollama, rec_ollama | rec_claude, rec_claude => true
  | _, _ => false
  end.

Record AgentTask : Set := mkTask {
  type : TaskType;
  prompt : string;
  context : option string;
  tools : option (list string);
  expectsJSON : option bool;
  requiredFields : option (list string);
  minLength : option Z;
  isRetry : option bool;
}.

Record AgentResponse : Set := mkResponse {
  content : string;
  modelUsed : Model;
  tokensInput : Z;
  tokensOutput : Z;
  cost : JsNumber.number;
}.

Record Factors : Set := mkFactors {
  f_taskType : Z;
  f_contextSize : Z;
  f_ambiguity : Z;
  f_reasoning : Z;
  f_toolCount : Z;
}.

Record ComplexityScore : Set := mkScore {
  score : Z;
  reasoning : string;
  factors : Factors;
  recommendedModel : RecommendedModel;
}.

(** Truthiness of the optional fields tested with [if (x)]. *)
Definition truthy_string (s : option string) : bool :=
  match s with
  | Some s => negb (String.eqb s EmptyString)
  | None => false
  end.

Definition truthy_bool (b : option bool) : bool :=
  match b with
  | Some b => b
  | None => false
  end.

Definition truthy_number (n : option Z) : bool :=
  match n with
  | Some n => negb (n =? 0)
  | None => false
  end.

(** A task with only its two mandatory fields. *)
Definition plain_task (k : TaskType) (p : string) : AgentTask :=
  mkTask k p None None None None None None.

Definition with_context (t : AgentTask) (c : option string) : AgentTask :=
  mkTask (type t) (prompt t) c (tools t) (expectsJSON t)
         (requiredFields t) (minLength t) (isRetry t).

(* ===================================================================== *)
(** ** ComplexityAnalyzer (src/intelligence/complexity.ts)               *)
(* ===================================================================== *)

Module ComplexityAnalyzer.

Definition typeScores (k : TaskType) : Z :=
  match k with
  | extraction => 2
  | classification => 1
  | planning => 4
  | code_review => 8
  | security_analysis => 9
  | workflow_compilation => 7
  | error_recovery => 5
  end.

(** [typeScores[task.type] || 3] *)
Definition taskTypeScore (k : TaskType) : Z :=
  if typeScores k =? 0 then 3 else typeScores k.

(** The [if (task.context) { ... }] block: what it adds to the score. *)
Definition contextSizeScore (c : option string) : Z :=
  match c with
  | Some c =>
      if String.eqb c EmptyString then 0
      else
        let length := Z.of_nat (String.length c) in
        if 10000 <? length then 3
        else if 5000 <? length then 2
        else if 2000 <? length then 1
        else 0
  | None => 0
  end.

Definition hedging_words : list string :=
  ["maybe"; "might"; "could"; "should"; "probably"].

Definition disjunction_words : list string := ["or"; "either"].

Definition ambiguousPatterns : list (option ascii -> string -> bool) :=
  [ JsString.words_at hedging_words;
    JsString.question_twice_at;
    JsString.words_at disjunction_words ].

Definition detectAmbiguity (prompt : string) : bool :=
  existsb (fun pattern => JsString.regex_test pattern None prompt)
          ambiguousPatterns.

Definition getRecommendedModel (score : Z) : RecommendedModel :=
  if score <? 2 then rec_none
  else if score <? 7 then rec_ollama
  else rec_claude.

Definition join (sep : string) (parts : list string) : string :=
  String.concat sep parts.

Definition push_if (b : bool) (part : string) (parts : list string)
  : list string :=
  if b then (parts ++ [part])%list else parts.

Definition explainScore (score : Z) (f : Factors) : string :=
  let parts := [] in
  let parts :=
    push_if (5 <? f_taskType f)
            ("complex task type (" ++ pretty (f_taskType f) ++ ")") parts in
  let parts :=
    push_if (0 <? f_contextSize f)
            ("large context (" ++ pretty (f_contextSize f) ++ ")") parts in
  let parts := push_if (0 <? f_ambiguity f) "ambiguous prompt" parts in
  let parts := push_if (0 <? f_reasoning f) "requires reasoning" parts in
  if (List.length parts =? 0)%nat
  then "Simple task (score: " ++ pretty score ++ ")"
  else "Score " ++ pretty score ++ ": " ++ join ", " parts.

Definition reasoningScore (k : TaskType) : Z :=
  match k with
  | planning | error_recovery => 3
  | _ => 0
  end.

Definition toolCountScore (ts : option (list string)) : Z :=
  match ts with
  | Some ts => if 3 <? Z.of_nat (List.length ts) then 1 else 0
  | None => 0
  end.

Definition analyze (task : AgentTask) : ComplexityScore :=
  let score := 0 in
  (* Task type scoring *)
  let taskType := taskTypeScore (type task) in
  let score := score + taskType in
  (* Context size *)
  let contextSize := contextSizeScore (context task) in
  let score := score + contextSize in
  (* Ambiguity detection *)
  let ambiguity := if detectAmbiguity (prompt task) then 2 else 0 in
  let score := score + ambiguity in
  (* Reasoning requirements *)
  let reasoning := reasoningScore (type task) in
  let score := score + reasoning in
  (* Tool count *)
  let toolCount := toolCountScore (tools task) in
  let score := score + toolCount in
  (* Retry = more complex *)
  let score := if truthy_bool (isRetry task) then score + 2 else score in
  let factors := mkFactors taskType contextSize ambiguity reasoning toolCount in
  mkScore score (explainScore score factors) factors
          (getRecommendedModel score).

End ComplexityAnalyzer.

(* ===================================================================== *)
(** ** The JavaScript runtime under QualityValidator                      *)
(* ===================================================================== *)

(** What [JSON.parse] returns.  A string value or a key is a list of UTF-16
    code units, since an escape [\uXXXX] can denote any of them; a number
    is the rational its literal denotes (the runtime rounds it to a
    double, which no code here observes). *)
#[local] Set Warnings "-register-all".
Inductive JSValue : Type :=
| JNull
| JBool (b : bool)
| JNumber (q : Q)
| JString (s : list N)
| JArray (items : list JSValue)
| JObject (members : list (list N * JSValue)).

(** The parts of the runtime the validator calls and the repository does
    not define: [JSON.parse] ([None] when it throws a SyntaxError) and the
    string-keyed properties of [Object.prototype] and [Array.prototype],
    which the [in] operator reaches through the prototype chain. *)
Class JsRuntime : Type := {
  JSON_parse : string -> option JSValue;
  Object_prototype_has : string -> bool;
  Array_prototype_has : string -> bool;
}.

Module JsObject.

Fixpoint units (s : string) : list N :=
  match s with
  | EmptyString => []
  | String c s' => JsString.code c :: units s'
  end.

Definition units_eqb (a b : list N) : bool :=
  bool_decide (a = b).

(** Own property keys of an array of [n] items: the canonical decimal
    indices below [n], and [length]. *)
Definition array_own (n : nat) (field : string) : bool :=
  String.eqb field "length" ||
  existsb (fun i => String.eqb field (pretty i)) (seq 0 n).

Definition object_own (members : list (list N * JSValue)) (field : string)
  : bool :=
  existsb (fun m => units_eqb (units field) (fst m)) members.

(** [field in v]; [None] is the TypeError thrown when [v] is not an
    object. *)
Definition js_in `{JsRuntime} (field : string) (v : JSValue) : option bool :=
  match v with
  | JObject members =>
      Some (object_own members field || Object_prototype_has field)
  | JArray items =>
      Some (array_own (List.length items) field ||
            Array_prototype_has field || Object_prototype_has field)
  | JNull | JBool _ | JNumber _ | JString _ => None
  end.

(** [fields.every(field => field in v)]: stops at the first [false], and
    an exception of the callback goes through. *)
Fixpoint every_in `{JsRuntime} (fields : list string) (v : JSValue)
  : option bool :=
  match fields with
  | [] => Some true
  | field :: rest =>
      match js_in field v with
      | Some true => every_in rest v
      | Some false => Some false
      | None => None
      end
  end.

End JsObject.

(* ===================================================================== *)
(** ** QualityValidator (src/intelligence/quality.ts)                     *)
(* ===================================================================== *)

Module QualityValidator.

(** [[...new Set(entities)]]: first occurrences, in order. *)
Fixpoint dedupe (seen : list string) (entities : list string) : list string :=
  match entities with
  | [] => []
  | e :: rest =>
      if existsb (String.eqb e) seen then dedupe seen rest
      else e :: dedupe (e :: seen) rest
  end.

Definition extractEntities (text : string) : list string :=
  (* URLs *)
  let urls := JsString.match_all JsString.url_at O None text in
  (* Capitalized words (potential proper nouns) *)
  let words := JsString.match_all JsString.capitalized_at O None text in
  dedupe [] (urls ++ words)%list.

(** [responseEntities.filter(e => !contextEntities.includes(e))] *)
Definition hallucinated (responseEntities contextEntities : list string)
  : list string :=
  List.filter (fun e => negb (existsb (String.eqb e) contextEntities))
              responseEntities.

Definition length_Q {A : Type} (l : list A) : Q :=
  inject_Z (Z.of_nat (List.length l)).

(** [a > b] on numbers. *)
Definition Qgtb (a b : Q) : bool := negb (Qle_bool a b).

(** The body of [if (task.context) { ... }] in [detectHallucination]:
    [hallucinated.length > responseEntities.length * 0.5]. *)
Definition entityCheckFails (responseContent ctx : string) : bool :=
  let responseEntities := extractEntities responseContent in
  let contextEntities := extractEntities ctx in
  let h := hallucinated responseEntities contextEntities in
  Qgtb (length_Q h) (length_Q responseEntities * (1 # 2))%Q.

Definition placeholderFound (responseContent : string) : bool :=
  let content := JsString.toLowerCase responseContent in
  (* Generic placeholders *)
  if JsString.includes "todo" content || JsString.includes "fixme" content
  then true
  (* Example URLs *)
  else if JsString.includes "example.com" content
          || JsString.includes "placeholder" content
  then true
  else false.

Definition detectHallucination (response : AgentResponse) (task : AgentTask)
  : bool :=
  if placeholderFound (content response) then true
  else
    match context task with
    | Some ctx =>
        if truthy_string (Some ctx) && entityCheckFails (content response) ctx
        then true else false
    | None => false
    end.

(** The [if (task.expectsJSON) { try { ... } catch { return false } }]
    block: [true] when control goes on to the length check. *)
Definition jsonCheckPasses `{JsRuntime}
           (response : AgentResponse) (task : AgentTask) : bool :=
  if truthy_bool (expectsJSON task) then
    match JSON_parse (content response) with
    | Some parsed =>
        match requiredFields task with
        | Some fields =>
            match JsObject.every_in fields parsed with
            | Some hasAll => hasAll
            | None => false
            end
        | None => true
        end
    | None => false
    end
  else true.

(** [task.minLength && response.content.length < task.minLength] *)
Definition tooShort (response : AgentResponse) (task : AgentTask) : bool :=
  match minLength task with
  | Some m =>
      truthy_number (Some m) && (Z.of_nat (String.length (content response)) <? m)
  | None => false
  end.

Definition validate `{JsRuntime}
           (response : AgentResponse) (task : AgentTask) : bool :=
  (* JSON validity *)
  if negb (jsonCheckPasses response task) then false
  (* Length check *)
  else if tooShort response task then false
  (* Hallucination detection *)
  else if detectHallucination response task then false
  else true.

End QualityValidator.

(* ===================================================================== *)
(** ** A reference runtime: the JSON grammar of ECMA-404                  *)
(* ===================================================================== *)

(** An instance of [JsRuntime] to run the validator on concrete inputs.
    The theorems below hold for every runtime; this one fixes [JSON.parse]
    to the JSON grammar and the prototypes to the property names of
    ECMAScript 2023. *)
Module ReferenceRuntime.

Definition is_json_ws (c : ascii) : bool :=
  let n := JsString.code c in
  ((n =? 32) || (n =? 9) || (n =? 10) || (n =? 13))%N.

Fixpoint skip_ws (s : string) : string :=
  match s with
  | String c s' => if is_json_ws c then skip_ws s' else s
  | EmptyString => s
  end.

Definition digit_value (c : ascii) : option Z :=
  if JsString.is_digit c then Some (Z.of_N (JsString.code c) - 48) else None.

Definition hex_value (c : ascii) : option N :=
  let n := JsString.code c in
  if JsString.is_digit c then Some (n - 48)%N
  else if JsString.in_range 97 102 c then Some (n - 87)%N
  else if JsString.in_range 65 70 c then Some (n - 55)%N
  else None.

(** A run of digits: its value continuing [acc], how many there were,
    and the rest of the input. *)
Fixpoint digits (acc : Z) (count : nat) (s : string) : Z * nat * string :=
  match s with
  | String c s' =>
      match digit_value c with
      | Some d => digits (10 * acc + d) (S count) s'
      | None => (acc, count, s)
      end
  | EmptyString => (acc, count, s)
  end.

(** [m * 10 ^ e] *)
Definition scale (m e : Z) : Q :=
  if 0 <=? e then inject_Z (m * 10 ^ e)
  else Qmake m (Z.to_pos (10 ^ (- e))).

(** A number: an optional minus sign; a zero, or a digit that is not
    zero and then any digits; optionally a point and one digit or more;
    optionally [e] or [E], an optional sign and one digit or more. *)
Definition parse_number (s : string) : option (Q * string) :=
  let '(negative, s1) :=
    match s with
    | String "-" r => (true, r)
    | _ => (false, s)
    end in
  let integer_part :=
    match s1 with
    | String "0" r => Some (0, r)
    | String c _ =>
        if JsString.is_digit c
        then let '(v, _, r) := digits 0 O s1 in Some (v, r)
        else None
    | EmptyString => None
    end in
  match integer_part with
  | None => None
  | Some (int_v, s2) =>
      let fraction :=
        match s2 with
        | String "." r =>
            let '(v, n, r') := digits int_v O r in
            if (0 <? n)%nat then Some (v, Z.of_nat n, r') else None
        | _ => Some (int_v, 0, s2)
        end in
      match fraction with
      | None => None
      | Some (mantissa, frac_len, s3) =>
          let exponent :=
            match s3 with
            | String c r =>
                if Ascii.eqb c "e" || Ascii.eqb c "E" then
                  let '(negative_exp, r1) :=
                    match r with
                    | String "-" r' => (true, r')
                    | String "+" r' => (false, r')
                    | _ => (false, r)
                    end in
                  let '(v, n, r2) := digits 0 O r1 in
                  if (0 <? n)%nat
                  then Some (if negative_exp then - v else v, r2)
                  else None
                else Some (0, s3)
            | EmptyString => Some (0, s3)
            end in
          match exponent with
          | None => None
          | Some (e, s4) =>
              let m := if negative then - mantissa else mantissa in
              Some (scale m (e - frac_len), s4)
          end
      end
  end.

(** The single-character escapes: quote, backslash, slash, and the
    letters b, f, n, r, t. *)
Definition escape_unit (c : ascii) : option N :=
  let n := JsString.code c in
  if (n =? 34)%N then Some 34%N
  else if (n =? 92)%N then Some 92%N
  else if (n =? 47)%N then Some 47%N
  else if (n =? 98)%N then Some 8%N
  else if (n =? 102)%N then Some 12%N
  else if (n =? 110)%N then Some 10%N
  else if (n =? 114)%N then Some 13%N
  else if (n =? 116)%N then Some 9%N
  else None.

(** The characters of a string after its opening quote, up to and
    including the closing one. *)
Fixpoint parse_chars (s : string) : option (list N * string) :=
  match s with
  | EmptyString => None
  | String c s' =>
      let n := JsString.code c in
      if (n =? 34)%N then Some ([], s')
      else if (n =? 92)%N then
        match s' with
        | String "u" (String a (String b (String c' (String d r)))) =>
            match hex_value a, hex_value b, hex_value c', hex_value d with
            | Some a, Some b, Some c', Some d =>
                match parse_chars r with
                | Some (us, r') =>
                    Some ((4096 * a + 256 * b + 16 * c' + d)%N :: us, r')
                | None => None
                end
            | _, _, _, _ => None
            end
        | String e r =>
            match escape_unit e, parse_chars r with
            | Some u, Some (us, r') => Some (u :: us, r')
            | _, _ => None
            end
        | EmptyString => None
        end
      else if (n <? 32)%N then None
      else
        match parse_chars s' with
        | Some (us, r') => Some (n :: us, r')
        | None => None
        end
  end.

Definition is_quote (c : ascii) : bool := (JsString.code c =? 34)%N.

Definition expect (lit : string) (v : JSValue) (s : string)
  : option (JSValue * string) :=
  if String.prefix lit s
  then Some (v, JsString.drop (String.length lit) s) else None.

(** A value, the items of an array after its first one, and the members
    of an object after its first one.  Leading white space is skipped by
    the caller of [parse_value]; [fuel] bounds the nesting and the
    number of items. *)
Fixpoint parse_value (fuel : nat) (s : string) : option (JSValue * string) :=
  match fuel with
  | O => None
  | S fuel =>
      match s with
      | String "{" r =>
          match skip_ws r with
          | String "}" r' => Some (JObject [], r')
          | r1 =>
              match parse_member fuel r1 with
              | Some (m, r2) =>
                  match parse_members fuel r2 with
                  | Some (ms, r3) => Some (JObject (m :: ms), r3)
                  | None => None
                  end
              | None => None
              end
          end
      | String "[" r =>
          match skip_ws r with
          | String "]" r' => Some (JArray [], r')
          | r1 =>
              match parse_value fuel r1 with
              | Some (v, r2) =>
                  match parse_items fuel r2 with
                  | Some (vs, r3) => Some (JArray (v :: vs), r3)
                  | None => None
                  end
              | None => None
              end
          end
      | String "t" _ => expect "true" (JBool true) s
      | String "f" _ => expect "false" (JBool false) s
      | String "n" _ => expect "null" JNull s
      | String c r =>
          if is_quote c then
            match parse_chars r with
            | Some (us, r') => Some (JString us, r')
            | None => None
            end
          else
            match parse_number s with
            | Some (q, r) => Some (JNumber q, r)
            | None => None
            end
      | EmptyString => None
      end
  end
with parse_member (fuel : nat) (s : string)
     : option ((list N * JSValue) * string) :=
  match fuel with
  | O => None
  | S fuel =>
      match s with
      | String c r =>
          if is_quote c then
            match parse_chars r with
            | Some (key, r1) =>
                match skip_ws r1 with
                | String ":" r2 =>
                    match parse_value fuel (skip_ws r2) with
                    | Some (v, r3) => Some ((key, v), r3)
                    | None => None
                    end
                | _ => None
                end
            | None => None
            end
          else None
      | EmptyString => None
      end
  end
with parse_members (fuel : nat) (s : string)
     : option (list (list N * JSValue) * string) :=
  match fuel with
  | O => None
  | S fuel =>
      match skip_ws s with
      | String "}" r => Some ([], r)
      | String "," r =>
          match parse_member fuel (skip_ws r) with
          | Some (m, r1) =>
              match parse_members fuel r1 with
              | Some (ms, r2) => Some (m :: ms, r2)
              | None => None
              end
          | None => None
          end
      | _ => None
      end
  end
with parse_items (fuel : nat) (s : string)
     : option (list JSValue * string) :=
  match fuel with
  | O => None
  | S fuel =>
      match skip_ws s with
      | String "]" r => Some ([], r)
      | String "," r =>
          match parse_value fuel (skip_ws r) with
          | Some (v, r1) =>
              match parse_items fuel r1 with
              | Some (vs, r2) => Some (v :: vs, r2)
              | None => None
              end
          | None => None
          end
      | _ => None
      end
  end.

(** Every call consumes a character before the next one is made or is
    made on behalf of one that does, so twice the length is fuel
    enough. *)
Definition parse (text : string) : option JSValue :=
  match parse_value (2 * String.length text + 2) (skip_ws text) with
  | Some (v, rest) =>
      match skip_ws rest with
      | EmptyString => Some v
      | String _ _ => None
      end
  | None => None
  end.

Definition object_prototype : list string :=
  [ "constructor"; "hasOwnProperty"; "isPrototypeOf";
    "propertyIsEnumerable"; "toLocaleString"; "toString"; "valueOf";
    "__proto__"; "__defineGetter__"; "__defineSetter__";
    "__lookupGetter__"; "__lookupSetter__" ].

Definition array_prototype : list string :=
  [ "constructor"; "at"; "concat"; "copyWithin"; "entries"; "every";
    "fill"; "filter"; "find"; "findIndex"; "findLast"; "findLastIndex";
    "flat"; "flatMap"; "forEach"; "includes"; "indexOf"; "join"; "keys";
    "lastIndexOf"; "length"; "map"; "pop"; "push"; "reduce";
    "reduceRight"; "reverse"; "shift"; "slice"; "some"; "sort"; "splice";
    "toLocaleString"; "toReversed"; "toSorted"; "toSpliced"; "toString";
    "unshift"; "values"; "with" ].

Definition runtime : JsRuntime := {|
  JSON_parse := parse;
  Object_prototype_has := fun f => existsb (String.eqb f) object_prototype;
  Array_prototype_has := fun f => existsb (String.eqb f) array_prototype;
|}.

End ReferenceRuntime.

(* ===================================================================== *)
(** ** Providers and the effects of the router                            *)
(* ===================================================================== *)

(** A thrown [Error], by its message. *)
Definition Error : Set := string.

Inductive Outcome (A : Type) : Type :=
| Returned (a : A)
| Thrown (e : Error).
Arguments Returned {A} a.
Arguments Thrown {A} e.

(** src/intelligence/providers/base.ts *)
Record ExecuteOptions : Set := mkOptions {
  temperature : option Q;
  timeout : option Z;
  maxTokens : option Z;
}.

(** A provider is known to the router by its interface only.  Its answers
    are those of a network service: [execute] and [isAvailable] take, as
    their first argument, how many times the method was called before, so
    that two calls may answer differently. *)
Record LLMProvider : Type := mkProvider {
  name : string;
  provider_execute :
    nat -> AgentTask -> option ExecuteOptions -> Outcome AgentResponse;
  provider_isAvailable : nat -> Outcome bool;
}.

Record RouterConfig : Set := mkConfig {
  ollamaFallback : bool;
  ollamaTimeout : Z;
  maxCostPerExecution : Q;
}.

(** What the router does to the world, in order.  The lines written to
    the console are left out. *)
Inductive Event : Type :=
| OllamaIsAvailable
| OllamaExecute (task : AgentTask) (options : option ExecuteOptions)
| ClaudeExecute (task : AgentTask) (options : option ExecuteOptions)
| RecordUsage (response : AgentResponse).

Definition is_local (e : Event) : bool :=
  match e with
  | OllamaIsAvailable | OllamaExecute _ _ => true
  | ClaudeExecute _ _ | RecordUsage _ => false
  end.

Definition is_local_probe (e : Event) : bool :=
  match e with
  | OllamaIsAvailable => true
  | _ => false
  end.

Definition is_local_execute (e : Event) : bool :=
  match e with
  | OllamaExecute _ _ => true
  | _ => false
  end.

Definition is_remote_execute (e : Event) : bool :=
  match e with
  | ClaudeExecute _ _ => true
  | _ => false
  end.

Definition is_backend (e : Event) : bool :=
  is_local e || is_remote_execute e.

Definition calls (kind : Event -> bool) (trace : list Event) : nat :=
  List.length (List.filter kind trace).

(** Computations of the router: the trace so far goes in, an outcome and
    the extended trace come out. *)
Module Effect.

Definition M (A : Type) : Type := list Event -> Outcome A * list Event.

Definition ret {A : Type} (a : A) : M A := fun tr => (Returned a, tr).

Definition throw {A : Type} (e : Error) : M A := fun tr => (Thrown e, tr).

Definition bind {A B : Type} (c : M A) (k : A -> M B) : M B :=
  fun tr =>
    match c tr with
    | (Returned a, tr') => k a tr'
    | (Thrown e, tr') => (Thrown e, tr')
    end.

(** [try { body } catch (error) { handler }] *)
Definition try_catch {A : Type} (body : M A) (handler : Error -> M A) : M A :=
  fun tr =>
    match body tr with
    | (Returned a, tr') => (Returned a, tr')
    | (Thrown e, tr') => handler e tr'
    end.

(** A call that leaves [event] in the trace and answers as [answer] says,
    given the number of earlier calls of the same [kind]. *)
Definition call {A : Type} (kind : Event -> bool) (event : Event)
           (answer : nat -> Outcome A) : M A :=
  fun tr => (answer (calls kind tr), (tr ++ [event])%list).

End Effect.

Notation "x <- c ;; k" := (Effect.bind c (fun x => k))
  (at level 100, c at next level, right associativity).

(* ===================================================================== *)
(** ** IntelligenceRouter (src/intelligence/router.ts)                    *)
(* ===================================================================== *)

Module IntelligenceRouter.
Section Router.

Context `{JsRuntime}.
Variables (ollama_provider claude_provider : LLMProvider).
Variable config : RouterConfig.

Definition ollama_isAvailable : Effect.M bool :=
  Effect.call is_local_probe OllamaIsAvailable
              (provider_isAvailable ollama_provider).

Definition ollama_execute (task : AgentTask) (options : option ExecuteOptions)
  : Effect.M AgentResponse :=
  Effect.call is_local_execute (OllamaExecute task options)
              (fun n => provider_execute ollama_provider n task options).

Definition claude_execute (task : AgentTask) (options : option ExecuteOptions)
  : Effect.M AgentResponse :=
  Effect.call is_remote_execute (ClaudeExecute task options)
              (fun n => provider_execute claude_provider n task options).

Definition executeWithOllama (task : AgentTask) : Effect.M AgentResponse :=
  available <- ollama_isAvailable ;;
  if negb available then Effect.throw "Ollama not available"
  else
    ollama_execute task
      (Some (mkOptions (Some (1 # 10)%Q) (Some (ollamaTimeout config)) None)).

Definition executeWithClaude (task : AgentTask) : Effect.M AgentResponse :=
  claude_execute task None.

Definition execute (task : AgentTask) : Effect.M AgentResponse :=
  (* [analysis] is the [score] of the source *)
  let analysis := ComplexityAnalyzer.analyze task in
  (* Trivial: no LLM needed (deterministic) *)
  if score analysis <? 2 then
    Effect.throw "Deterministic tasks should not use LLM router"
  (* Simple: Ollama only *)
  else if score analysis <? 6 then
    executeWithOllama task
  (* Moderate: Try Ollama, fallback to Claude *)
  else if score analysis <? 8 then
    accepted <-
      (if ollamaFallback config then
         Effect.try_catch
           (result <- executeWithOllama task ;;
            (* Validate quality *)
            if QualityValidator.validate result task
            then Effect.ret (Some result)
            else Effect.ret None)
           (fun _ => Effect.ret None)
       else Effect.ret None) ;;
    match accepted with
    | Some result => Effect.ret result
    | None => executeWithClaude task
    end
  (* Complex: Claude only *)
  else executeWithClaude task.

End Router.
End IntelligenceRouter.

(* ===================================================================== *)
(** ** The code flow of the router specification document                 *)
(* ===================================================================== *)

(** The [execute] of SPEC_INTELLIGENCE_ROUTER.md, section Code Flow.  Its
    helper [recordUsage] is not defined anywhere in the repository: it is
    a parameter here, an effect that leaves a [RecordUsage] event and may
    throw. *)
Module RouterCodeFlow.
Section Router.

Context `{JsRuntime}.
Variables (ollama_provider claude_provider : LLMProvider).
Variable config : RouterConfig.
Variable recordUsage_answer : AgentResponse -> Outcome unit.

Definition recordUsage (result : AgentResponse) : Effect.M unit :=
  Effect.call (fun _ => false) (RecordUsage result)
              (fun _ => recordUsage_answer result).

Definition execute (task : AgentTask) : Effect.M AgentResponse :=
  (* 1. Assess complexity ([analysis] is the [score] of the source) *)
  let analysis := ComplexityAnalyzer.analyze task in
  (* 2. Select model *)
  let model := recommendedModel analysis in
  (* 3. Deterministic tasks shouldn't use LLM *)
  if recommended_eqb model rec_none then
    Effect.throw "Task is deterministic, should not use LLM router"
  else
    (* 4. Try Ollama for simple/moderate tasks *)
    returned <-
      (if recommended_eqb model rec_ollama || (score analysis <? 8) then
         if ollamaFallback config then
           Effect.try_catch
             ((* Check availability *)
              available <-
                IntelligenceRouter.ollama_isAvailable ollama_provider ;;
              if negb available then
                r <- IntelligenceRouter.claude_execute claude_provider
                       task None ;;
                Effect.ret (Some r)
              else
                (* Execute *)
                result <-
                  IntelligenceRouter.ollama_execute ollama_provider task
                    (Some (mkOptions (Some (1 # 10)%Q)
                                     (Some (ollamaTimeout config)) None)) ;;
                (* Validate *)
                if QualityValidator.validate result task then
                  _ <- recordUsage result ;;
                  Effect.ret (Some result)
                else Effect.ret None)
             (fun _ => Effect.ret None)
         else Effect.ret None
       else Effect.ret None) ;;
    match returned with
    | Some result => Effect.ret result
    | None =>
        (* 5. Use Claude (complex task or Ollama failed) *)
        result <- IntelligenceRouter.claude_execute claude_provider
                    task None ;;
        _ <- recordUsage result ;;
        Effect.ret result
    end.

End Router.
End RouterCodeFlow.

(* ===================================================================== *)
(** ** StateManager.recordCost (src/runtime/state.ts)                     *)
(* ===================================================================== *)

(** What SQLite does with the numbers of [recordCost].  better-sqlite3
    binds a JavaScript number as a REAL, a double.  NaN is stored as NULL,
    and NULL plus anything is NULL as NaN plus anything is NaN: the one
    NaN of [JsNumber.number] stands for NULL. *)
Module Sqlite.

(** A REAL stored into a column of INTEGER or REAL affinity is kept as the
    integer of the same value when it has one: the value is what it was,
    except that the sign of a zero is lost. *)
Definition stored (x : JsNumber.number) : JsNumber.number :=
  match x with
  | SpecFloat.S754_zero _ => JsNumber.zero
  | _ => x
  end.

(** [column + ?] with a REAL for [?]: the column is read as a double, the
    two are added as doubles, and the sum is stored. *)
Definition plus (column delta : JsNumber.number) : JsNumber.number :=
  stored (JsNumber.add column delta).

(** [execution_count + 1].  The column holds a 64-bit integer, and the
    sum of two integers is an integer while it fits.  From the largest
    integer, [2 ^ 63 - 1], the sum is computed in doubles and is
    [2 ^ 63], which stays a REAL; a REAL that large has no neighbour at
    distance 1, so from there on adding 1 changes nothing. *)
Definition increment (count : Z) : Z :=
  if (- 2 ^ 63 <=? count) && (count <? 2 ^ 63) then count + 1 else count.

End Sqlite.

(** A row of the table [cost_tracking] of data/schema.sql without its
    surrogate key [id]; the columns [date] and [model] are the key of the
    map, as [UNIQUE(date, model)] makes them.  The token columns and the
    cost hold the value of a double, the count an integer. *)
Record CostRow : Set := mkRow {
  tokens_input : JsNumber.number;
  tokens_output : JsNumber.number;
  row_cost : JsNumber.number;
  execution_count : Z;
}.

Abbreviation CostTable := (gmap (string * string) CostRow).

Module StateManager.

(** [iso.split('T')[0]]: what comes before the first [T]. *)
Fixpoint before_T (iso : string) : string :=
  match iso with
  | EmptyString => EmptyString
  | String c rest =>
      if Ascii.eqb c "T" then EmptyString else String c (before_T rest)
  end.

(** [recordCost], given the table and what [new Date().toISOString()]
    answers at the call.  The statement is an [INSERT ... ON CONFLICT
    (date, model) DO UPDATE SET ...]; its three numbers are JavaScript
    numbers. *)
Definition recordCost (db : CostTable) (now_iso : string)
           (model : string) (tokensInput tokensOutput cost : JsNumber.number)
  : CostTable :=
  let today := before_T now_iso in
  match db !! (today, model) with
  | None =>
      <[(today, model) :=
          mkRow (Sqlite.stored tokensInput) (Sqlite.stored tokensOutput)
                (Sqlite.stored cost) 1]> db
  | Some row =>
      <[(today, model) :=
          mkRow (Sqlite.plus (tokens_input row) tokensInput)
                (Sqlite.plus (tokens_output row) tokensOutput)
                (Sqlite.plus (row_cost row) cost)
                (Sqlite.increment (execution_count row))]> db
  end.

(** One call of [recordCost]: the clock, then the four arguments. *)
Record Call : Set := mkCall {
  call_now : string;
  call_model : string;
  call_tokensInput : JsNumber.number;
  call_tokensOutput : JsNumber.number;
  call_cost : JsNumber.number;
}.

Definition call_key (c : Call) : string * string :=
  (before_T (call_now c), call_model c).

Definition record (db : CostTable) (c : Call) : CostTable :=
  recordCost db (call_now c) (call_model c)
             (call_tokensInput c) (call_tokensOutput c) (call_cost c).

(** The row a call leaves under its key, given the row it found. *)
Definition upsert (found : option CostRow) (c : Call) : CostRow :=
  match found with
  | None =>
      mkRow (Sqlite.stored (call_tokensInput c))
            (Sqlite.stored (call_tokensOutput c))
            (Sqlite.stored (call_cost c)) 1
  | Some row =>
      mkRow (Sqlite.plus (tokens_input row) (call_tokensInput c))
            (Sqlite.plus (tokens_output row) (call_tokensOutput c))
            (Sqlite.plus (row_cost row) (call_cost c))
            (Sqlite.increment (execution_count row))
  end.

Definition record_all (db : CostTable) (cs : list Call) : CostTable :=
  List.fold_left record cs db.

(** What a column holds after the deltas were added to it one by one, in
    this order. *)
Definition running (start : JsNumber.number) (deltas : list JsNumber.number)
  : JsNumber.number :=
  List.fold_left Sqlite.plus deltas start.

Definition Zsum (l : list Z) : Z := List.fold_right Z.add 0 l.

(** The exact sum of the values of finite doubles. *)
Definition exact_sum (l : list JsNumber.number) : option Q :=
  List.fold_right
    (fun x acc =>
       match JsNumber.value x, acc with
       | Some q, Some total => Some (q + total)%Q
       | _, _ => None
       end)
    (Some 0%Q) l.

(** No field of [old] is above the same field of [new]. *)
Definition row_le (old new : CostRow) : Prop :=
  JsNumber.leb (tokens_input old) (tokens_input new) = true /\
  JsNumber.leb (tokens_output old) (tokens_output new) = true /\
  JsNumber.leb (row_cost old) (row_cost new) = true /\
  execution_count old <= execution_count new.

Definition nonnegative (c : Call) : Prop :=
  JsNumber.nonnegative (call_tokensInput c) = true /\
  JsNumber.nonnegative (call_tokensOutput c) = true /\
  JsNumber.nonnegative (call_cost c) = true.

Definition row_nonnegative (row : CostRow) : Prop :=
  JsNumber.nonnegative (tokens_input row) = true /\
  JsNumber.nonnegative (tokens_output row) = true /\
  JsNumber.nonnegative (row_cost row) = true.

(** A ledger without a negative field and without NULL: what calls that
    are [nonnegative] make of the empty ledger. *)
Definition table_nonnegative (db : CostTable) : Prop :=
  forall k row, db !! k = Some row -> row_nonnegative row.

End StateManager.

(* ===================================================================== *)
(** ** Definitions that follow the specification's words                  *)
(* ===================================================================== *)

(** The context-size bucket as the specification words it: [+3] above
    10000 characters, [+2] above 5000, [+1] above 2000, else [+0]; the
    highest applicable bucket wins. *)
Definition spec_context_bucket (length : Z) : Z :=
  if 10000 <? length then 3
  else if 5000 <? length then 2
  else if 2000 <? length then 1
  else 0.

(** The base score of a kind as the specification lists it. *)
Definition spec_base_score (k : TaskType) : Z :=
  match k with
  | classification => 1
  | extraction => 2
  | planning => 4
  | error_recovery => 5
  | workflow_compilation => 7
  | code_review => 8
  | security_analysis => 9
  end.

(** Character length of an optional context, an absent one counting 0. *)
Definition context_length (c : option string) : Z :=
  match c with
  | Some c => Z.of_nat (String.length c)
  | None => 0
  end.

(** The double quote, written by its code. *)
Definition dquote : string := String (ascii_of_N 34) EmptyString.

Definition quoted (s : string) : string := dquote ++ s ++ dquote.

(** A string of [n] copies of a character, to build long contexts. *)
Fixpoint repeat_char (c : ascii) (n : nat) : string :=
  match n with
  | O => EmptyString
  | S n' => String c (repeat_char c n')
  end.

(* ===================================================================== *)
(** ** Backends and tasks for the concrete runs                           *)
(* ===================================================================== *)

Module Fixtures.

(** A provider that answers every call alike. *)
Definition steady (name : string) (available : bool)
           (answer : Outcome AgentResponse) : LLMProvider :=
  mkProvider name (fun _ _ _ => answer) (fun _ => Returned available).

Definition local_answer : AgentResponse :=
  mkResponse "done" ollama 20 10 JsNumber.zero.

Definition local_bad_json : AgentResponse :=
  mkResponse "not valid json" ollama 20 10 JsNumber.zero.

(** 100 tokens in and 50 out at 3 and 15 dollars per million. *)
Definition remote_answer : AgentResponse :=
  mkResponse ("{" ++ quoted "data" ++ ": 1}") claude 100 50
             (JsNumber.ratio 21 20000).

Definition local_ok : LLMProvider :=
  steady "ollama" true (Returned local_answer).

Definition local_invalid : LLMProvider :=
  steady "ollama" true (Returned local_bad_json).

Definition local_throwing : LLMProvider :=
  steady "ollama" true (Thrown "Ollama execution failed: fetch failed").

Definition local_down : LLMProvider :=
  steady "ollama" false (Thrown "Ollama execution failed: fetch failed").

Definition remote_ok : LLMProvider :=
  steady "claude" true (Returned remote_answer).

Definition config_fallback : RouterConfig := mkConfig true 5000 (1 # 10)%Q.

(** The options [executeWithOllama] passes under [config_fallback]. *)
Definition local_options : option ExecuteOptions :=
  Some (mkOptions (Some (1 # 10)%Q) (Some 5000) None).

(** The task of the repository's test of the fallback on a quality
    failure. *)
Definition extract_json : AgentTask :=
  mkTask extraction "Extract data" None None (Some true) None None None.

Definition compile_workflow : AgentTask :=
  plain_task workflow_compilation "Convert this chat to a workflow".

Definition router := @IntelligenceRouter.execute ReferenceRuntime.runtime.

Definition code_flow (local remote : LLMProvider) (config : RouterConfig) :=
  @RouterCodeFlow.execute ReferenceRuntime.runtime local remote config
                          (fun _ => Returned tt).

End Fixtures.

(* ===================================================================== *)
(** ** Helpers for the statements                                         *)
(* ===================================================================== *)

(** [s] is made of characters of the class [p] only. *)
Fixpoint all_chars (p : ascii -> bool) (s : string) : bool :=
  match s with
  | EmptyString => true
  | String c s' => p c && all_chars p s'
  end.

(* ===================================================================== *)
(** ** The runs of IntelligenceRouter.execute                             *)
(* ===================================================================== *)

Module RouterRuns.
Section Runs.

Context `{JsRuntime}.
Variables (local remote : LLMProvider) (config : RouterConfig).

Local Abbreviation options :=
  (Some (mkOptions (Some (1 # 10)%Q) (Some (ollamaTimeout config)) None)).

(** The outcome of [IntelligenceRouter.execute] and the calls it adds to
    the trace, in every case. *)
Inductive Run (task : AgentTask) (trace : list Event)
  : Outcome AgentResponse -> list Event -> Prop :=
| run_rejected :
    score (ComplexityAnalyzer.analyze task) < 2 ->
    Run task trace (Thrown "Deterministic tasks should not use LLM router") []
| run_probe_failed (e : Error) :
    2 <= score (ComplexityAnalyzer.analyze task) < 6 ->
    (provider_isAvailable local (calls is_local_probe trace) = Returned false
     /\ e = "Ollama not available"
     \/ provider_isAvailable local (calls is_local_probe trace) = Thrown e) ->
    Run task trace (Thrown e) [OllamaIsAvailable]
| run_local_only :
    2 <= score (ComplexityAnalyzer.analyze task) < 6 ->
    provider_isAvailable local (calls is_local_probe trace) = Returned true ->
    Run task trace
        (provider_execute local (calls is_local_execute trace) task options)
        [OllamaIsAvailable; OllamaExecute task options]
| run_local_accepted (result : AgentResponse) :
    6 <= score (ComplexityAnalyzer.analyze task) < 8 ->
    ollamaFallback config = true ->
    provider_isAvailable local (calls is_local_probe trace) = Returned true ->
    provider_execute local (calls is_local_execute trace) task options
    = Returned result ->
    QualityValidator.validate result task = true ->
    Run task trace (Returned result)
        [OllamaIsAvailable; OllamaExecute task options]
| run_fallback_after_execute :
    6 <= score (ComplexityAnalyzer.analyze task) < 8 ->
    ollamaFallback config = true ->
    provider_isAvailable local (calls is_local_probe trace) = Returned true ->
    (forall result,
        provider_execute local (calls is_local_execute trace) task options
        = Returned result ->
        QualityValidator.validate result task = false) ->
    Run task trace
        (provider_execute remote (calls is_remote_execute trace) task None)
        [OllamaIsAvailable; OllamaExecute task options; ClaudeExecute task None]
| run_fallback_after_probe :
    6 <= score (ComplexityAnalyzer.analyze task) < 8 ->
    ollamaFallback config = true ->
    provider_isAvailable local (calls is_local_probe trace) <> Returned true ->
    Run task trace
        (provider_execute remote (calls is_remote_execute trace) task None)
        [OllamaIsAvailable; ClaudeExecute task None]
| run_remote_only :
    8 <= score (ComplexityAnalyzer.analyze task)
    \/ 6 <= score (ComplexityAnalyzer.analyze task)
       /\ ollamaFallback config = false ->
    Run task trace
        (provider_execute remote (calls is_remote_execute trace) task None)
        [ClaudeExecute task None].

End Runs.
End RouterRuns.

(* ===================================================================== *)
(** ** The two providers (src/intelligence/providers)                     *)
(* ===================================================================== *)

(** The line feed of the template strings. *)
Definition newline : string := String (ascii_of_N 10) EmptyString.

(** [n || fallback] on numbers: zero is falsy. *)
Definition number_or (n : option Z) (fallback : Z) : Z :=
  match n with
  | Some n => if n =? 0 then fallback else n
  | None => fallback
  end.

Definition rational_or (q : option Q) (fallback : Q) : Q :=
  match q with
  | Some q => if Qeq_bool q 0 then fallback else q
  | None => fallback
  end.

(** [options.f] when [options] defaults to [{}]. *)
Definition option_field {A : Type} (f : ExecuteOptions -> option A)
           (options : option ExecuteOptions) : option A :=
  match options with
  | Some o => f o
  | None => None
  end.

(** The prompt both providers compose; they differ in the sentence that
    asks for JSON. *)
Definition composePrompt (jsonInstruction : string) (task : AgentTask)
  : string :=
  let prompt := prompt task in
  let prompt :=
    match context task with
    | Some ctx =>
        if truthy_string (Some ctx)
        then "Context:" ++ newline ++ ctx ++ newline ++ newline
             ++ "Task:" ++ newline ++ prompt
        else prompt
    | None => prompt
    end in
  if truthy_bool (expectsJSON task)
  then prompt ++ newline ++ newline ++ jsonInstruction
  else prompt.

(** src/intelligence/providers/ollama.ts *)
Module OllamaProvider.

(** What [execute] hands to [fetch]: the address, the object it
    serialises into the body, and the delay after which its controller
    aborts the request. *)
Record GenerateRequest : Set := mkGenerateRequest {
  url : string;
  model : string;
  request_prompt : string;
  stream : bool;
  request_temperature : Q;
  num_predict : Z;
  abort_after : Z;
}.

(** The fields [execute] reads in the body of the reply. *)
Record GenerateData : Set := mkGenerateData {
  response : string;
  prompt_eval_count : option Z;
  eval_count : option Z;
}.

(** A reply of [fetch]: [response.ok], [response.statusText] and what
    [response.json()] gives. *)
Record HttpResponse : Set := mkHttpResponse {
  ok : bool;
  statusText : string;
  json : Outcome GenerateData;
}.

Section Provider.

(** The constructor's arguments, and the network: the answers of [fetch]
    to the POST on /api/generate and of the GET on /api/tags (its
    [response.ok]), by the number of earlier calls. *)
Variables (baseUrl modelName : string).
Variable fetch_generate : nat -> GenerateRequest -> Outcome HttpResponse.
Variable fetch_tags : nat -> Outcome bool.

Definition buildPrompt (task : AgentTask) : string :=
  composePrompt
    "Respond with valid JSON only. Do not include any preamble or explanation."
    task.

Definition request (task : AgentTask) (options : option ExecuteOptions)
  : GenerateRequest :=
  mkGenerateRequest
    (baseUrl ++ "/api/generate") modelName (buildPrompt task) false
    (rational_or (option_field temperature options) (1 # 10))
    (number_or (option_field maxTokens options) 2048)
    (number_or (option_field timeout options) 5000).

(** The body of the [try] block. *)
Definition attempt (calls_before : nat) (task : AgentTask)
           (options : option ExecuteOptions) : Outcome AgentResponse :=
  match fetch_generate calls_before (request task options) with
  | Thrown e => Thrown e
  | Returned reply =>
      if negb (ok reply)
      then Thrown ("Ollama request failed: " ++ statusText reply)
      else
        match json reply with
        | Thrown e => Thrown e
        | Returned data =>
            Returned (mkResponse (response data) ollama
                                 (number_or (prompt_eval_count data) 0)
                                 (number_or (eval_count data) 0)
                                 JsNumber.zero)
        end
  end.

Definition execute (calls_before : nat) (task : AgentTask)
           (options : option ExecuteOptions) : Outcome AgentResponse :=
  match attempt calls_before task options with
  | Returned result => Returned result
  | Thrown message => Thrown ("Ollama execution failed: " ++ message)
  end.

Definition isAvailable (calls_before : nat) : Outcome bool :=
  match fetch_tags calls_before with
  | Returned response_ok => Returned response_ok
  | Thrown _ => Returned false
  end.

Definition provider : LLMProvider :=
  mkProvider "ollama" execute isAvailable.

End Provider.
End OllamaProvider.

(** src/intelligence/providers/claude.ts *)
Module ClaudeProvider.

Record MessagesRequest : Set := mkMessagesRequest {
  model : string;
  max_tokens : Z;
  request_temperature : option Q;
  user_content : string;
}.

(** A block of [response.content]: a text, or a block of another type. *)
Inductive ContentBlock : Set :=
| TextBlock (text : string)
| OtherBlock (block_type : string).

Record Message : Set := mkMessage {
  message_content : list ContentBlock;
  input_tokens : Z;
  output_tokens : Z;
}.

Section Provider.

(** The model of the constructor and the API: the answers of
    [client.messages.create] to [execute] and to [isAvailable], by the
    number of earlier calls. *)
Variable modelName : string.
Variable messages_create : nat -> MessagesRequest -> Outcome Message.
Variable probe_create : nat -> MessagesRequest -> Outcome Message.

Definition buildPrompt (task : AgentTask) : string :=
  composePrompt "Respond with valid JSON only, no other text." task.

Definition request (task : AgentTask) (options : option ExecuteOptions)
  : MessagesRequest :=
  mkMessagesRequest
    modelName
    (number_or (option_field maxTokens options) 4096)
    (Some (rational_or (option_field temperature options) (7 # 10)))
    (buildPrompt task).

(** [(tokensInput * 3 / 1_000_000) + (tokensOutput * 15 / 1_000_000)] *)
Definition price (tokensInput tokensOutput : Z) : JsNumber.number :=
  JsNumber.add
    (JsNumber.div (JsNumber.mul (JsNumber.of_Z tokensInput) (JsNumber.of_Z 3))
                  (JsNumber.of_Z 1000000))
    (JsNumber.div (JsNumber.mul (JsNumber.of_Z tokensOutput)
                                (JsNumber.of_Z 15))
                  (JsNumber.of_Z 1000000)).

(** The double nearest to the exact price. *)
Definition nearest_price (tokensInput tokensOutput : Z) : JsNumber.number :=
  JsNumber.ratio (3 * tokensInput + 15 * tokensOutput) 1000000.

Definition execute (calls_before : nat) (task : AgentTask)
           (options : option ExecuteOptions) : Outcome AgentResponse :=
  match messages_create calls_before (request task options) with
  | Thrown e => Thrown e
  | Returned reply =>
      match message_content reply with
      | [] =>
          (* [response.content[0]] is undefined: the TypeError of V8 *)
          Thrown "Cannot read properties of undefined (reading 'type')"
      | block :: _ =>
          let content :=
            match block with
            | TextBlock text => text
            | OtherBlock _ => EmptyString
            end in
          Returned (mkResponse content claude
                               (input_tokens reply) (output_tokens reply)
                               (price (input_tokens reply)
                                      (output_tokens reply)))
      end
  end.

Definition isAvailable (calls_before : nat) : Outcome bool :=
  match probe_create calls_before
                     (mkMessagesRequest modelName 10 None "test") with
  | Returned _ => Returned true
  | Thrown _ => Returned false
  end.

Definition provider : LLMProvider :=
  mkProvider "claude" execute isAvailable.

End Provider.
End ClaudeProvider.

(* ===================================================================== *)
(** ** Sums over the cost ledger                                          *)
(* ===================================================================== *)

Module Ledger.

(** The sum of an integer column over all the rows of the table. *)
Definition column_total (column : CostRow -> Z) (db : CostTable) : Z :=
  map_fold (fun _ row acc => column row + acc) 0 db.

(** The tokens of a row as integers. *)
Definition input_count (row : CostRow) : Z :=
  JsNumber.to_Z (tokens_input row).
Definition output_count (row : CostRow) : Z :=
  JsNumber.to_Z (tokens_output row).

(** A number that holds a count: the double of an integer from 0 on. *)
Definition is_count (x : JsNumber.number) : Prop :=
  0 <= JsNumber.to_Z x /\ x = JsNumber.of_Z (JsNumber.to_Z x).

(** Every row holds counts of tokens, and a count of executions from 0
    on. *)
Definition counting (db : CostTable) : Prop :=
  forall k row,
    db !! k = Some row ->
    is_count (tokens_input row) /\ is_count (tokens_output row) /\
    0 <= execution_count row.

End Ledger.

(* ===================================================================== *)
(** ** StateManager.updateExecution (src/runtime/state.ts)                *)
(* ===================================================================== *)

Module Executions.

Inductive Status : Set := running | success | failed | partial.

(** A row of the table [executions] of data/schema.sql.  A [Date] is
    kept as the text [toISOString] gives for it; a column that may be
    NULL is an option. *)
Record Row : Set := mkRow {
  id : string;
  workflow_id : string;
  status : Status;
  started_at : string;
  completed_at : option string;
  trigger_type : string;
  trigger_data : option string;
  cost : option Q;
  error : option string;
  created_at : option string;
}.

(** The table, by its primary key [id]. *)
Abbreviation Table := (gmap string Row).

(** The fields of [Partial<Execution>] that [updateExecution] reads. *)
Record Updates : Set := mkUpdates {
  new_status : option Status;
  new_completedAt : option string;
  new_cost : option Q;
  new_error : option string;
}.

(** One [column = ?] of the statement, with the value bound to it. *)
Inductive Assignment : Set :=
| set_status (s : Status)
| set_completed_at (iso : string)
| set_cost (c : Q)
| set_error (e : string).

(** The [fields] and [values] that the four tests collect, in order. *)
Definition assignments (updates : Updates) : list Assignment :=
  (match new_status updates with
   | Some s => [set_status s]
   | None => []
   end
   ++ match new_completedAt updates with
      | Some d => [set_completed_at d]
      | None => []
      end
   ++ match new_cost updates with
      | Some c => [set_cost c]
      | None => []
      end
   ++ match new_error updates with
      | Some e => if truthy_string (Some e) then [set_error e] else []
      | None => []
      end)%list.

Definition assign (row : Row) (a : Assignment) : Row :=
  match a with
  | set_status s =>
      mkRow (id row) (workflow_id row) s (started_at row) (completed_at row)
            (trigger_type row) (trigger_data row) (cost row) (error row)
            (created_at row)
  | set_completed_at d =>
      mkRow (id row) (workflow_id row) (status row) (started_at row) (Some d)
            (trigger_type row) (trigger_data row) (cost row) (error row)
            (created_at row)
  | set_cost c =>
      mkRow (id row) (workflow_id row) (status row) (started_at row)
            (completed_at row) (trigger_type row) (trigger_data row)
            (Some c) (error row) (created_at row)
  | set_error e =>
      mkRow (id row) (workflow_id row) (status row) (started_at row)
            (completed_at row) (trigger_type row) (trigger_data row)
            (cost row) (Some e) (created_at row)
  end.

(** [UPDATE executions SET <fields joined by a comma> WHERE id = ?].
    With no field the text is not a statement, and preparing it throws
    the syntax error of SQLite. *)
Definition updateExecution (db : Table) (execution_id : string)
           (updates : Updates) : Outcome Table :=
  match assignments updates with
  | [] => Thrown ("near " ++ quoted "WHERE" ++ ": syntax error")
  | fields =>
      Returned
        match db !! execution_id with
        | Some row => <[execution_id := List.fold_left assign fields row]> db
        | None => db
        end
  end.

End Executions.

(* ===================================================================== *)
(** ** Facts about ComplexityAnalyzer                                     *)
(* ===================================================================== *)

Module AnalyzerFacts.
Import ComplexityAnalyzer.

(** The total is the sum of the six terms. *)
Lemma analyze_score (task : AgentTask) :
  score (analyze task) =
  taskTypeScore (type task) + contextSizeScore (context task)
  + (if detectAmbiguity (prompt task) then 2 else 0)
  + reasoningScore (type task) + toolCountScore (tools task)
  + (if truthy_bool (isRetry task) then 2 else 0).
Proof.
  unfold analyze; cbn [score].
  destruct (truthy_bool (isRetry task)); lia.
Qed.

Lemma taskTypeScore_base (k : TaskType) : taskTypeScore k = spec_base_score k.
Proof. destruct k; reflexivity. Qed.

(** The code's context term is the specification's bucket of the
    character length, an absent or empty context counting 0. *)
Lemma contextSizeScore_bucket (c : option string) :
  contextSizeScore c = spec_context_bucket (context_length c).
Proof.
  destruct c as [c|]; [|reflexivity].
  unfold contextSizeScore, context_length.
  destruct (String.eqb_spec c EmptyString) as [->|_]; reflexivity.
Qed.

Lemma spec_context_bucket_mono (a b : Z) :
  a <= b -> spec_context_bucket a <= spec_context_bucket b.
Proof.
  intros Hab; unfold spec_context_bucket.
  repeat match goal with
         | |- context [?x <? ?y] => destruct (Z.ltb_spec x y)
         end; lia.
Qed.

Lemma analyze_with_context (task : AgentTask) (c : option string) :
  score (analyze (with_context task c)) =
  score (analyze (with_context task None))
  + spec_context_bucket (context_length c).
Proof.
  rewrite !analyze_score, contextSizeScore_bucket; cbn; lia.
Qed.

(** The three end-to-end examples of the specification. *)
Example score_extract_repo_name :
  score (analyze (plain_task extraction
           "Extract repo name from: https://github.com/user/repo")) = 2.
Proof. vm_compute; reflexivity. Qed.

Example score_code_review :
  score (analyze (mkTask code_review "Review this code for security issues"
                         (Some "function login(user, pass) { ... }")
                         None None None None None)) = 8.
Proof. vm_compute; reflexivity. Qed.

Example score_planning_question :
  let analysis :=
    analyze (plain_task planning "Should I refactor module A or module B?") in
  score analysis = 9 /\
  reasoning analysis = "Score 9: ambiguous prompt, requires reasoning" /\
  recommendedModel analysis = rec_claude.
Proof. cbv zeta; repeat split; vm_compute; reflexivity. Qed.

End AnalyzerFacts.

(** C3, as stated, fails: a planning task with nothing but its kind and
    an unambiguous prompt totals 7, not the base score 4 of planning. *)
Lemma C3_counterexample :
  let task := plain_task planning "Plan the next three steps" in
  context task = None /\
  ComplexityAnalyzer.detectAmbiguity (prompt task) = false /\
  tools task = None /\ isRetry task = None /\
  spec_base_score (type task) = 4 /\
  score (ComplexityAnalyzer.analyze task) = 7.
Proof. cbv zeta; repeat split; vm_compute; reflexivity. Qed.

(** C3 (amended): for a task with absent context, a prompt without
    ambiguity markers, no declared tools and [isRetry] unset, the total is
    the base score of the kind plus the reasoning term, which is 3 for
    planning and error-recovery and 0 otherwise: classification 1,
    extraction 2, planning 7, error-recovery 8, workflow-compilation 7,
    code-review 8, security-analysis 9. *)
Theorem C3_total_is_base_plus_reasoning (task : AgentTask) :
  context task = None ->
  ComplexityAnalyzer.detectAmbiguity (prompt task) = false ->
  tools task = None \/ tools task = Some [] ->
  isRetry task = None ->
  score (ComplexityAnalyzer.analyze task) =
    spec_base_score (type task)
    + (match type task with planning | error_recovery => 3 | _ => 0 end)
  /\ score (ComplexityAnalyzer.analyze task) =
     match type task with
     | classification => 1
     | extraction => 2
     | planning => 7
     | error_recovery => 8
     | workflow_compilation => 7
     | code_review => 8
     | security_analysis => 9
     end.
Proof.
  intros Hc Ha Ht Hr.
  rewrite AnalyzerFacts.analyze_score, Hc, Ha, Hr.
  assert (ComplexityAnalyzer.toolCountScore (tools task) = 0) as ->
      by (destruct Ht as [-> | ->]; reflexivity).
  destruct (type task); split; reflexivity.
Qed.

Lemma C3_total_is_base_plus_reasoning_witness :
  score (ComplexityAnalyzer.analyze
           (plain_task error_recovery "Explain why the deploy step failed")) = 8.
Proof.
  apply (C3_total_is_base_plus_reasoning
           (plain_task error_recovery "Explain why the deploy step failed"));
    [reflexivity | vm_compute; reflexivity | left; reflexivity | reflexivity].
Defined.

(** C4: the recommendation is a function of the total alone, with the
    thresholds 2 and 7: below 2 none, from 2 up to 7 excluded ollama, from
    7 on claude; the totals 1, 2, 6, 7, 8 give none, ollama, ollama,
    claude, claude. *)
Theorem C4_recommendation_thresholds :
  (forall s : Z,
      (s < 2 -> ComplexityAnalyzer.getRecommendedModel s = rec_none) /\
      (2 <= s < 7 -> ComplexityAnalyzer.getRecommendedModel s = rec_ollama) /\
      (7 <= s -> ComplexityAnalyzer.getRecommendedModel s = rec_claude)) /\
  List.map ComplexityAnalyzer.getRecommendedModel [1; 2; 6; 7; 8]
  = [rec_none; rec_ollama; rec_ollama; rec_claude; rec_claude] /\
  (forall task : AgentTask,
      recommendedModel (ComplexityAnalyzer.analyze task)
      = ComplexityAnalyzer.getRecommendedModel
          (score (ComplexityAnalyzer.analyze task))).
Proof.
  split; [|split; [reflexivity|intros task; reflexivity]].
  intros s; unfold ComplexityAnalyzer.getRecommendedModel.
  destruct (Z.ltb_spec s 2), (Z.ltb_spec s 7); repeat split; intros; lia || reflexivity.
Qed.

Lemma C4_recommendation_thresholds_witness :
  ComplexityAnalyzer.getRecommendedModel 0 = rec_none /\
  ComplexityAnalyzer.getRecommendedModel 5 = rec_ollama /\
  ComplexityAnalyzer.getRecommendedModel 12 = rec_claude.
Proof.
  destruct C4_recommendation_thresholds as [H _].
  split; [apply (H 0); lia | split; [apply (H 5); lia | apply (H 12); lia]].
Defined.

(** C7: with the kind, the prompt, the tools and the retry flag fixed, the
    total does not decrease when the context gets longer; the context adds
    the bucket of its character length, 0 up to 2000, 1 above 2000, 2
    above 5000 and 3 above 10000, one bucket at a time. *)
Theorem C7_total_monotone_in_context_length
        (task : AgentTask) (c1 c2 : option string) :
  context_length c1 <= context_length c2 ->
  score (ComplexityAnalyzer.analyze (with_context task c1))
  <= score (ComplexityAnalyzer.analyze (with_context task c2))
  /\ (forall c : option string,
         score (ComplexityAnalyzer.analyze (with_context task c))
         = score (ComplexityAnalyzer.analyze (with_context task None))
           + spec_context_bucket (context_length c))
  /\ (forall n : Z,
         (n <= 2000 -> spec_context_bucket n = 0) /\
         (2000 < n <= 5000 -> spec_context_bucket n = 1) /\
         (5000 < n <= 10000 -> spec_context_bucket n = 2) /\
         (10000 < n -> spec_context_bucket n = 3)).
Proof.
  intros Hlen; split; [|split].
  - rewrite (AnalyzerFacts.analyze_with_context task c1),
            (AnalyzerFacts.analyze_with_context task c2).
    pose proof (AnalyzerFacts.spec_context_bucket_mono _ _ Hlen); lia.
  - apply AnalyzerFacts.analyze_with_context.
  - intros n; unfold spec_context_bucket.
    destruct (Z.ltb_spec 10000 n), (Z.ltb_spec 5000 n), (Z.ltb_spec 2000 n);
      repeat split; intros; lia.
Qed.

Lemma C7_total_monotone_in_context_length_witness :
  let task := plain_task extraction "Extract the repository name" in
  let short := Some "a short context" in
  let long := Some (repeat_char "x" (Z.to_nat 5001)) in
  score (ComplexityAnalyzer.analyze (with_context task short)) = 2 /\
  score (ComplexityAnalyzer.analyze (with_context task long)) = 4 /\
  score (ComplexityAnalyzer.analyze (with_context task short))
  <= score (ComplexityAnalyzer.analyze (with_context task long)).
Proof.
  cbv zeta; split; [vm_compute; reflexivity | split; [vm_compute; reflexivity|]].
  apply (C7_total_monotone_in_context_length
           (plain_task extraction "Extract the repository name")
           (Some "a short context") (Some (repeat_char "x" (Z.to_nat 5001)))).
  vm_compute; discriminate.
Defined.

(* ===================================================================== *)
(** ** Facts about QualityValidator                                       *)
(* ===================================================================== *)

Module ValidatorFacts.
Import QualityValidator.

(** [h > n * 0.5] on two lengths is [2 * h > n] on the integers. *)
Lemma Qgtb_half (h n : Z) :
  Qgtb (inject_Z h) (inject_Z n * (1 # 2))%Q = true <-> n < 2 * h.
Proof.
  unfold Qgtb. rewrite negb_true_iff, <- not_true_iff_false, Qle_bool_iff.
  unfold Qle, Qmult, inject_Z; cbn. lia.
Qed.

Lemma entityCheckFails_iff (responseContent ctx : string) :
  let entities := extractEntities responseContent in
  let unmatched := hallucinated entities (extractEntities ctx) in
  entityCheckFails responseContent ctx = true
  <-> Z.of_nat (List.length entities) < 2 * Z.of_nat (List.length unmatched).
Proof. cbv zeta. unfold entityCheckFails, length_Q. apply Qgtb_half. Qed.

(** [dedupe] leaves no entity twice and none of those already seen. *)
Lemma dedupe_spec (entities seen : list string) :
  List.NoDup (dedupe seen entities) /\
  (forall e, List.In e (dedupe seen entities)
             <-> List.In e entities /\ ~ List.In e seen).
Proof.
  revert seen; induction entities as [|x rest IH]; intros seen; cbn.
  - split; [constructor | tauto].
  - destruct (existsb (String.eqb x) seen) eqn:Hx.
    + destruct (IH seen) as [Hnd Hin]; split; [exact Hnd|].
      apply existsb_exists in Hx as (y & Hy & Hxy).
      apply String.eqb_eq in Hxy; subst y.
      intros e; rewrite Hin. intuition congruence.
    + destruct (IH (x :: seen)) as [Hnd Hin]; split.
      * constructor; [|exact Hnd].
        rewrite Hin; cbn; tauto.
      * assert (~ List.In x seen) as Hnx.
        { intros Hc.
          assert (existsb (String.eqb x) seen = true) as Ht
              by (apply existsb_exists; exists x; split;
                  [exact Hc | apply String.eqb_refl]).
          congruence. }
        intros e; cbn; rewrite Hin; cbn.
        destruct (string_dec x e) as [->|Hne]; intuition congruence.
Qed.

(** The entity set: the URL matches and the capitalized-word matches,
    each once. *)
Lemma extractEntities_spec (text : string) :
  List.NoDup (extractEntities text) /\
  (forall e, List.In e (extractEntities text)
             <-> List.In e (JsString.match_all JsString.url_at O None text)
                 \/ List.In e (JsString.match_all JsString.capitalized_at
                                                  O None text)).
Proof.
  unfold extractEntities.
  destruct (dedupe_spec
              (JsString.match_all JsString.url_at O None text
               ++ JsString.match_all JsString.capitalized_at O None text) [])
    as [Hnd Hin].
  split; [exact Hnd|].
  intros e; rewrite Hin, List.in_app_iff; cbn; tauto.
Qed.

(** The hallucination heuristic, once the context is a non-empty
    string: a placeholder, or the entity check. *)
Lemma detectHallucination_context
      (response : AgentResponse) (task : AgentTask) (ctx : string) :
  context task = Some ctx -> ctx <> EmptyString ->
  detectHallucination response task
  = placeholderFound (content response)
    || entityCheckFails (content response) ctx.
Proof.
  intros Hc Hne. unfold detectHallucination; rewrite Hc; cbn.
  destruct (String.eqb_spec ctx EmptyString) as [->|_]; [congruence|]; cbn.
  destruct (placeholderFound _), (entityCheckFails _ _); reflexivity.
Qed.

Lemma validate_eq `{JsRuntime} (response : AgentResponse) (task : AgentTask) :
  validate response task
  = jsonCheckPasses response task && negb (tooShort response task)
    && negb (detectHallucination response task).
Proof.
  unfold validate.
  destruct (jsonCheckPasses _ _), (tooShort _ _), (detectHallucination _ _);
    reflexivity.
Qed.

Lemma every_in_true `{JsRuntime} (fields : list string) (v : JSValue) :
  JsObject.every_in fields v = Some true ->
  forall f, List.In f fields -> JsObject.js_in f v = Some true.
Proof.
  induction fields as [|x rest IH]; cbn; [tauto|].
  destruct (JsObject.js_in x v) as [[|]|] eqn:Hx; try discriminate.
  intros Hrest f [<-|Hf]; [exact Hx | exact (IH Hrest f Hf)].
Qed.

(** [in] reaches the prototype chain: on the reference runtime an empty
    object has every property of [Object.prototype], so requiring
    [toString] of it is no constraint. *)
Example required_field_inherited :
  @validate ReferenceRuntime.runtime
            (mkResponse "{}" ollama 3 1 JsNumber.zero)
            (mkTask extraction "Describe the package" None None (Some true)
                    (Some ["toString"]) None None) = true.
Proof. vm_compute; reflexivity. Qed.

End ValidatorFacts.

(** C5: with a context present (a non-empty string), the entity-overlap
    check of [detectHallucination] fails exactly when the entities of the
    response that the context lacks number strictly more than half of the
    response's deduplicated entities (URL and capitalized-word matches).
    At exactly half the check passes, and [validate] then answers as its
    other checks say; above half [validate] answers false. *)
Theorem C5_entity_overlap_strict_half `{JsRuntime}
        (response : AgentResponse) (task : AgentTask) (ctx : string) :
  context task = Some ctx -> ctx <> EmptyString ->
  let entities := QualityValidator.extractEntities (content response) in
  let unmatched :=
    QualityValidator.hallucinated entities
                                  (QualityValidator.extractEntities ctx) in
  let total := Z.of_nat (List.length entities) in
  let missing := Z.of_nat (List.length unmatched) in
  List.NoDup entities /\
  (QualityValidator.entityCheckFails (content response) ctx = true
   <-> total < 2 * missing) /\
  (QualityValidator.detectHallucination response task = true
   <-> QualityValidator.placeholderFound (content response) = true
       \/ total < 2 * missing) /\
  (2 * missing = total ->
   QualityValidator.entityCheckFails (content response) ctx = false /\
   QualityValidator.validate response task
   = QualityValidator.jsonCheckPasses response task
     && negb (QualityValidator.tooShort response task)
     && negb (QualityValidator.placeholderFound (content response))) /\
  (total < 2 * missing -> QualityValidator.validate response task = false).
Proof.
  intros Hc Hne; cbv zeta.
  pose proof (ValidatorFacts.entityCheckFails_iff (content response) ctx) as Hiff.
  cbv zeta in Hiff.
  rewrite ValidatorFacts.validate_eq,
          (ValidatorFacts.detectHallucination_context response task ctx Hc Hne).
  split; [apply ValidatorFacts.extractEntities_spec|].
  split; [exact Hiff|].
  split; [rewrite orb_true_iff, Hiff; reflexivity|].
  split.
  - intros Heq.
    assert (QualityValidator.entityCheckFails (content response) ctx = false)
      as Hf by (apply not_true_iff_false; rewrite Hiff; lia).
    rewrite Hf, orb_false_r; split; reflexivity.
  - intros Hgt. apply Hiff in Hgt. rewrite Hgt, orb_true_r; cbn.
    apply andb_false_r.
Qed.

Lemma C5_entity_overlap_strict_half_witness :
  let task : AgentTask :=
    mkTask extraction "Name the people" (Some "Alice wrote the report")
           None None None None None in
  let half := mkResponse "Alice and Bob" ollama 10 5 JsNumber.zero in
  let above := mkResponse "Alice, Bob and Carol" ollama 10 5 JsNumber.zero in
  @QualityValidator.validate ReferenceRuntime.runtime half task = true /\
  @QualityValidator.validate ReferenceRuntime.runtime above task = false.
Proof.
  cbv zeta; split.
  - destruct (@C5_entity_overlap_strict_half ReferenceRuntime.runtime
                (mkResponse "Alice and Bob" ollama 10 5 JsNumber.zero)
                (mkTask extraction "Name the people"
                        (Some "Alice wrote the report")
                        None None None None None)
                "Alice wrote the report" eq_refl ltac:(discriminate))
      as (_ & _ & _ & Hhalf & _).
    destruct (Hhalf ltac:(vm_compute; reflexivity)) as [_ ->].
    vm_compute; reflexivity.
  - apply (@C5_entity_overlap_strict_half ReferenceRuntime.runtime
             (mkResponse "Alice, Bob and Carol" ollama 10 5 JsNumber.zero)
             (mkTask extraction "Name the people"
                     (Some "Alice wrote the report")
                     None None None None None)
             "Alice wrote the report" eq_refl ltac:(discriminate)).
    vm_compute; reflexivity.
Defined.

(** C6 fails on [validate] for a required field whose name every object
    inherits.  The content [{}] parses to an object with no member, so the
    fields [constructor] and [toString] are absent from the parsed
    structure; yet [constructor in parsed] and [toString in parsed] are
    true through the prototype chain, and [validate] accepts the response.
    A required field that nothing provides, such as [name], is rejected
    on the same content. *)
Theorem C6_inherited_field_accepted :
  let task field :=
    mkTask extraction "Describe the package" None None (Some true)
           (Some [field]) None None in
  let response := mkResponse "{}" ollama 3 1 JsNumber.zero in
  @JSON_parse ReferenceRuntime.runtime (content response)
  = Some (JObject []) /\
  JsObject.object_own [] "constructor" = false /\
  JsObject.object_own [] "toString" = false /\
  @QualityValidator.validate ReferenceRuntime.runtime response
                             (task "constructor") = true /\
  @QualityValidator.validate ReferenceRuntime.runtime response
                             (task "toString") = true /\
  @QualityValidator.validate ReferenceRuntime.runtime response
                             (task "name") = false.
Proof. cbv zeta; repeat split; vm_compute; reflexivity. Qed.

(** The structured-output gate as the code has it: when
    [task.expectsJSON] is set, [validate] answers false whenever
    [JSON.parse] throws on the content, whatever the other fields of the
    task and of the response; and when the content parses and
    [requiredFields] lists a field that is not [in] the parsed value,
    own or inherited, [validate] answers false as well. *)
Theorem structured_output_gate `{JsRuntime}
        (response : AgentResponse) (task : AgentTask) :
  expectsJSON task = Some true ->
  (JSON_parse (content response) = None ->
   QualityValidator.validate response task = false) /\
  (forall (parsed : JSValue) (fields : list string) (field : string),
      JSON_parse (content response) = Some parsed ->
      requiredFields task = Some fields ->
      List.In field fields ->
      JsObject.js_in field parsed <> Some true ->
      QualityValidator.validate response task = false).
Proof.
  intros He; split.
  - intros Hp. unfold QualityValidator.validate, QualityValidator.jsonCheckPasses.
    rewrite He, Hp; reflexivity.
  - intros parsed fields field Hp Hf Hin Habs.
    unfold QualityValidator.validate, QualityValidator.jsonCheckPasses.
    rewrite He, Hp, Hf; cbn.
    destruct (JsObject.every_in fields parsed) as [[|]|] eqn:Hall;
      try reflexivity.
    exfalso; apply Habs.
    exact (ValidatorFacts.every_in_true fields parsed Hall field Hin).
Qed.

Lemma structured_output_gate_witness :
  let task : AgentTask :=
    mkTask extraction "Describe the package" None None (Some true)
           (Some ["name"; "version"]) None None in
  let unparsable := mkResponse "not valid json" ollama 12 4 JsNumber.zero in
  let partial :=
    mkResponse ("{" ++ quoted "name" ++ ": " ++ quoted "clawless" ++ "}")
               ollama 12 9 JsNumber.zero in
  @QualityValidator.validate ReferenceRuntime.runtime unparsable task = false /\
  @QualityValidator.validate ReferenceRuntime.runtime partial task = false.
Proof.
  cbv zeta; split.
  - apply (@structured_output_gate ReferenceRuntime.runtime
             (mkResponse "not valid json" ollama 12 4 JsNumber.zero)
             (mkTask extraction "Describe the package" None None (Some true)
                     (Some ["name"; "version"]) None None) eq_refl).
    vm_compute; reflexivity.
  - apply (proj2 (@structured_output_gate ReferenceRuntime.runtime
             (mkResponse ("{" ++ quoted "name" ++ ": " ++ quoted "clawless"
                              ++ "}") ollama 12 9 JsNumber.zero)
             (mkTask extraction "Describe the package" None None (Some true)
                     (Some ["name"; "version"]) None None) eq_refl)
             (JObject [(JsObject.units "name",
                        JString (JsObject.units "clawless"))])
             ["name"; "version"] "version").
    + vm_compute; reflexivity.
    + reflexivity.
    + right; left; reflexivity.
    + vm_compute; discriminate.
Defined.

(** C10: a response whose content yields no entity never fails the
    entity-overlap check, whatever the context: the heuristic then finds
    a hallucination only through a placeholder, and [validate] answers
    false only through the structured-output check, the minimum length or
    a placeholder. *)
Theorem C10_no_entities_no_overlap_failure `{JsRuntime}
        (response : AgentResponse) (task : AgentTask) :
  QualityValidator.extractEntities (content response) = [] ->
  (forall ctx : string,
      QualityValidator.entityCheckFails (content response) ctx = false) /\
  QualityValidator.detectHallucination response task
  = QualityValidator.placeholderFound (content response) /\
  (QualityValidator.validate response task = false ->
   QualityValidator.jsonCheckPasses response task = false \/
   QualityValidator.tooShort response task = true \/
   QualityValidator.placeholderFound (content response) = true).
Proof.
  intros Hnone.
  assert (forall ctx : string,
             QualityValidator.entityCheckFails (content response) ctx = false)
    as Hcheck.
  { intros ctx. apply not_true_iff_false.
    rewrite ValidatorFacts.entityCheckFails_iff, Hnone; cbn; lia. }
  assert (QualityValidator.detectHallucination response task
          = QualityValidator.placeholderFound (content response)) as Hdet.
  { unfold QualityValidator.detectHallucination.
    destruct (QualityValidator.placeholderFound _); [reflexivity|].
    destruct (context task) as [ctx|]; [|reflexivity].
    rewrite Hcheck, andb_false_r; reflexivity. }
  split; [exact Hcheck | split; [exact Hdet|]].
  rewrite ValidatorFacts.validate_eq, Hdet.
  destruct (QualityValidator.jsonCheckPasses _ _),
           (QualityValidator.tooShort _ _),
           (QualityValidator.placeholderFound _); cbn; intros; auto; discriminate.
Qed.

Lemma C10_no_entities_no_overlap_failure_witness :
  let task : AgentTask :=
    mkTask extraction "List the steps" (Some "Deploy Notes from Monday")
           None None None None None in
  let response := mkResponse "build, then test, then ship" ollama 9 7 JsNumber.zero in
  QualityValidator.detectHallucination response task = false.
Proof.
  cbv zeta.
  destruct (@C10_no_entities_no_overlap_failure ReferenceRuntime.runtime
              (mkResponse "build, then test, then ship" ollama 9 7 JsNumber.zero)
              (mkTask extraction "List the steps"
                      (Some "Deploy Notes from Monday")
                      None None None None None)
              ltac:(vm_compute; reflexivity)) as (_ & -> & _).
  vm_compute; reflexivity.
Defined.

(* ===================================================================== *)
(** ** Facts about the two routers                                        *)
(* ===================================================================== *)

Module RouterFacts.
Section Facts.

Context `{JsRuntime}.
Variables (local remote : LLMProvider) (config : RouterConfig).
Variable recordUsage_answer : AgentResponse -> Outcome unit.

Local Abbreviation route := (IntelligenceRouter.execute local remote config).
Local Abbreviation flow :=
  (RouterCodeFlow.execute local remote config recordUsage_answer).
Local Abbreviation options :=
  (Some (mkOptions (Some (1 # 10)%Q) (Some (ollamaTimeout config)) None)).

Lemma recommended_of_score (task : AgentTask) :
  recommendedModel (ComplexityAnalyzer.analyze task)
  = ComplexityAnalyzer.getRecommendedModel
      (score (ComplexityAnalyzer.analyze task)).
Proof. reflexivity. Qed.

(** The three bands of [IntelligenceRouter.execute]. *)
Lemma route_trivial (task : AgentTask) (trace : list Event) :
  score (ComplexityAnalyzer.analyze task) < 2 ->
  route task trace
  = (Thrown "Deterministic tasks should not use LLM router", trace).
Proof.
  intros Hs. unfold IntelligenceRouter.execute; cbv zeta.
  destruct (Z.ltb_spec (score (ComplexityAnalyzer.analyze task)) 2);
    [reflexivity | lia].
Qed.

Lemma route_simple (task : AgentTask) (trace : list Event) :
  2 <= score (ComplexityAnalyzer.analyze task) < 6 ->
  route task trace
  = IntelligenceRouter.executeWithOllama local config task trace.
Proof.
  intros Hs. unfold IntelligenceRouter.execute; cbv zeta.
  destruct (Z.ltb_spec (score (ComplexityAnalyzer.analyze task)) 2); [lia|].
  destruct (Z.ltb_spec (score (ComplexityAnalyzer.analyze task)) 6);
    [reflexivity | lia].
Qed.

Lemma route_complex (task : AgentTask) (trace : list Event) :
  8 <= score (ComplexityAnalyzer.analyze task)
  \/ (6 <= score (ComplexityAnalyzer.analyze task)
      /\ ollamaFallback config = false) ->
  route task trace
  = (provider_execute remote (calls is_remote_execute trace) task None,
     (trace ++ [ClaudeExecute task None])%list).
Proof.
  intros Hs. unfold IntelligenceRouter.execute; cbv zeta.
  destruct (Z.ltb_spec (score (ComplexityAnalyzer.analyze task)) 2); [lia|].
  destruct (Z.ltb_spec (score (ComplexityAnalyzer.analyze task)) 6); [lia|].
  destruct (Z.ltb_spec (score (ComplexityAnalyzer.analyze task)) 8);
    [|reflexivity].
  destruct Hs as [Hs | [_ Hf]]; [lia|].
  rewrite Hf; reflexivity.
Qed.

(** The moderate band with the fallback enabled: every way the local
    attempt can end. *)
Lemma route_moderate (task : AgentTask) (trace : list Event) :
  6 <= score (ComplexityAnalyzer.analyze task) < 8 ->
  ollamaFallback config = true ->
  let probed := (trace ++ [OllamaIsAvailable])%list in
  let tried := (probed ++ [OllamaExecute task options])%list in
  route task trace =
  match provider_isAvailable local (calls is_local_probe trace) with
  | Returned true =>
      match provider_execute local (calls is_local_execute probed)
                             task options with
      | Returned result =>
          if QualityValidator.validate result task
          then (Returned result, tried)
          else IntelligenceRouter.claude_execute remote task None tried
      | Thrown _ => IntelligenceRouter.claude_execute remote task None tried
      end
  | Returned false | Thrown _ =>
      IntelligenceRouter.claude_execute remote task None probed
  end.
Proof.
  intros Hs Hf; cbv zeta.
  unfold IntelligenceRouter.execute; cbv zeta.
  destruct (Z.ltb_spec (score (ComplexityAnalyzer.analyze task)) 2); [lia|].
  destruct (Z.ltb_spec (score (ComplexityAnalyzer.analyze task)) 6); [lia|].
  destruct (Z.ltb_spec (score (ComplexityAnalyzer.analyze task)) 8); [|lia].
  rewrite Hf.
  unfold Effect.bind, Effect.try_catch, IntelligenceRouter.executeWithOllama,
    IntelligenceRouter.executeWithClaude, Effect.bind,
    IntelligenceRouter.ollama_isAvailable, IntelligenceRouter.ollama_execute,
    Effect.call, Effect.throw, Effect.ret.
  destruct (provider_isAvailable local _) as [[|]|e]; cbn [negb]; try reflexivity.
  destruct (provider_execute local _ task options) as [result|e];
    [|reflexivity].
  destruct (QualityValidator.validate result task); reflexivity.
Qed.

(** The code flow of the specification document, when it goes to the
    remote backend at once. *)
Lemma flow_trivial (task : AgentTask) (trace : list Event) :
  score (ComplexityAnalyzer.analyze task) < 2 ->
  flow task trace
  = (Thrown "Task is deterministic, should not use LLM router", trace).
Proof.
  intros Hs. unfold RouterCodeFlow.execute; cbv zeta.
  rewrite recommended_of_score.
  unfold ComplexityAnalyzer.getRecommendedModel.
  destruct (Z.ltb_spec (score (ComplexityAnalyzer.analyze task)) 2);
    [reflexivity | lia].
Qed.

Lemma flow_complex (task : AgentTask) (trace : list Event) :
  8 <= score (ComplexityAnalyzer.analyze task)
  \/ (7 <= score (ComplexityAnalyzer.analyze task)
      /\ ollamaFallback config = false) ->
  flow task trace
  = (result <- IntelligenceRouter.claude_execute remote task None ;;
     _ <- RouterCodeFlow.recordUsage recordUsage_answer result ;;
     Effect.ret result) trace.
Proof.
  intros Hs. unfold RouterCodeFlow.execute; cbv zeta.
  rewrite recommended_of_score.
  unfold ComplexityAnalyzer.getRecommendedModel.
  destruct (Z.ltb_spec (score (ComplexityAnalyzer.analyze task)) 2); [lia|].
  destruct (Z.ltb_spec (score (ComplexityAnalyzer.analyze task)) 7); [lia|].
  cbn [recommended_eqb orb].
  destruct (Z.ltb_spec (score (ComplexityAnalyzer.analyze task)) 8);
    [|reflexivity].
  destruct Hs as [Hs | [_ Hf]]; [lia|].
  rewrite Hf; reflexivity.
Qed.

(** The code flow when it tries the local backend first: every way the
    attempt can end.  A remote call made because the probe failed is
    inside the [try] block, so its failure is caught too and the remote
    backend is called a second time. *)
Lemma flow_local_first (task : AgentTask) (trace : list Event) :
  2 <= score (ComplexityAnalyzer.analyze task) < 8 ->
  ollamaFallback config = true ->
  let remote_then_record :=
    (result <- IntelligenceRouter.claude_execute remote task None ;;
     _ <- RouterCodeFlow.recordUsage recordUsage_answer result ;;
     Effect.ret result) in
  let probed := (trace ++ [OllamaIsAvailable])%list in
  let tried := (probed ++ [OllamaExecute task options])%list in
  flow task trace =
  match provider_isAvailable local (calls is_local_probe trace) with
  | Returned true =>
      match provider_execute local (calls is_local_execute probed)
                             task options with
      | Returned result =>
          if QualityValidator.validate result task then
            match recordUsage_answer result with
            | Returned _ =>
                (Returned result, (tried ++ [RecordUsage result])%list)
            | Thrown _ =>
                remote_then_record (tried ++ [RecordUsage result])%list
            end
          else remote_then_record tried
      | Thrown _ => remote_then_record tried
      end
  | Returned false =>
      match provider_execute remote (calls is_remote_execute probed)
                             task None with
      | Returned result =>
          (Returned result, (probed ++ [ClaudeExecute task None])%list)
      | Thrown _ =>
          remote_then_record (probed ++ [ClaudeExecute task None])%list
      end
  | Thrown _ => remote_then_record probed
  end.
Proof.
  intros Hs Hf; cbv zeta.
  unfold RouterCodeFlow.execute; cbv zeta.
  rewrite recommended_of_score.
  unfold ComplexityAnalyzer.getRecommendedModel.
  destruct (Z.ltb_spec (score (ComplexityAnalyzer.analyze task)) 2); [lia|].
  assert (recommended_eqb
            (if score (ComplexityAnalyzer.analyze task) <? 7
             then rec_ollama else rec_claude) rec_none = false) as ->
      by (destruct (_ <? 7); reflexivity).
  assert (recommended_eqb
            (if score (ComplexityAnalyzer.analyze task) <? 7
             then rec_ollama else rec_claude) rec_ollama
          || (score (ComplexityAnalyzer.analyze task) <? 8) = true) as ->.
  { destruct (Z.ltb_spec (score (ComplexityAnalyzer.analyze task)) 8); [|lia].
    apply orb_true_r. }
  rewrite Hf.
  unfold Effect.bind at 1. unfold Effect.try_catch.
  unfold Effect.bind at 1.
  unfold IntelligenceRouter.ollama_isAvailable at 1. unfold Effect.call at 1.
  destruct (provider_isAvailable local _) as [[|]|e]; cbn [negb].
  - unfold Effect.bind at 1.
    unfold IntelligenceRouter.ollama_execute at 1. unfold Effect.call at 1.
      destruct (provider_execute local _ task options) as [result|e];
      [|reflexivity].
    destruct (QualityValidator.validate result task); [|reflexivity].
    unfold Effect.bind at 1. unfold RouterCodeFlow.recordUsage at 1.
    unfold Effect.call at 1.
    destruct (recordUsage_answer result); reflexivity.
  - unfold Effect.bind at 1.
    unfold IntelligenceRouter.claude_execute at 1. unfold Effect.call at 1.
    destruct (provider_execute remote _ task None); reflexivity.
  - reflexivity.
Qed.

(** What [claude.execute] followed by [recordUsage] leaves in the
    trace: one remote call and no other backend call. *)
Lemma remote_then_record_backend (task : AgentTask) (trace : list Event) :
  List.filter is_backend
    (snd ((result <- IntelligenceRouter.claude_execute remote task None ;;
           _ <- RouterCodeFlow.recordUsage recordUsage_answer result ;;
           Effect.ret result) trace))
  = (List.filter is_backend trace ++ [ClaudeExecute task None])%list.
Proof.
  unfold Effect.bind, IntelligenceRouter.claude_execute,
    RouterCodeFlow.recordUsage, Effect.call, Effect.ret.
  destruct (provider_execute remote _ task None) as [result|e]; cbn [snd].
  - destruct (recordUsage_answer result); cbn [snd];
      rewrite !List.filter_app; cbn; rewrite List.app_nil_r; reflexivity.
  - rewrite List.filter_app; reflexivity.
Qed.

End Facts.
End RouterFacts.

(** C1, as stated, fails at the total 7: a workflow-compilation task
    scores 7 and is recommended the remote backend, yet both routers
    probe the local backend, run the task on it and return its answer
    without ever calling the remote one. *)
Lemma C1_counterexample :
  let task := Fixtures.compile_workflow in
  score (ComplexityAnalyzer.analyze task) = 7 /\
  recommendedModel (ComplexityAnalyzer.analyze task) = rec_claude /\
  Fixtures.router Fixtures.local_ok Fixtures.remote_ok
                  Fixtures.config_fallback task []
  = (Returned Fixtures.local_answer,
     [OllamaIsAvailable; OllamaExecute task Fixtures.local_options]) /\
  Fixtures.code_flow Fixtures.local_ok Fixtures.remote_ok
                     Fixtures.config_fallback task []
  = (Returned Fixtures.local_answer,
     [OllamaIsAvailable; OllamaExecute task Fixtures.local_options;
      RecordUsage Fixtures.local_answer]).
Proof. cbv zeta; repeat split; vm_compute; reflexivity. Qed.

(** C1 (amended): for every task whose total is at least 8, and for
    every task whose total is at least 7 when [config.ollamaFallback] is
    off, [execute] calls the remote backend's [execute] once and calls
    nothing of the local backend, neither its probe nor its [execute]. *)
Theorem C1_remote_only_from_score_8 `{JsRuntime}
        (local remote : LLMProvider) (config : RouterConfig)
        (recordUsage_answer : AgentResponse -> Outcome unit)
        (task : AgentTask) (trace : list Event) :
  8 <= score (ComplexityAnalyzer.analyze task)
  \/ (7 <= score (ComplexityAnalyzer.analyze task)
      /\ ollamaFallback config = false) ->
  IntelligenceRouter.execute local remote config task trace
  = (provider_execute remote (calls is_remote_execute trace) task None,
     (trace ++ [ClaudeExecute task None])%list)
  /\ List.filter is_backend
       (snd (RouterCodeFlow.execute local remote config recordUsage_answer
                                    task trace))
     = (List.filter is_backend trace ++ [ClaudeExecute task None])%list.
Proof.
  intros Hs; split.
  - apply RouterFacts.route_complex.
    destruct Hs as [Hs | [Hs Hf]]; [left; exact Hs | right; split; [lia | exact Hf]].
  - rewrite RouterFacts.flow_complex by exact Hs.
    apply RouterFacts.remote_then_record_backend.
Qed.

Lemma C1_remote_only_from_score_8_witness :
  let task :=
    mkTask code_review "Review this code for security issues"
           (Some "function login(user, pass) { ... }")
           None None None None None in
  Fixtures.router Fixtures.local_ok Fixtures.remote_ok
                  Fixtures.config_fallback task []
  = (Returned Fixtures.remote_answer, [ClaudeExecute task None]).
Proof.
  cbv zeta.
  apply (@C1_remote_only_from_score_8 ReferenceRuntime.runtime
           Fixtures.local_ok Fixtures.remote_ok Fixtures.config_fallback
           (fun _ => Returned tt)
           (mkTask code_review "Review this code for security issues"
                   (Some "function login(user, pass) { ... }")
                   None None None None None) []).
  left; vm_compute; discriminate.
Defined.

(** C2 fails on [IntelligenceRouter.execute] for the totals 2 to 5, where
    the router calls [executeWithOllama] and nothing else.  On the task
    of the repository's own fallback test (extraction, total 2, JSON
    expected): a local backend that throws makes [execute] throw after
    one local attempt and no remote one; a local answer that is not JSON
    is returned although [validate] rejects it; a failed probe makes
    [execute] throw.  The code flow of the specification document falls
    back to the remote backend on the same inputs. *)
Theorem C2_simple_band_has_no_fallback :
  let task := Fixtures.extract_json in
  let remote := Fixtures.remote_ok in
  let config := Fixtures.config_fallback in
  let attempt := [OllamaIsAvailable; OllamaExecute task Fixtures.local_options] in
  score (ComplexityAnalyzer.analyze task) = 2 /\
  recommendedModel (ComplexityAnalyzer.analyze task) = rec_ollama /\
  Fixtures.router Fixtures.local_throwing remote config task []
  = (Thrown "Ollama execution failed: fetch failed", attempt) /\
  @QualityValidator.validate ReferenceRuntime.runtime
                             Fixtures.local_bad_json task = false /\
  Fixtures.router Fixtures.local_invalid remote config task []
  = (Returned Fixtures.local_bad_json, attempt) /\
  Fixtures.router Fixtures.local_down remote config task []
  = (Thrown "Ollama not available", [OllamaIsAvailable]) /\
  Fixtures.code_flow Fixtures.local_throwing remote config task []
  = (Returned Fixtures.remote_answer,
     (attempt ++ [ClaudeExecute task None;
                  RecordUsage Fixtures.remote_answer])%list) /\
  Fixtures.code_flow Fixtures.local_invalid remote config task []
  = (Returned Fixtures.remote_answer,
     (attempt ++ [ClaudeExecute task None;
                  RecordUsage Fixtures.remote_answer])%list).
Proof. cbv zeta; repeat split; vm_compute; reflexivity. Qed.

(** C8: a task whose total is below 2 makes [execute] throw at once, and
    the trace of backend calls is left as it was: no probe and no
    [execute] of either backend happens. *)
Theorem C8_deterministic_task_rejected `{JsRuntime}
        (local remote : LLMProvider) (config : RouterConfig)
        (recordUsage_answer : AgentResponse -> Outcome unit)
        (task : AgentTask) (trace : list Event) :
  score (ComplexityAnalyzer.analyze task) < 2 ->
  recommendedModel (ComplexityAnalyzer.analyze task) = rec_none /\
  IntelligenceRouter.execute local remote config task trace
  = (Thrown "Deterministic tasks should not use LLM router", trace) /\
  RouterCodeFlow.execute local remote config recordUsage_answer task trace
  = (Thrown "Task is deterministic, should not use LLM router", trace) /\
  calls is_backend
        (snd (IntelligenceRouter.execute local remote config task [])) = O.
Proof.
  intros Hs.
  pose proof (RouterFacts.route_trivial local remote config task) as Hr.
  split; [|split; [apply Hr, Hs | split]].
  - rewrite RouterFacts.recommended_of_score.
    unfold ComplexityAnalyzer.getRecommendedModel.
    destruct (Z.ltb_spec (score (ComplexityAnalyzer.analyze task)) 2);
      [reflexivity | lia].
  - apply RouterFacts.flow_trivial, Hs.
  - rewrite (Hr [] Hs); reflexivity.
Qed.

Lemma C8_deterministic_task_rejected_witness :
  Fixtures.router Fixtures.local_ok Fixtures.remote_ok Fixtures.config_fallback
                  (plain_task classification "Is this message urgent") []
  = (Thrown "Deterministic tasks should not use LLM router", []).
Proof.
  apply (@C8_deterministic_task_rejected ReferenceRuntime.runtime
           Fixtures.local_ok Fixtures.remote_ok Fixtures.config_fallback
           (fun _ => Returned tt)
           (plain_task classification "Is this message urgent") []).
  vm_compute; reflexivity.
Defined.

(* ===================================================================== *)
(** ** Facts about doubles                                                *)
(* ===================================================================== *)

(** What the ledger needs of binary64 arithmetic, proved on [SpecFloat]:
    how rounding finds its mantissa, that adding a double that is not
    negative never gives less, and that integers add up exactly while
    the sum is at most [2 ^ 53]. *)
Module DoubleFacts.
Import SpecFloat.
Import JsNumber (pack, canon).

Local Abbreviation fexp := (SpecFloat.fexp JsNumber.prec JsNumber.emax).
Local Abbreviation round_aux :=
  (SpecFloat.binary_round_aux JsNumber.prec JsNumber.emax).
Local Abbreviation round := (SpecFloat.binary_round JsNumber.prec JsNumber.emax).

Lemma fexp_eq (e : Z) : fexp e = Z.max (e - 53) (-1074).
Proof. reflexivity. Qed.

Lemma digits_log2 (m : positive) :
  Z.pos (digits2_pos m) = Z.log2 (Z.pos m) + 1.
Proof.
  assert (forall p, digits2_pos p = Pos.size p) as Hs
      by (induction p; cbn; congruence).
  rewrite Hs. destruct m; cbn; lia.
Qed.

Lemma digits_bounds (m : positive) :
  2 ^ (Z.pos (digits2_pos m) - 1) <= Z.pos m < 2 ^ Z.pos (digits2_pos m).
Proof.
  rewrite digits_log2.
  replace (Z.log2 (Z.pos m) + 1 - 1) with (Z.log2 (Z.pos m)) by lia.
  apply Z.log2_spec. lia.
Qed.

Lemma digits_unique (m : positive) (d : Z) :
  2 ^ (d - 1) <= Z.pos m < 2 ^ d -> Z.pos (digits2_pos m) = d.
Proof.
  intros H. rewrite digits_log2.
  assert (0 <= d - 1).
  { destruct (Z_lt_le_dec (d - 1) 0) as [Hn|]; [|assumption].
    exfalso. assert (d <= 0) by lia.
    destruct (Z_lt_le_dec d 0).
    - rewrite (Z.pow_neg_r 2 d) in H by lia. lia.
    - replace d with 0 in H by lia. cbn in H. lia. }
  rewrite (Z.log2_unique (Z.pos m) (d - 1)); [lia|lia|].
  replace (Z.succ (d - 1)) with d by lia. exact H.
Qed.

Lemma digits_mono (a b : positive) :
  (a <= b)%positive -> Z.pos (digits2_pos a) <= Z.pos (digits2_pos b).
Proof.
  intros H. rewrite !digits_log2.
  apply Z.add_le_mono_r, Z.log2_le_mono. lia.
Qed.

Lemma shift_left_pos (m d : positive) :
  Z.pos (Pos.iter xO m d) = Z.pos m * 2 ^ Z.pos d.
Proof.
  rewrite <- Pos2Z.inj_pow, <- Pos2Z.inj_mul. f_equal.
  revert m. induction d using Pos.peano_ind; intros m.
  - cbn. lia.
  - rewrite Pos.iter_succ, IHd, Pos.pow_succ_r. lia.
Qed.

Lemma digits_shift (m : positive) (k : Z) :
  0 <= k ->
  forall p, Z.pos p = Z.pos m * 2 ^ k ->
  Z.pos (digits2_pos p) = Z.pos (digits2_pos m) + k.
Proof.
  intros Hk p Hp. apply digits_unique. rewrite Hp.
  pose proof (digits_bounds m) as [Hlo Hhi].
  pose proof (Pos2Z.is_pos (digits2_pos m)).
  replace (Z.pos (digits2_pos m) + k - 1)
    with ((Z.pos (digits2_pos m) - 1) + k) by lia.
  rewrite !Z.pow_add_r by lia.
  assert (0 < 2 ^ k) by (apply Z.pow_pos_nonneg; lia).
  split; nia.
Qed.

(** Shifting right. *)
Lemma shr_1_m (r : shr_record) :
  0 <= shr_m r -> shr_m (shr_1 r) = shr_m r / 2.
Proof.
  destruct r as [m rb sb]; cbn [shr_m]. intros Hm.
  rewrite <- Z.div2_div.
  destruct m as [|[p|p|]|p]; cbn; try reflexivity; lia.
Qed.

Lemma shr_iter_m (n : positive) (r : shr_record) :
  0 <= shr_m r ->
  shr_m (iter_pos shr_1 n r) = shr_m r / 2 ^ Z.pos n.
Proof.
  revert r. induction n as [n IH|n IH|]; intros r Hr; cbn [iter_pos].
  - assert (0 <= shr_m (shr_1 r))
      by (rewrite shr_1_m by assumption; apply Z.div_pos; lia).
    assert (0 <= shr_m (iter_pos shr_1 n (shr_1 r)))
      by (rewrite IH by assumption; apply Z.div_pos; [lia|apply Z.pow_pos_nonneg; lia]).
    rewrite IH, IH, shr_1_m by assumption.
    rewrite !Z.div_div by (try apply Z.pow_pos_nonneg; lia).
    f_equal. change (Z.pos n~1) with (2 * Z.pos n + 1).
    replace (2 * Z.pos n + 1) with (1 + Z.pos n + Z.pos n) by lia.
    rewrite !Z.pow_add_r by lia. lia.
  - assert (0 <= shr_m (iter_pos shr_1 n r))
      by (rewrite IH by assumption; apply Z.div_pos; [lia|apply Z.pow_pos_nonneg; lia]).
    rewrite IH, IH by assumption.
    rewrite !Z.div_div by (try apply Z.pow_pos_nonneg; lia).
    f_equal. change (Z.pos n~0) with (2 * Z.pos n).
    replace (2 * Z.pos n) with (Z.pos n + Z.pos n) by lia.
    rewrite !Z.pow_add_r by lia. lia.
  - rewrite shr_1_m by assumption. reflexivity.
Qed.

Lemma shr_1_exact (k : Z) :
  0 <= k ->
  shr_1 (Build_shr_record (k * 2) false false) = Build_shr_record k false false.
Proof.
  intros Hk. destruct k as [|p|p]; [reflexivity| |lia].
  replace (Z.pos p * 2) with (Z.pos p~0) by lia. reflexivity.
Qed.

Lemma shr_iter_exact (n : positive) (k : Z) :
  0 <= k ->
  iter_pos shr_1 n (Build_shr_record (k * 2 ^ Z.pos n) false false)
  = Build_shr_record k false false.
Proof.
  revert k. induction n as [n IH|n IH|]; intros k Hk; cbn [iter_pos].
  - change (Z.pos n~1) with (2 * Z.pos n + 1).
    replace (2 * Z.pos n + 1) with (Z.pos n + Z.pos n + 1) by lia.
    rewrite !Z.pow_add_r by lia.
    replace (k * (2 ^ Z.pos n * 2 ^ Z.pos n * 2 ^ 1))
      with ((k * 2 ^ Z.pos n * 2 ^ Z.pos n) * 2) by (cbn; lia).
    assert (0 < 2 ^ Z.pos n) by (apply Z.pow_pos_nonneg; lia).
    rewrite shr_1_exact by nia.
    rewrite IH by nia. apply IH, Hk.
  - change (Z.pos n~0) with (2 * Z.pos n).
    replace (2 * Z.pos n) with (Z.pos n + Z.pos n) by lia.
    rewrite !Z.pow_add_r by lia.
    assert (0 < 2 ^ Z.pos n) by (apply Z.pow_pos_nonneg; lia).
    replace (k * (2 ^ Z.pos n * 2 ^ Z.pos n))
      with ((k * 2 ^ Z.pos n) * 2 ^ Z.pos n) by lia.
    rewrite IH by nia. apply IH, Hk.
  - apply shr_1_exact, Hk.
Qed.

Lemma round_nearest_even_bounds (m : Z) (l : location) :
  m <= round_nearest_even m l <= m + 1.
Proof.
  destruct l as [|[| |]]; cbn; try lia. destruct (Z.even m); lia.
Qed.


Lemma shr_none (r : shr_record) (e n : Z) : n <= 0 -> shr r e n = (r, e).
Proof. intros Hn. destruct n; [reflexivity|lia|reflexivity]. Qed.

Lemma first_shift (m : positive) (e E : Z) :
  E = fexp (Z.pos (digits2_pos m) + e) -> e <= E ->
  exists r,
    shr_fexp JsNumber.prec JsNumber.emax (Z.pos m) e loc_Exact = (r, E) /\
    shr_m r = Z.pos m / 2 ^ (E - e) /\
    (Z.pos m mod 2 ^ (E - e) = 0 ->
     r = Build_shr_record (Z.pos m / 2 ^ (E - e)) false false).
Proof.
  intros HE He. unfold shr_fexp. cbn [Zdigits2 shr_record_of_loc].
  rewrite <- HE. remember (E - e) as n eqn:Hn. destruct n as [|p|p].
  - exists (Build_shr_record (Z.pos m) false false). cbn [shr shr_m].
    rewrite Z.div_1_r. repeat split. f_equal. lia.
  - exists (iter_pos shr_1 p (Build_shr_record (Z.pos m) false false)).
    cbn [shr]. split; [f_equal; lia|]. split.
    + rewrite shr_iter_m by (cbn; lia). reflexivity.
    + intros Hmod.
      assert (0 < 2 ^ Z.pos p) by (apply Z.pow_pos_nonneg; lia).
      pose proof (Z.div_mod (Z.pos m) (2 ^ Z.pos p)) as Hdm.
      rewrite Hmod in Hdm.
      assert (0 <= Z.pos m / 2 ^ Z.pos p) by (apply Z.div_pos; lia).
      replace (Z.pos m) with ((Z.pos m / 2 ^ Z.pos p) * 2 ^ Z.pos p) at 1
        by lia.
      apply shr_iter_exact. assumption.
  - lia.
Qed.

Lemma round_aux_pack (m : positive) (e E : Z) :
  E = fexp (Z.pos (digits2_pos m) + e) -> e <= E ->
  exists M',
    Z.pos m / 2 ^ (E - e) <= M' <= Z.pos m / 2 ^ (E - e) + 1 /\
    M' <= 2 ^ 53 /\
    (Z.pos m mod 2 ^ (E - e) = 0 -> M' = Z.pos m / 2 ^ (E - e)) /\
    (-1074 < E -> 2 ^ 52 <= M') /\
    round_aux false (Z.pos m) e loc_Exact = pack M' E.
Proof.
  intros HE He.
  pose proof (digits_bounds m) as [Hlo Hhi].
  remember (Z.pos (digits2_pos m)) as d eqn:Hd.
  assert (1 <= d) by lia.
  assert (HE' : E = Z.max (d + e - 53) (-1074)) by (rewrite HE; reflexivity).
  destruct (first_shift m e E) as (r & Hr & Hrm & Hexact);
    [congruence|exact He|].
  remember (E - e) as n eqn:Hn.
  assert (0 <= n) by lia.
  assert (0 < 2 ^ n) by (apply Z.pow_pos_nonneg; lia).
  remember (Z.pos m / 2 ^ n) as M eqn:HM.
  assert (HM0 : 0 <= M) by (subst M; apply Z.div_pos; lia).
  assert (HMhi : M < 2 ^ 53).
  { subst M. apply Z.div_lt_upper_bound; [lia|].
    rewrite <- Z.pow_add_r by lia.
    eapply Z.lt_le_trans; [exact Hhi|]. apply Z.pow_le_mono_r; lia. }
  assert (HMlo : -1074 < E -> 2 ^ 52 <= M).
  { intros. subst M. apply Z.div_le_lower_bound; [lia|].
    rewrite <- Z.pow_add_r by lia.
    replace (n + 52) with (d - 1) by lia. exact Hlo. }
  pose proof (round_nearest_even_bounds M (loc_of_shr_record r)) as HM'.
  remember (round_nearest_even M (loc_of_shr_record r)) as M' eqn:HeqM'.
  exists M'. split; [lia|]. split; [lia|]. split.
  { intros Hmod. rewrite (Hexact Hmod) in HeqM'. cbn in HeqM'. exact HeqM'. }
  split; [intros; specialize (HMlo ltac:(assumption)); lia|].
  unfold binary_round_aux. rewrite Hr, Hrm, <- HeqM'.
  unfold shr_fexp. cbn [shr_record_of_loc].
  destruct (Z.eq_dec M' 0) as [Hz|Hnz].
  - subst M'. rewrite Hz. cbn [Zdigits2].
    rewrite shr_none by (rewrite fexp_eq; lia). reflexivity.
  - destruct M' as [|p|p]; [congruence| |lia].
    cbn [Zdigits2].
    destruct (Z_lt_le_dec (Z.pos p) (2 ^ 53)) as [Hlt|Hge].
    + assert (Z.pos (digits2_pos p) <= 53).
      { pose proof (digits_bounds p) as [Hplo _].
        destruct (Z_lt_le_dec 53 (Z.pos (digits2_pos p))); [|assumption].
        exfalso.
        assert (2 ^ 53 <= 2 ^ (Z.pos (digits2_pos p) - 1))
          by (apply Z.pow_le_mono_r; lia).
        lia. }
      rewrite shr_none by (rewrite fexp_eq; lia).
      cbn [shr_m]. unfold pack.
      change (Z.pos p =? 0) with false. cbn match.
      apply Z.ltb_lt in Hlt. rewrite Hlt. reflexivity.
    + assert (Z.pos p = 2 ^ 53) as Hp by lia.
      assert (Z.pos (digits2_pos p) = 54) as Hdp
          by (apply digits_unique; rewrite Hp; cbn; lia).
      rewrite Hdp, fexp_eq.
      replace (Z.max (54 + E - 53) (-1074) - E) with 1 by lia.
      assert (p = 9007199254740992%positive) as -> by (cbn in Hp; lia).
      cbn [shr iter_pos shr_1 shr_m]. unfold pack.
      reflexivity.
Qed.


Lemma shl_align_value (m : positive) (e e' : Z) :
  e' <= e ->
  Z.pos (fst (shl_align m e e')) = Z.pos m * 2 ^ (e - e') /\
  (e' < e -> snd (shl_align m e e') = e') /\
  (e' = e -> snd (shl_align m e e') = e).
Proof.
  intros He. unfold shl_align. destruct (e' - e) as [|p|p] eqn:Hd.
  - replace (e - e') with 0 by lia. cbn. split; [lia|]. split; intros; lia.
  - lia.
  - cbn [fst snd]. rewrite shift_left_pos.
    replace (e - e') with (Z.pos p) by lia. split; [reflexivity|].
    split; intros; lia.
Qed.

Lemma round_by_shift_right (m : positive) (e : Z) :
  e <= fexp (Z.pos (digits2_pos m) + e) ->
  round false m e = round_aux false (Z.pos m) e loc_Exact.
Proof.
  intros He. unfold binary_round, shl_align.
  destruct (fexp (Z.pos (digits2_pos m) + e) - e) eqn:Hd;
    [reflexivity|reflexivity|lia].
Qed.

Lemma round_by_shift_left (m : positive) (e : Z) :
  fexp (Z.pos (digits2_pos m) + e) < e ->
  round false m e
  = pack (Z.pos m * 2 ^ (e - fexp (Z.pos (digits2_pos m) + e)))
         (fexp (Z.pos (digits2_pos m) + e)).
Proof.
  intros He. remember (fexp (Z.pos (digits2_pos m) + e)) as E eqn:HE.
  unfold binary_round. rewrite <- HE.
  destruct (shl_align_value m e E) as (Hv & He' & _); [lia|].
  specialize (He' He).
  destruct (shl_align m e E) as [mz ez]. cbn [fst snd] in Hv, He'. subst ez.
  assert (Z.pos (digits2_pos mz) = Z.pos (digits2_pos m) + (e - E)) as Hdz
      by (apply digits_shift; [lia|exact Hv]).
  destruct (round_aux_pack mz E E) as (M' & _ & _ & Hexact & _ & Hr);
    [rewrite Hdz; replace (Z.pos (digits2_pos m) + (e - E) + E)
       with (Z.pos (digits2_pos m) + e) by lia; exact HE|lia|].
  rewrite Hr. f_equal.
  replace (E - E) with 0 in Hexact by lia. cbn in Hexact.
  rewrite Z.mod_1_r, Z.div_1_r in Hexact. rewrite Hexact by reflexivity.
  exact Hv.
Qed.

Lemma pack_valid (M E : Z) :
  0 <= M <= 2 ^ 53 -> -1074 <= E -> (-1074 < E -> 2 ^ 52 <= M) ->
  JsNumber.nonnegative (pack M E) = true.
Proof.
  intros HM HE Hn. unfold pack.
  destruct (Z.eqb_spec M 0); [reflexivity|].
  destruct (Z.ltb_spec M (2 ^ 53)).
  - destruct (Z.leb_spec E 971); [|reflexivity].
    cbn [JsNumber.nonnegative negb andb]. unfold bounded, canonical_mantissa.
    apply andb_true_intro. split; [|apply Z.leb_le; unfold JsNumber.emax, JsNumber.prec; lia].
    apply Z.eqb_eq. rewrite fexp_eq.
    destruct M as [|p|p]; try lia. cbn [Z.to_pos].
    pose proof (digits_bounds p) as [Hlo Hhi].
    assert (Z.pos (digits2_pos p) <= 53).
    { destruct (Z_lt_le_dec 53 (Z.pos (digits2_pos p))); [|assumption].
      exfalso.
      assert (2 ^ 53 <= 2 ^ (Z.pos (digits2_pos p) - 1))
        by (apply Z.pow_le_mono_r; lia).
      lia. }
    destruct (Z.eq_dec E (-1074)); [lia|].
    assert (53 <= Z.pos (digits2_pos p)).
    { destruct (Z_lt_le_dec (Z.pos (digits2_pos p)) 53); [|assumption].
      exfalso.
      assert (2 ^ Z.pos (digits2_pos p) <= 2 ^ 52)
        by (apply Z.pow_le_mono_r; lia).
      specialize (Hn ltac:(lia)). lia. }
    lia.
  - destruct (Z.leb_spec (E + 1) 971); [|reflexivity].
    assert (M = 2 ^ 53) as -> by lia.
    cbn [JsNumber.nonnegative negb andb]. unfold bounded, canonical_mantissa.
    apply andb_true_intro. split; [|apply Z.leb_le; unfold JsNumber.emax, JsNumber.prec; lia].
    apply Z.eqb_eq. rewrite fexp_eq.
    change (Z.pos (digits2_pos (Z.to_pos (2 ^ 53 / 2)))) with 53. lia.
Qed.

Lemma pack_above (M E : Z) (mx : positive) (ex : Z) :
  0 < M <= 2 ^ 53 ->
  ex < E \/ (ex = E /\ Z.pos mx <= M) ->
  JsNumber.leb (S754_finite false mx ex) (pack M E) = true.
Proof.
  intros HM Hle. unfold pack.
  destruct (Z.eqb_spec M 0); [lia|].
  destruct (Z.ltb_spec M (2 ^ 53)).
  - destruct (Z.leb_spec E 971); [|reflexivity].
    unfold JsNumber.leb, SFleb, SFcompare.
    destruct (Z.compare_spec ex E) as [Heq|Hlt|Hgt]; [|reflexivity|lia].
    destruct Hle as [|[_ Hle]]; [lia|].
    change (Pos.compare_cont Eq mx (Z.to_pos M))
      with (Pos.compare mx (Z.to_pos M)).
    destruct (Pos.compare_spec mx (Z.to_pos M)); [reflexivity|reflexivity|lia].
  - destruct (Z.leb_spec (E + 1) 971); [|reflexivity].
    unfold JsNumber.leb, SFleb, SFcompare.
    destruct (Z.compare_spec ex (E + 1)) as [Heq|Hlt|Hgt];
      [lia|reflexivity|lia].
Qed.

Lemma fexp_mono (a b : Z) : a <= b -> fexp a <= fexp b.
Proof. rewrite !fexp_eq. lia. Qed.

Lemma bounded_canonical (m : positive) (e : Z) :
  bounded JsNumber.prec JsNumber.emax m e = true ->
  fexp (Z.pos (digits2_pos m) + e) = e /\ e <= 971.
Proof.
  unfold bounded, canonical_mantissa. intros H.
  apply andb_prop in H as [Hc Hb].
  apply Z.eqb_eq in Hc. apply Z.leb_le in Hb. split; [exact Hc|exact Hb].
Qed.

(** Adding a non-negative double never gives less, and never gives NaN. *)
Lemma add_nonnegative (x d : JsNumber.number) :
  JsNumber.nonnegative x = true -> JsNumber.nonnegative d = true ->
  JsNumber.nonnegative (JsNumber.add x d) = true /\
  JsNumber.leb x (JsNumber.add x d) = true.
Proof.
  intros Hx Hd.
  destruct x as [sx|sx| |sx mx ex], d as [sd|sd| |sd md ed];
    cbn in Hx, Hd; try discriminate;
    try (destruct sx; try discriminate); try (destruct sd; try discriminate);
    try (split; reflexivity).
  - (* zero, finite *)
    split; [exact Hd|reflexivity].
  - split; [exact Hd|reflexivity].
  - (* finite, zero *)
    cbn. split; [exact Hx|].
    unfold JsNumber.leb, SFleb, SFcompare. rewrite Z.compare_refl.
    change (Pos.compare_cont Eq mx mx) with (Pos.compare mx mx).
    rewrite Pos.compare_refl. reflexivity.
  - cbn. split; [exact Hx|].
    unfold JsNumber.leb, SFleb, SFcompare. rewrite Z.compare_refl.
    change (Pos.compare_cont Eq mx mx) with (Pos.compare mx mx).
    rewrite Pos.compare_refl. reflexivity.
  - (* finite, finite *)
    apply bounded_canonical in Hx as [Hcx Hbx].
    apply bounded_canonical in Hd as [Hcd Hbd].
    unfold JsNumber.add, SFadd. cbn [cond_Zopp].
    remember (Z.min ex ed) as ez eqn:Hez.
    destruct (shl_align_value mx ex ez) as (Hax & _); [lia|].
    destruct (shl_align_value md ed ez) as (Had & _); [lia|].
    remember (fst (shl_align mx ex ez)) as ax.
    remember (fst (shl_align md ed ez)) as ad.
    change (Z.pos ax + Z.pos ad) with (Z.pos (ax + ad)).
    cbn [binary_normalize].
    assert (Z.pos (digits2_pos ax) = Z.pos (digits2_pos mx) + (ex - ez))
      as Hdax by (apply digits_shift; [lia|exact Hax]).
    assert (Z.pos (digits2_pos ax) <= Z.pos (digits2_pos (ax + ad)))
      as Hdm by (apply digits_mono; lia).
    remember (fexp (Z.pos (digits2_pos (ax + ad)) + ez)) as E eqn:HE.
    assert (ex <= E) as HexE.
    { rewrite <- Hcx, HE. apply fexp_mono. lia. }
    assert (-1074 <= E) by (rewrite HE, fexp_eq; lia).
    rewrite round_by_shift_right by (rewrite <- HE; lia).
    destruct (round_aux_pack (ax + ad) ez E HE) as
        (M' & HM' & Hhi & _ & Hlo & Hr); [lia|].
    rewrite Hr.
    assert (0 < 2 ^ (E - ez)) by (apply Z.pow_pos_nonneg; lia).
    assert (0 <= Z.pos (ax + ad) / 2 ^ (E - ez)) by (apply Z.div_pos; lia).
    split; [apply pack_valid; [lia|lia|exact Hlo]|].
    assert (ex = E -> Z.pos mx <= M') as Hsame.
    { intros ->. 
      assert (Z.pos mx <= Z.pos (ax + ad) / 2 ^ (E - ez)); [|lia].
      apply Z.div_le_lower_bound; [lia|]. rewrite Pos2Z.inj_add. lia. }
    apply pack_above.
    + split; [|lia].
      destruct (Z.eq_dec ex E) as [He|He]; [specialize (Hsame He); lia|].
      assert (-1074 < E).
      { assert (-1074 <= ex) by (rewrite <- Hcx, fexp_eq; lia). lia. }
      specialize (Hlo ltac:(assumption)).
      assert (0 < 2 ^ 52) by (cbn; lia). lia.
    + destruct (Z.eq_dec ex E) as [He|He]; [right|left; lia].
      split; [exact He|apply Hsame, He].
Qed.


Lemma canon_mantissa (V : Z) :
  0 < V <= 2 ^ 53 ->
  Z.log2 V <= 53 /\
  (Z.log2 V <= 52 ->
   V * 2 ^ 53 / 2 ^ (Z.log2 V + 1) = V * 2 ^ (52 - Z.log2 V)) /\
  (Z.log2 V = 53 -> V = 2 ^ 53).
Proof.
  intros HV. pose proof (Z.log2_spec V ltac:(lia)) as [Hlo Hhi].
  pose proof (Z.log2_nonneg V) as Hl.
  assert (Z.log2 V <= 53) as H53.
  { change 53 with (Z.log2 (2 ^ 53)). apply Z.log2_le_mono. lia. }
  split; [exact H53|]. split.
  - intros H52.
    replace (2 ^ 53) with (2 ^ (52 - Z.log2 V) * 2 ^ (Z.log2 V + 1)).
    + rewrite Z.mul_assoc, Z.div_mul; [reflexivity|].
      apply Z.pow_nonzero; lia.
    + rewrite <- Z.pow_add_r by lia. f_equal. lia.
  - intros Heq. rewrite Heq in Hlo. lia.
Qed.

Lemma round_integer (m : positive) (V k : Z) :
  0 < V <= 2 ^ 53 -> 0 <= k -> Z.pos m = V * 2 ^ k ->
  round false m (- k) = canon V.
Proof.
  intros HV Hk Hm.
  pose proof (Z.log2_spec V ltac:(lia)) as [Hlo Hhi].
  pose proof (Z.log2_nonneg V) as Hl.
  destruct (canon_mantissa V HV) as (H53 & Hman & Htop).
  assert (0 < 2 ^ k) by (apply Z.pow_pos_nonneg; lia).
  assert (Z.pos (digits2_pos m) = Z.log2 V + 1 + k) as Hd.
  { apply digits_unique. rewrite Hm.
    replace (Z.log2 V + 1 + k - 1) with (Z.log2 V + k) by lia.
    replace (Z.log2 V + 1 + k) with (Z.succ (Z.log2 V) + k) by lia.
    rewrite !Z.pow_add_r by lia. split; nia. }
  assert (fexp (Z.pos (digits2_pos m) + - k) = Z.log2 V + 1 - 53) as HE
      by (rewrite Hd, fexp_eq; lia).
  unfold canon.
  destruct (Z_lt_le_dec (Z.log2 V + 1 - 53) (- k)) as [Hleft|Hright].
  - rewrite round_by_shift_left by (rewrite HE; exact Hleft).
    rewrite HE. f_equal. rewrite Hman by lia. rewrite Hm.
    replace (52 - Z.log2 V) with (k + (- k - (Z.log2 V + 1 - 53))) by lia.
    rewrite (Z.pow_add_r 2 k) by lia. lia.
  - rewrite round_by_shift_right by (rewrite HE; exact Hright).
    destruct (round_aux_pack m (- k) (Z.log2 V + 1 - 53))
      as (M' & _ & _ & Hexact & _ & Hr); [congruence|exact Hright|].
    rewrite Hr. f_equal.
    remember (Z.log2 V + 1 - 53 - - k) as n eqn:Hn.
    assert (0 <= n) by lia.
    assert (0 < 2 ^ n) by (apply Z.pow_pos_nonneg; lia).
    destruct (Z_le_gt_dec (Z.log2 V) 52) as [Hsmall|Hbig].
    + rewrite Hman by exact Hsmall.
      assert (Z.pos m = V * 2 ^ (52 - Z.log2 V) * 2 ^ n) as Hm'.
      { rewrite Hm, <- Z.mul_assoc, <- Z.pow_add_r by lia.
        do 2 f_equal. lia. }
      rewrite Hexact; rewrite Hm'.
      * rewrite Z.div_mul; [reflexivity|lia].
      * apply Z.mod_mul. lia.
    + assert (V = 2 ^ 53) as -> by (apply Htop; lia).
      assert (Z.log2 (2 ^ 53) = 53) as Hl53 by reflexivity.
      rewrite Hl53 in *.
      assert (Z.pos m = 2 ^ 52 * 2 ^ n) as Hm'.
      { rewrite Hm, <- !Z.pow_add_r by lia. f_equal. lia. }
      rewrite Hexact; rewrite Hm'.
      * rewrite Z.div_mul; [reflexivity|lia].
      * apply Z.mod_mul. lia.
Qed.

Lemma of_Z_canon (V : Z) : 0 < V <= 2 ^ 53 -> JsNumber.of_Z V = canon V.
Proof.
  intros HV. destruct V as [|p|p]; try lia.
  unfold JsNumber.of_Z. cbn [binary_normalize].
  apply (round_integer p (Z.pos p) 0); [exact HV|lia|cbn; lia].
Qed.

Lemma canon_finite (V : Z) :
  0 < V < 2 ^ 53 ->
  canon V = S754_finite false (Z.to_pos (V * 2 ^ (52 - Z.log2 V)))
                        (Z.log2 V - 52) /\
  0 < V * 2 ^ (52 - Z.log2 V).
Proof.
  intros HV. pose proof (Z.log2_nonneg V) as Hl.
  destruct (canon_mantissa V ltac:(lia)) as (H53 & Hman & Htop).
  assert (Z.log2 V <= 52) as H52.
  { destruct (Z_le_gt_dec (Z.log2 V) 52); [assumption|].
    specialize (Htop ltac:(lia)). lia. }
  assert (0 < 2 ^ (52 - Z.log2 V)) by (apply Z.pow_pos_nonneg; lia).
  assert (V * 2 ^ (52 - Z.log2 V) < 2 ^ 53) as Hlt.
  { pose proof (Z.log2_spec V ltac:(lia)) as [_ Hhi].
    replace (2 ^ 53) with (2 ^ Z.succ (Z.log2 V) * 2 ^ (52 - Z.log2 V)).
    - apply Z.mul_lt_mono_pos_r; assumption.
    - rewrite <- Z.pow_add_r by lia. f_equal. lia. }
  split; [|nia].
  unfold canon, pack. rewrite Hman by exact H52.
  destruct (Z.eqb_spec (V * 2 ^ (52 - Z.log2 V)) 0); [nia|].
  destruct (Z.ltb_spec (V * 2 ^ (52 - Z.log2 V)) (2 ^ 53)); [|lia].
  destruct (Z.leb_spec (Z.log2 V + 1 - 53) 971); [|lia].
  f_equal. lia.
Qed.

(** Doubles add integers exactly as long as the sum stays within
    [2 ^ 53]. *)
Lemma add_of_Z (a b : Z) :
  0 <= a -> 0 <= b -> a + b <= 2 ^ 53 ->
  JsNumber.add (JsNumber.of_Z a) (JsNumber.of_Z b) = JsNumber.of_Z (a + b).
Proof.
  intros Ha Hb Hsum.
  destruct (Z.eq_dec a 0) as [->|Hna].
  { rewrite Z.add_0_l. destruct (Z.eq_dec b 0) as [->|Hnb]; [reflexivity|].
    destruct (Z.eq_dec b (2 ^ 53)) as [->|]; [reflexivity|].
    rewrite (of_Z_canon b) by lia.
    destruct (canon_finite b ltac:(lia)) as [-> _]. reflexivity. }
  destruct (Z.eq_dec b 0) as [->|Hnb].
  { rewrite Z.add_0_r.
    destruct (Z.eq_dec a (2 ^ 53)) as [->|]; [reflexivity|].
    rewrite (of_Z_canon a) by lia.
    destruct (canon_finite a ltac:(lia)) as [-> _]. reflexivity. }
  rewrite !of_Z_canon by lia.
  destruct (canon_finite a ltac:(lia)) as [-> Hpa].
  destruct (canon_finite b ltac:(lia)) as [-> Hpb].
  pose proof (Z.log2_nonneg a). pose proof (Z.log2_nonneg b).
  assert (Z.log2 a <= 52).
  { assert (Z.log2 a <= Z.log2 (2 ^ 53 - 1)) by (apply Z.log2_le_mono; lia).
    change (Z.log2 (2 ^ 53 - 1)) with 52 in *. lia. }
  assert (Z.log2 b <= 52).
  { assert (Z.log2 b <= Z.log2 (2 ^ 53 - 1)) by (apply Z.log2_le_mono; lia).
    change (Z.log2 (2 ^ 53 - 1)) with 52 in *. lia. }
  unfold JsNumber.add, SFadd. cbn [cond_Zopp].
  remember (Z.min (Z.log2 a - 52) (Z.log2 b - 52)) as ez eqn:Hez.
  destruct (shl_align_value (Z.to_pos (a * 2 ^ (52 - Z.log2 a)))
                            (Z.log2 a - 52) ez) as (Hax & _); [lia|].
  destruct (shl_align_value (Z.to_pos (b * 2 ^ (52 - Z.log2 b)))
                            (Z.log2 b - 52) ez) as (Hbx & _); [lia|].
  rewrite Z2Pos.id in Hax, Hbx by assumption.
  remember (fst (shl_align (Z.to_pos (a * 2 ^ (52 - Z.log2 a)))
                           (Z.log2 a - 52) ez)) as ax.
  remember (fst (shl_align (Z.to_pos (b * 2 ^ (52 - Z.log2 b)))
                           (Z.log2 b - 52) ez)) as bx.
  change (Z.pos ax + Z.pos bx) with (Z.pos (ax + bx)).
  cbn [binary_normalize].
  replace ez with (- (- ez)) at 1 by lia.
  apply round_integer; [lia|lia|].
  rewrite Pos2Z.inj_add, Hax, Hbx, <- !Z.mul_assoc, <- !Z.pow_add_r by lia.
  replace (52 - Z.log2 a + (Z.log2 a - 52 - ez)) with (- ez) by lia.
  replace (52 - Z.log2 b + (Z.log2 b - 52 - ez)) with (- ez) by lia.
  lia.
Qed.


Lemma round_is_pack (m : positive) (e : Z) :
  exists M E, round false m e = pack M E.
Proof.
  destruct (Z_lt_le_dec (fexp (Z.pos (digits2_pos m) + e)) e) as [Hl|Hr].
  - eexists _, _. apply round_by_shift_left, Hl.
  - rewrite round_by_shift_right by exact Hr.
    destruct (round_aux_pack m e _ eq_refl Hr) as (M' & _ & _ & _ & _ & ->).
    eexists _, _. reflexivity.
Qed.

Lemma stored_pack (M E : Z) : Sqlite.stored (pack M E) = pack M E.
Proof.
  unfold pack.
  destruct (M =? 0), (M <? 2 ^ 53), (E <=? 971), (E + 1 <=? 971); reflexivity.
Qed.

Lemma stored_of_Z (z : Z) : 0 <= z -> Sqlite.stored (JsNumber.of_Z z) = JsNumber.of_Z z.
Proof.
  intros Hz. destruct z as [|p|p]; [reflexivity| |lia].
  unfold JsNumber.of_Z. cbn [binary_normalize].
  destruct (round_is_pack p 0) as (M & E & ->). apply stored_pack.
Qed.

Lemma add_comm (x y : JsNumber.number) : JsNumber.add x y = JsNumber.add y x.
Proof.
  destruct x as [[]|[]| |sx mx ex], y as [[]|[]| |sy my ey]; try reflexivity.
  unfold JsNumber.add, SFadd. rewrite (Z.min_comm ex ey), Z.add_comm.
  reflexivity.
Qed.

Lemma stored_add_stored (x y : JsNumber.number) :
  Sqlite.stored (JsNumber.add (Sqlite.stored x) y)
  = Sqlite.stored (JsNumber.add x y).
Proof.
  destruct x as [[]|[]| |sx mx ex]; try reflexivity;
    destruct y as [[]|[]| |sy my ey]; reflexivity.
Qed.

Lemma plus_comm_fresh (x y : JsNumber.number) :
  Sqlite.plus (Sqlite.stored x) y = Sqlite.plus (Sqlite.stored y) x.
Proof.
  unfold Sqlite.plus. rewrite !stored_add_stored. f_equal. apply add_comm.
Qed.

Lemma leb_stored (x y : JsNumber.number) :
  JsNumber.leb x (Sqlite.stored y) = JsNumber.leb x y.
Proof. destruct x as [[]|[]| |[] mx ex], y as [[]|[]| |[] my ey]; reflexivity. Qed.

Lemma nonnegative_stored (x : JsNumber.number) :
  JsNumber.nonnegative (Sqlite.stored x) = JsNumber.nonnegative x.
Proof. destruct x as [[]|[]| |[] mx ex]; reflexivity. Qed.

Lemma leb_refl (x : JsNumber.number) :
  JsNumber.nonnegative x = true -> JsNumber.leb x x = true.
Proof.
  destruct x as [[]|[]| |[] m e]; cbn; try discriminate; try reflexivity.
  intros _. unfold JsNumber.leb, SFleb, SFcompare. rewrite Z.compare_refl.
  change (Pos.compare_cont Eq m m) with (Pos.compare m m).
  rewrite Pos.compare_refl. reflexivity.
Qed.

Lemma leb_finite (m1 m2 : positive) (e1 e2 : Z) :
  JsNumber.leb (S754_finite false m1 e1) (S754_finite false m2 e2) = true
  <-> e1 < e2 \/ (e1 = e2 /\ (m1 <= m2)%positive).
Proof.
  unfold JsNumber.leb, SFleb, SFcompare.
  change (Pos.compare_cont Eq m1 m2) with (Pos.compare m1 m2).
  destruct (Z.compare_spec e1 e2); destruct (Pos.compare_spec m1 m2);
    split; intros; try discriminate; try reflexivity; lia.
Qed.

Lemma leb_trans (a b c : JsNumber.number) :
  JsNumber.nonnegative a = true -> JsNumber.nonnegative b = true ->
  JsNumber.nonnegative c = true ->
  JsNumber.leb a b = true -> JsNumber.leb b c = true ->
  JsNumber.leb a c = true.
Proof.
  intros Ha Hb Hc.
  destruct a as [[]|[]| |[] ma ea]; cbn in Ha; try discriminate;
    destruct b as [[]|[]| |[] mb eb]; cbn in Hb; try discriminate;
    destruct c as [[]|[]| |[] mc ec]; cbn in Hc; try discriminate;
    intros H1 H2; try reflexivity;
    try (vm_compute in H1; discriminate);
    try (vm_compute in H2; discriminate).
  rewrite leb_finite in *. lia.
Qed.

Lemma plus_nonnegative (x d : JsNumber.number) :
  JsNumber.nonnegative x = true -> JsNumber.nonnegative d = true ->
  JsNumber.nonnegative (Sqlite.plus x d) = true /\
  JsNumber.leb x (Sqlite.plus x d) = true.
Proof.
  intros Hx Hd. unfold Sqlite.plus.
  rewrite nonnegative_stored, leb_stored. apply add_nonnegative; assumption.
Qed.

Lemma plus_of_Z (a b : Z) :
  0 <= a -> 0 <= b -> a + b <= 2 ^ 53 ->
  Sqlite.plus (JsNumber.of_Z a) (JsNumber.of_Z b) = JsNumber.of_Z (a + b).
Proof.
  intros Ha Hb Hs. unfold Sqlite.plus.
  rewrite add_of_Z by assumption. apply stored_of_Z. lia.
Qed.

Lemma running_counts (zs : list Z) (z0 : Z) :
  0 <= z0 -> Forall (fun z => 0 <= z) zs ->
  z0 + StateManager.Zsum zs <= 2 ^ 53 ->
  StateManager.running (JsNumber.of_Z z0) (map JsNumber.of_Z zs)
  = JsNumber.of_Z (z0 + StateManager.Zsum zs).
Proof.
  revert z0. induction zs as [|z zs IH]; intros z0 H0 Hzs Hsum.
  - cbn. f_equal. lia.
  - apply Forall_cons in Hzs as [Hz Hzs].
    assert (0 <= StateManager.Zsum zs) as Hnn.
    { clear -Hzs. induction Hzs; unfold StateManager.Zsum in *; cbn; lia. }
    unfold StateManager.Zsum in *. cbn in Hsum |- *.
    unfold StateManager.running in *. cbn [map List.fold_left].
    rewrite plus_of_Z by lia. rewrite IH by (assumption || lia).
    f_equal. lia.
Qed.

Lemma to_Z_of_Z (z : Z) :
  0 <= z <= 2 ^ 53 -> JsNumber.to_Z (JsNumber.of_Z z) = z.
Proof.
  intros Hz. destruct (Z.eq_dec z 0) as [->|]; [reflexivity|].
  destruct (Z.eq_dec z (2 ^ 53)) as [->|]; [reflexivity|].
  rewrite of_Z_canon by lia.
  destruct (canon_finite z ltac:(lia)) as [-> Hpos].
  pose proof (Z.log2_nonneg z).
  assert (Z.log2 z <= 52).
  { assert (Z.log2 z <= Z.log2 (2 ^ 53 - 1)) by (apply Z.log2_le_mono; lia).
    change (Z.log2 (2 ^ 53 - 1)) with 52 in *. lia. }
  cbn [JsNumber.to_Z]. rewrite Z2Pos.id by exact Hpos.
  destruct (Z.leb_spec 0 (Z.log2 z - 52)).
  - replace (Z.log2 z - 52) with 0 by lia.
    replace (52 - Z.log2 z) with 0 by lia. cbn. lia.
  - replace (- (Z.log2 z - 52)) with (52 - Z.log2 z) by lia.
    apply Z.div_mul. apply Z.pow_nonzero; lia.
Qed.

(** Signs. *)
Lemma shr_nonnegative (r : shr_record) (e n : Z) :
  0 <= shr_m r -> 0 <= shr_m (fst (shr r e n)).
Proof.
  intros Hr. destruct n as [|p|p]; cbn [shr fst]; try exact Hr.
  rewrite shr_iter_m by exact Hr.
  apply Z.div_pos; [exact Hr|apply Z.pow_pos_nonneg; lia].
Qed.

Lemma shr_record_of_loc_m (m : Z) (l : location) :
  shr_m (shr_record_of_loc m l) = m.
Proof. destruct l as [|[| |]]; reflexivity. Qed.

Lemma round_aux_not_negative (m e : Z) (l : location) :
  0 <= m -> JsNumber.not_negative (round_aux false m e l) = true.
Proof.
  intros Hm. unfold binary_round_aux, shr_fexp.
  pose proof (shr_nonnegative (shr_record_of_loc m l) e
                (SpecFloat.fexp JsNumber.prec JsNumber.emax (Zdigits2 m + e) - e))
    as H1.
  rewrite shr_record_of_loc_m in H1. specialize (H1 Hm).
  destruct (shr (shr_record_of_loc m l) e _) as [r1 e1]. cbn [fst] in H1.
  pose proof (round_nearest_even_bounds (shr_m r1) (loc_of_shr_record r1))
    as Hr.
  remember (round_nearest_even (shr_m r1) (loc_of_shr_record r1)) as m2.
  pose proof (shr_nonnegative (shr_record_of_loc m2 loc_Exact) e1
                (SpecFloat.fexp JsNumber.prec JsNumber.emax (Zdigits2 m2 + e1) - e1))
    as H2.
  rewrite shr_record_of_loc_m in H2. specialize (H2 ltac:(lia)).
  destruct (shr (shr_record_of_loc m2 loc_Exact) e1 _) as [r2 e2].
  cbn [fst] in H2.
  destruct (shr_m r2) as [|p|p]; [reflexivity| |lia].
  destruct (e2 <=? JsNumber.emax - JsNumber.prec); reflexivity.
Qed.

Lemma round_not_negative (m : positive) (e : Z) :
  JsNumber.not_negative (round false m e) = true.
Proof.
  unfold binary_round. destruct (shl_align m e _) as [mz ez].
  apply round_aux_not_negative. lia.
Qed.

Lemma of_Z_not_negative (z : Z) :
  0 <= z -> JsNumber.not_negative (JsNumber.of_Z z) = true.
Proof.
  intros Hz. destruct z as [|p|p]; [reflexivity| |lia].
  apply round_not_negative.
Qed.

Lemma mul_not_negative (x : JsNumber.number) (m : positive) (e : Z) :
  JsNumber.not_negative x = true ->
  JsNumber.not_negative (JsNumber.mul x (S754_finite false m e)) = true.
Proof.
  destruct x as [[]|[]| |[] mx ex]; cbn; try discriminate; try reflexivity.
  intros _. apply round_aux_not_negative. lia.
Qed.

Lemma div_not_negative (x : JsNumber.number) (m : positive) (e : Z) :
  JsNumber.not_negative x = true ->
  JsNumber.not_negative (JsNumber.div x (S754_finite false m e)) = true.
Proof.
  destruct x as [[]|[]| |[] mx ex]; cbn; try discriminate; try reflexivity.
  intros _. unfold JsNumber.div, SFdiv, SFdiv_core_binary.
  remember (match _ with Z.pos _ => _ | Z0 => Z.pos mx | Z.neg _ => 0 end)
    as m' eqn:Hm'.
  assert (0 <= m') as Hnn.
  { subst m'. destruct (_ - _ - _) as [|p|p]; try lia.
    apply Z.shiftl_nonneg. lia. }
  pose proof (Z.div_pos m' (Z.pos m) Hnn ltac:(lia)) as Hq.
  unfold Z.div in Hq. destruct (Z.div_eucl m' (Z.pos m)) as [q r].
  cbn [fst] in Hq. cbn [xorb]. apply round_aux_not_negative, Hq.
Qed.

Lemma add_not_negative (x y : JsNumber.number) :
  JsNumber.not_negative x = true -> JsNumber.not_negative y = true ->
  JsNumber.not_negative (JsNumber.add x y) = true.
Proof.
  destruct x as [[]|[]| |[] mx ex]; cbn; try discriminate;
    destruct y as [[]|[]| |[] my ey]; cbn; try discriminate;
    try reflexivity.
  intros _ _. unfold JsNumber.add, SFadd. cbn [cond_Zopp].
  change (Z.pos ?a + Z.pos ?b) with (Z.pos (a + b)).
  cbn [binary_normalize]. apply round_not_negative.
Qed.

End DoubleFacts.

(* ===================================================================== *)
(** ** Facts about the cost ledger                                        *)
(* ===================================================================== *)

Module LedgerFacts.
Import StateManager.

Lemma record_lookup (db : CostTable) (c : Call) (k : string * string) :
  record db c !! k
  = if decide (call_key c = k) then Some (upsert (db !! k) c) else db !! k.
Proof.
  unfold record, recordCost, call_key, upsert.
  destruct (decide _) as [<-|Hne].
  - destruct (db !! _); apply lookup_insert_eq.
  - destruct (db !! (before_T (call_now c), call_model c));
      apply lookup_insert_ne; exact Hne.
Qed.

Lemma row_le_refl (r : CostRow) : row_nonnegative r -> row_le r r.
Proof.
  intros (?&?&?). unfold row_le.
  repeat split; try apply DoubleFacts.leb_refl; try assumption. lia.
Qed.

Lemma row_le_trans (a b c : CostRow) :
  row_nonnegative a -> row_nonnegative b -> row_nonnegative c ->
  row_le a b -> row_le b c -> row_le a c.
Proof.
  unfold row_le.
  intros (Ai & Ao & Ac) (Bi & Bo & Bc) (Ci & Co & Cc)
         (Hi & Ho & Hc & Hn) (Hi' & Ho' & Hc' & Hn').
  split; [exact (DoubleFacts.leb_trans _ _ _ Ai Bi Ci Hi Hi')|].
  split; [exact (DoubleFacts.leb_trans _ _ _ Ao Bo Co Ho Ho')|].
  split; [exact (DoubleFacts.leb_trans _ _ _ Ac Bc Cc Hc Hc')|lia].
Qed.

Lemma increment_le (count : Z) : count <= Sqlite.increment count.
Proof. unfold Sqlite.increment. destruct (_ && _); lia. Qed.

Lemma increment_succ (count : Z) :
  - 2 ^ 63 <= count < 2 ^ 63 -> Sqlite.increment count = count + 1.
Proof.
  intros Hc. unfold Sqlite.increment.
  destruct (Z.leb_spec (- 2 ^ 63) count); [|lia].
  destruct (Z.ltb_spec count (2 ^ 63)); [reflexivity|lia].
Qed.

Lemma upsert_le (row : CostRow) (c : Call) :
  row_nonnegative row -> nonnegative c ->
  row_le row (upsert (Some row) c) /\ row_nonnegative (upsert (Some row) c).
Proof.
  intros (Ri & Ro & Rc) (Hi & Ho & Hc).
  destruct (DoubleFacts.plus_nonnegative _ _ Ri Hi).
  destruct (DoubleFacts.plus_nonnegative _ _ Ro Ho).
  destruct (DoubleFacts.plus_nonnegative _ _ Rc Hc).
  unfold row_le, row_nonnegative; cbn.
  repeat split; try assumption. apply increment_le.
Qed.

(** One call never removes a row and, with deltas that are not
    negative, never lowers a field of one. *)
Lemma record_monotone (db : CostTable) (c : Call)
      (k : string * string) (row : CostRow) :
  nonnegative c -> db !! k = Some row -> row_nonnegative row ->
  exists row',
    record db c !! k = Some row' /\ row_le row row' /\ row_nonnegative row'.
Proof.
  intros Hc Hk Hrow. rewrite record_lookup.
  destruct (decide _); rewrite Hk.
  - eexists; split; [reflexivity | apply upsert_le; assumption].
  - eexists; split; [reflexivity | split; [apply row_le_refl|]; assumption].
Qed.

Lemma record_all_monotone (cs : list Call) (db : CostTable)
      (k : string * string) (row : CostRow) :
  Forall nonnegative cs -> db !! k = Some row -> row_nonnegative row ->
  exists row',
    record_all db cs !! k = Some row' /\ row_le row row' /\
    row_nonnegative row'.
Proof.
  revert db row; induction cs as [|c cs IH]; intros db row Hcs Hk Hrow; cbn.
  - exists row; split; [exact Hk | split; [apply row_le_refl|]; assumption].
  - apply Forall_cons in Hcs as [Hc Hcs].
    destruct (record_monotone db c k row Hc Hk Hrow) as (r1 & Hr1 & Hle1 & Hn1).
    destruct (IH (record db c) r1 Hcs Hr1 Hn1) as (r2 & Hr2 & Hle2 & Hn2).
    exists r2; split; [exact Hr2 | split; [|exact Hn2]].
    exact (row_le_trans row r1 r2 Hrow Hn1 Hn2 Hle1 Hle2).
Qed.

Lemma record_nonnegative (db : CostTable) (c : Call) :
  nonnegative c -> table_nonnegative db -> table_nonnegative (record db c).
Proof.
  intros Hc Hdb k row. rewrite record_lookup.
  destruct (decide _); [|apply Hdb].
  intros [= <-]. destruct (db !! k) as [old|] eqn:Hk.
  - apply upsert_le; [exact (Hdb k old Hk)|exact Hc].
  - destruct Hc as (Hi & Ho & Hq). unfold row_nonnegative; cbn.
    rewrite !DoubleFacts.nonnegative_stored. repeat split; assumption.
Qed.

Lemma record_all_nonnegative (cs : list Call) (db : CostTable) :
  Forall nonnegative cs -> table_nonnegative db ->
  table_nonnegative (record_all db cs).
Proof.
  revert db; induction cs as [|c cs IH]; intros db Hcs Hdb; [exact Hdb|].
  apply Forall_cons in Hcs as [Hc Hcs].
  apply (IH (record db c) Hcs), record_nonnegative; assumption.
Qed.

(** Calls that all carry the key [k], from a row [row] under [k]. *)
Lemma record_all_same_key_from (cs : list Call) (db : CostTable)
      (k : string * string) (row : CostRow) :
  Forall (fun c => call_key c = k) cs -> db !! k = Some row ->
  0 <= execution_count row ->
  execution_count row + Z.of_nat (List.length cs) <= 2 ^ 63 ->
  exists row',
    record_all db cs !! k = Some row' /\
    tokens_input row' = running (tokens_input row) (map call_tokensInput cs) /\
    tokens_output row'
    = running (tokens_output row) (map call_tokensOutput cs) /\
    row_cost row' = running (row_cost row) (map call_cost cs) /\
    execution_count row' = execution_count row + Z.of_nat (List.length cs).
Proof.
  revert db row; induction cs as [|c cs IH]; intros db row Hcs Hk H0 Hn.
  - exists row; cbn; repeat split; try lia. exact Hk.
  - apply Forall_cons in Hcs as [Hc Hcs].
    assert (record db c !! k = Some (upsert (Some row) c)) as Hk1.
    { rewrite record_lookup, Hk.
      destruct (decide _); [reflexivity | contradiction]. }
    cbn [List.length] in Hn.
    assert (execution_count (upsert (Some row) c) = execution_count row + 1)
      as Hcount by (cbn; apply increment_succ; lia).
    destruct (IH (record db c) _ Hcs Hk1) as (r & Hr & Hi & Ho & Hq & Hcnt);
      [lia|lia|].
    exists r. split; [exact Hr|].
    rewrite Hi, Ho, Hq, Hcnt, Hcount. cbn [List.length].
    repeat split. lia.
Qed.

End LedgerFacts.

(** The claim of C9 as the specification states it fails where doubles
    round.  Three calls on one day for one model with the costs 0.1, 0.7
    and 0.3 leave a cost that is not the sum of the three; after
    [2 ^ 53] input tokens one more token leaves the column as it was; and
    a count of [2 ^ 63] executions, which the column holds as a REAL, is
    not incremented by a further call. *)
Lemma C9_counterexample :
  let call time tokens cost :=
    StateManager.mkCall time "claude" tokens (JsNumber.of_Z 50) cost in
  let key := ("2026-02-11", "claude") in
  let costs :=
    [call "2026-02-11T09:00:00.000Z" (JsNumber.of_Z 100) (JsNumber.ratio 1 10);
     call "2026-02-11T12:00:00.000Z" (JsNumber.of_Z 100) (JsNumber.ratio 7 10);
     call "2026-02-11T18:00:00.000Z" (JsNumber.of_Z 100) (JsNumber.ratio 3 10)]
  in
  let tokens :=
    [call "2026-02-11T09:00:00.000Z" (JsNumber.of_Z (2 ^ 53)) JsNumber.zero;
     call "2026-02-11T12:00:00.000Z" (JsNumber.of_Z 1) JsNumber.zero] in
  (Forall StateManager.nonnegative costs /\
   exists (row : CostRow) (total exact : Q),
     StateManager.record_all ∅ costs !! key = Some row /\
     JsNumber.value (row_cost row) = Some total /\
     StateManager.exact_sum (map StateManager.call_cost costs) = Some exact /\
     ~ (total == exact)%Q) /\
  (Forall StateManager.nonnegative tokens /\
   exists (row : CostRow) (total exact : Q),
     StateManager.record_all ∅ tokens !! key = Some row /\
     JsNumber.value (tokens_input row) = Some total /\
     StateManager.exact_sum (map StateManager.call_tokensInput tokens)
     = Some exact /\
     ~ (total == exact)%Q) /\
  (exists row : CostRow,
      StateManager.recordCost
        {[ key := mkRow (JsNumber.of_Z 100) (JsNumber.of_Z 50)
                        JsNumber.zero (2 ^ 63) ]}
        "2026-02-11T12:00:00.000Z" "claude"
        (JsNumber.of_Z 1) (JsNumber.of_Z 1) JsNumber.zero
      !! key = Some row /\
      execution_count row = 2 ^ 63).
Proof.
  cbv zeta. split; [|split]; [split; [repeat constructor|]..|].
  - eexists _, _, _.
    split; [vm_compute; reflexivity|].
    split; [vm_compute; reflexivity|].
    split; [vm_compute; reflexivity|].
    vm_compute. discriminate.
  - eexists _, _, _.
    split; [vm_compute; reflexivity|].
    split; [vm_compute; reflexivity|].
    split; [vm_compute; reflexivity|].
    vm_compute. discriminate.
  - eexists. split; [vm_compute; reflexivity|reflexivity].
Qed.

(** C9, as amended: [recordCost] is an additive upsert on the key
    (current date, model), in the arithmetic of doubles.  With no row
    under the key it creates one holding the given tokens and cost and
    the count 1; otherwise it adds the tokens and the cost to the row,
    each sum rounded to the nearest double, and 1 to its count; rows
    under other keys stay as they are.  After N calls, N at most
    [2 ^ 63], against one key that had no row, each column holds the
    running sum of its N deltas taken in the order of the calls, and the
    count is N; token counts from 0 on whose sum is at most [2 ^ 53] add
    up to exactly their sum.  And on a ledger without a negative field,
    when no delta is negative, the ledger stays without one, and no call
    removes a row or lowers a field of one. *)
Theorem C9_recordCost_additive_upsert
        (db : CostTable) (now_iso model : string)
        (tokensInput tokensOutput cost : JsNumber.number) :
  let key := (StateManager.before_T now_iso, model) in
  let db' := StateManager.recordCost db now_iso model
                                     tokensInput tokensOutput cost in
  (db !! key = None ->
   db' !! key = Some (mkRow (Sqlite.stored tokensInput)
                            (Sqlite.stored tokensOutput)
                            (Sqlite.stored cost) 1)) /\
  (forall row : CostRow,
      db !! key = Some row ->
      db' !! key
      = Some (mkRow (Sqlite.stored (JsNumber.add (tokens_input row) tokensInput))
                    (Sqlite.stored (JsNumber.add (tokens_output row) tokensOutput))
                    (Sqlite.stored (JsNumber.add (row_cost row) cost))
                    (Sqlite.increment (execution_count row))) /\
      (- 2 ^ 63 <= execution_count row < 2 ^ 63 ->
       Sqlite.increment (execution_count row) = execution_count row + 1)) /\
  (forall other : string * string, other <> key -> db' !! other = db !! other) /\
  (forall (c : StateManager.Call) (cs : list StateManager.Call),
      db !! StateManager.call_key c = None ->
      Forall (fun c' => StateManager.call_key c' = StateManager.call_key c) cs ->
      Z.of_nat (List.length (c :: cs)) <= 2 ^ 63 ->
      exists row : CostRow,
        StateManager.record_all db (c :: cs) !! StateManager.call_key c
        = Some row /\
        tokens_input row
        = StateManager.running (Sqlite.stored (StateManager.call_tokensInput c))
                               (map StateManager.call_tokensInput cs) /\
        tokens_output row
        = StateManager.running (Sqlite.stored (StateManager.call_tokensOutput c))
                               (map StateManager.call_tokensOutput cs) /\
        row_cost row
        = StateManager.running (Sqlite.stored (StateManager.call_cost c))
                               (map StateManager.call_cost cs) /\
        execution_count row = Z.of_nat (List.length (c :: cs)) /\
        (forall counts : list Z,
            map StateManager.call_tokensInput (c :: cs)
            = map JsNumber.of_Z counts ->
            Forall (fun n => 0 <= n) counts ->
            StateManager.Zsum counts <= 2 ^ 53 ->
            tokens_input row = JsNumber.of_Z (StateManager.Zsum counts)) /\
        (forall counts : list Z,
            map StateManager.call_tokensOutput (c :: cs)
            = map JsNumber.of_Z counts ->
            Forall (fun n => 0 <= n) counts ->
            StateManager.Zsum counts <= 2 ^ 53 ->
            tokens_output row = JsNumber.of_Z (StateManager.Zsum counts))) /\
  (forall cs : list StateManager.Call,
      Forall StateManager.nonnegative cs ->
      StateManager.table_nonnegative db ->
      StateManager.table_nonnegative (StateManager.record_all db cs) /\
      forall (k : string * string) (row : CostRow),
        db !! k = Some row ->
        exists row' : CostRow,
          StateManager.record_all db cs !! k = Some row' /\
          StateManager.row_le row row').
Proof.
  cbv zeta.
  pose proof (LedgerFacts.record_lookup db
                (StateManager.mkCall now_iso model tokensInput tokensOutput cost))
    as Hlook.
  unfold StateManager.record, StateManager.call_key in Hlook; cbn in Hlook.
  split; [|split; [|split; [|split]]].
  - intros Hk. rewrite Hlook, Hk, decide_True by reflexivity. reflexivity.
  - intros row Hk. split.
    + rewrite Hlook, Hk, decide_True by reflexivity. reflexivity.
    + apply LedgerFacts.increment_succ.
  - intros other Hne. rewrite Hlook, decide_False by congruence. reflexivity.
  - intros c cs Hk Hcs Hn.
    assert (StateManager.record db c !! StateManager.call_key c
            = Some (StateManager.upsert None c)) as Hk1.
    { rewrite LedgerFacts.record_lookup, Hk, decide_True by reflexivity.
      reflexivity. }
    cbn [List.length] in Hn.
    destruct (LedgerFacts.record_all_same_key_from
                cs (StateManager.record db c) _ _ Hcs Hk1)
      as (row & Hrow & Hi & Ho & Hq & Hcount); [cbn; lia|cbn; lia|].
    cbn in Hi, Ho, Hq, Hcount.
    exists row. split; [exact Hrow|].
    split; [exact Hi|]. split; [exact Ho|]. split; [exact Hq|].
    split; [cbn [List.length]; lia|].
    assert (forall (column : StateManager.Call -> JsNumber.number)
                   (counts : list Z),
               map column (c :: cs) = map JsNumber.of_Z counts ->
               Forall (fun n => 0 <= n) counts ->
               StateManager.Zsum counts <= 2 ^ 53 ->
               StateManager.running (Sqlite.stored (column c)) (map column cs)
               = JsNumber.of_Z (StateManager.Zsum counts)) as Hexact.
    { intros column counts Hmap Hpos Hsum.
      destruct counts as [|n counts]; [discriminate|].
      cbn [map] in Hmap. injection Hmap as Hc Hrest.
      apply Forall_cons in Hpos as [Hn0 Hpos].
      rewrite Hc, Hrest, DoubleFacts.stored_of_Z by exact Hn0.
      apply DoubleFacts.running_counts; assumption. }
    split.
    + intros counts Hmap Hpos Hsum. rewrite Hi. apply Hexact; assumption.
    + intros counts Hmap Hpos Hsum. rewrite Ho. apply Hexact; assumption.
  - intros cs Hcs Hdb. split.
    + apply LedgerFacts.record_all_nonnegative; assumption.
    + intros k row Hk.
      destruct (LedgerFacts.record_all_monotone cs db k row Hcs Hk
                                                (Hdb k row Hk))
        as (row' & Hrow' & Hle & _).
      exists row'. split; assumption.
Qed.

Lemma C9_recordCost_additive_upsert_witness :
  let morning :=
    StateManager.mkCall "2026-02-11T09:30:00.000Z" "claude"
                        (JsNumber.of_Z 100) (JsNumber.of_Z 50)
                        (JsNumber.ratio 105 100000) in
  let evening :=
    StateManager.mkCall "2026-02-11T17:05:12.250Z" "claude"
                        (JsNumber.of_Z 10) (JsNumber.of_Z 5)
                        (JsNumber.ratio 105 1000000) in
  let key := ("2026-02-11", "claude") in
  let db1 := StateManager.record (∅ : CostTable) morning in
  let db2 := StateManager.record db1 evening in
  db1 !! key
  = Some (mkRow (JsNumber.of_Z 100) (JsNumber.of_Z 50)
                (JsNumber.ratio 105 100000) 1) /\
  db2 !! key
  = Some (mkRow (JsNumber.of_Z 110) (JsNumber.of_Z 55)
                (JsNumber.add (JsNumber.ratio 105 100000)
                              (JsNumber.ratio 105 1000000)) 2) /\
  (exists row : CostRow,
      StateManager.record_all ∅ [morning; evening] !! key = Some row /\
      tokens_input row = JsNumber.of_Z 110 /\
      tokens_output row = JsNumber.of_Z 55 /\
      execution_count row = 2) /\
  (exists row : CostRow,
      StateManager.record_all db1 [evening] !! key = Some row /\
      StateManager.row_le
        (mkRow (JsNumber.of_Z 100) (JsNumber.of_Z 50)
               (JsNumber.ratio 105 100000) 1) row) /\
  StateManager.recordCost ∅ "2026-02-11T23:10:00.000Z" "ollama"
                          (JsNumber.of_Z 20) (JsNumber.of_Z 10)
                          (SpecFloat.S754_zero true)
  !! ("2026-02-11", "ollama")
  = Some (mkRow (JsNumber.of_Z 20) (JsNumber.of_Z 10) JsNumber.zero 1).
Proof.
  cbv zeta.
  pose proof (C9_recordCost_additive_upsert
                ∅ "2026-02-11T23:10:00.000Z" "ollama"
                (JsNumber.of_Z 20) (JsNumber.of_Z 10)
                (SpecFloat.S754_zero true))
    as (Hlocal & _).
  cbv zeta in Hlocal.
  specialize (Hlocal ltac:(reflexivity)).
  pose proof (C9_recordCost_additive_upsert
                ∅ "2026-02-11T09:30:00.000Z" "claude"
                (JsNumber.of_Z 100) (JsNumber.of_Z 50)
                (JsNumber.ratio 105 100000))
    as (Hcreate & _ & _ & Hsum & _).
  cbv zeta in Hcreate.
  specialize (Hcreate ltac:(reflexivity)).
  pose proof (C9_recordCost_additive_upsert
                (StateManager.record
                   ∅ (StateManager.mkCall "2026-02-11T09:30:00.000Z" "claude"
                                          (JsNumber.of_Z 100) (JsNumber.of_Z 50)
                                          (JsNumber.ratio 105 100000)))
                "2026-02-11T17:05:12.250Z" "claude"
                (JsNumber.of_Z 10) (JsNumber.of_Z 5)
                (JsNumber.ratio 105 1000000))
    as (_ & Hadd & _ & _ & Hmono).
  cbv zeta in Hadd.
  split; [exact Hcreate|].
  split; [exact (proj1 (Hadd _ Hcreate))|].
  split; [|split].
  - destruct (Hsum (StateManager.mkCall "2026-02-11T09:30:00.000Z" "claude"
                                        (JsNumber.of_Z 100) (JsNumber.of_Z 50)
                                        (JsNumber.ratio 105 100000))
                   [StateManager.mkCall "2026-02-11T17:05:12.250Z" "claude"
                                        (JsNumber.of_Z 10) (JsNumber.of_Z 5)
                                        (JsNumber.ratio 105 1000000)]
                   ltac:(reflexivity)
                   ltac:(repeat constructor)
                   ltac:(vm_compute; discriminate))
      as (row & Hrow & _ & _ & _ & Hn & Hi & Ho).
    exists row. split; [exact Hrow|].
    split; [apply (Hi [100; 10]); [reflexivity|repeat constructor; lia|
                                   vm_compute; discriminate]|].
    split; [apply (Ho [50; 5]); [reflexivity|repeat constructor; lia|
                                 vm_compute; discriminate]|].
    exact Hn.
  - destruct (Hmono [StateManager.mkCall "2026-02-11T17:05:12.250Z" "claude"
                                      (JsNumber.of_Z 10) (JsNumber.of_Z 5)
                                      (JsNumber.ratio 105 1000000)])
      as (_ & Hle).
    + repeat constructor.
    + apply LedgerFacts.record_nonnegative; [repeat constructor|].
      intros k row Hk. rewrite lookup_empty in Hk. discriminate.
    + exact (Hle ("2026-02-11", "claude") _ Hcreate).
  - exact Hlocal.
Defined.

(* ===================================================================== *)
(** ** Further properties of ComplexityAnalyzer                           *)
(* ===================================================================== *)

(** X1: the total is the sum of the five recorded factors, plus 2 for a
    retry, which no factor records; every factor stays in its range and
    the total lies between 1 and 17.  Both ends are reached, so the total
    is not confined to the documented scale of 0 to 10. *)
Theorem analyze_score_range :
  (forall task : AgentTask,
      let a := ComplexityAnalyzer.analyze task in
      let f := factors a in
      score a = f_taskType f + f_contextSize f + f_ambiguity f
                + f_reasoning f + f_toolCount f
                + (if truthy_bool (isRetry task) then 2 else 0) /\
      1 <= f_taskType f <= 9 /\
      0 <= f_contextSize f <= 3 /\
      (f_ambiguity f = 0 \/ f_ambiguity f = 2) /\
      (f_reasoning f = 0 \/ f_reasoning f = 3) /\
      (f_toolCount f = 0 \/ f_toolCount f = 1) /\
      1 <= score a <= 17) /\
  score (ComplexityAnalyzer.analyze
           (plain_task classification "Is this message urgent")) = 1 /\
  score (ComplexityAnalyzer.analyze
           (mkTask security_analysis "Could this leak a token?"
                   (Some (repeat_char "x" (Z.to_nat 10001)))
                   (Some ["read"; "grep"; "diff"; "blame"])
                   None None None (Some true))) = 17.
Proof.
  split; [|split; vm_compute; reflexivity].
  intros task; cbv zeta.
  rewrite AnalyzerFacts.analyze_score.
  unfold ComplexityAnalyzer.analyze; cbn [factors f_taskType f_contextSize
    f_ambiguity f_reasoning f_toolCount].
  rewrite AnalyzerFacts.contextSizeScore_bucket.
  assert (0 <= spec_context_bucket (context_length (context task)) <= 3) as Hc.
  { unfold spec_context_bucket.
    repeat match goal with
           | |- context [?x <? ?y] => destruct (Z.ltb_spec x y)
           end; lia. }
  assert (ComplexityAnalyzer.toolCountScore (tools task) = 0
          \/ ComplexityAnalyzer.toolCountScore (tools task) = 1) as Ht.
  { unfold ComplexityAnalyzer.toolCountScore.
    destruct (tools task) as [ts|]; [|left; reflexivity].
    destruct (3 <? Z.of_nat (List.length ts)); [right|left]; reflexivity. }
  destruct (ComplexityAnalyzer.detectAmbiguity (prompt task)),
           (truthy_bool (isRetry task)), (type task); cbn;
    repeat split; try lia; auto.
Qed.

(** X2: a task is recommended no backend at all, the case the router
    rejects, exactly when it is a classification task whose context has
    at most 2000 characters, whose prompt is not ambiguous, which
    declares at most three tools and which is not a retry. *)
Theorem rejected_iff_plain_classification (task : AgentTask) :
  recommendedModel (ComplexityAnalyzer.analyze task) = rec_none
  <-> type task = classification /\
      context_length (context task) <= 2000 /\
      ComplexityAnalyzer.detectAmbiguity (prompt task) = false /\
      match tools task with
      | Some ts => (List.length ts <= 3)%nat
      | None => True
      end /\
      truthy_bool (isRetry task) = false.
Proof.
  change (recommendedModel (ComplexityAnalyzer.analyze task))
    with (ComplexityAnalyzer.getRecommendedModel
            (score (ComplexityAnalyzer.analyze task))).
  rewrite AnalyzerFacts.analyze_score, AnalyzerFacts.contextSizeScore_bucket.
  assert (0 <= spec_context_bucket (context_length (context task)) /\
          (spec_context_bucket (context_length (context task)) = 0
           <-> context_length (context task) <= 2000)) as [Hb0 Hb].
  { unfold spec_context_bucket.
    repeat match goal with
           | |- context [?x <? ?y] => destruct (Z.ltb_spec x y)
           end; lia. }
  assert (0 <= ComplexityAnalyzer.toolCountScore (tools task) /\
          (ComplexityAnalyzer.toolCountScore (tools task) = 0
           <-> match tools task with
               | Some ts => (List.length ts <= 3)%nat
               | None => True
               end)) as [Ht0 Ht].
  { unfold ComplexityAnalyzer.toolCountScore.
    destruct (tools task) as [ts|]; [|split; [lia | tauto]].
    destruct (Z.ltb_spec 3 (Z.of_nat (List.length ts))); lia. }
  unfold ComplexityAnalyzer.getRecommendedModel.
  destruct (Z.ltb_spec
              (ComplexityAnalyzer.taskTypeScore (type task)
               + spec_context_bucket (context_length (context task))
               + (if ComplexityAnalyzer.detectAmbiguity (prompt task)
                  then 2 else 0)
               + ComplexityAnalyzer.reasoningScore (type task)
               + ComplexityAnalyzer.toolCountScore (tools task)
               + (if truthy_bool (isRetry task) then 2 else 0)) 2) as [Hlt|Hge].
  - split; [intros _|reflexivity].
    destruct (type task), (ComplexityAnalyzer.detectAmbiguity (prompt task)),
      (truthy_bool (isRetry task)); cbn in Hlt; try lia.
    repeat split; [apply Hb; lia | apply Ht; lia].
  - split.
    + destruct (_ <? 7); discriminate.
    + intros (Hk & Hc & Ha & Htl & Hr). exfalso.
      apply Hb in Hc. apply Ht in Htl.
      rewrite Hk, Ha, Hr, Hc, Htl in Hge. cbn in Hge. lia.
Qed.

Lemma rejected_iff_plain_classification_witness :
  recommendedModel
    (ComplexityAnalyzer.analyze
       (mkTask classification "Is this message urgent"
               (Some "From the on-call channel") (Some ["label"])
               None None None (Some false)))
  = rec_none.
Proof.
  apply (rejected_iff_plain_classification
           (mkTask classification "Is this message urgent"
                   (Some "From the on-call channel") (Some ["label"])
                   None None None (Some false))).
  repeat split; vm_compute; first [reflexivity | discriminate | lia].
Defined.

(** X3: whatever their prompt, context, tools and retry flag, planning,
    error-recovery, workflow-compilation, code-review and
    security-analysis tasks total at least 7 and are recommended the
    remote backend; the local backend is recommended to extraction and
    classification tasks only. *)
Theorem recommendation_by_kind (task : AgentTask) :
  (type task <> extraction -> type task <> classification ->
   7 <= score (ComplexityAnalyzer.analyze task) /\
   recommendedModel (ComplexityAnalyzer.analyze task) = rec_claude) /\
  (recommendedModel (ComplexityAnalyzer.analyze task) = rec_ollama ->
   type task = extraction \/ type task = classification).
Proof.
  change (recommendedModel (ComplexityAnalyzer.analyze task))
    with (ComplexityAnalyzer.getRecommendedModel
            (score (ComplexityAnalyzer.analyze task))).
  assert (type task <> extraction -> type task <> classification ->
          7 <= score (ComplexityAnalyzer.analyze task)) as H7.
  { intros H1 H2.
    rewrite AnalyzerFacts.analyze_score, AnalyzerFacts.contextSizeScore_bucket.
    assert (0 <= spec_context_bucket (context_length (context task))) as Hc.
    { unfold spec_context_bucket.
      repeat match goal with
             | |- context [?x <? ?y] => destruct (Z.ltb_spec x y)
             end; lia. }
    assert (0 <= ComplexityAnalyzer.toolCountScore (tools task)) as Ht.
    { unfold ComplexityAnalyzer.toolCountScore.
      destruct (tools task) as [ts|]; [|lia].
      destruct (3 <? Z.of_nat (List.length ts)); lia. }
    destruct (ComplexityAnalyzer.detectAmbiguity (prompt task)),
      (truthy_bool (isRetry task)), (type task); cbn; try congruence; lia. }
  unfold ComplexityAnalyzer.getRecommendedModel.
  split.
  - intros H1 H2. specialize (H7 H1 H2). split; [exact H7|].
    destruct (Z.ltb_spec (score (ComplexityAnalyzer.analyze task)) 2); [lia|].
    destruct (Z.ltb_spec (score (ComplexityAnalyzer.analyze task)) 7);
      [lia | reflexivity].
  - intros Ho.
    destruct (type task) eqn:Hk; auto;
      assert (7 <= score (ComplexityAnalyzer.analyze task)) as H
          by (apply H7; discriminate);
      destruct (Z.ltb_spec (score (ComplexityAnalyzer.analyze task)) 2);
      try lia;
      destruct (Z.ltb_spec (score (ComplexityAnalyzer.analyze task)) 7);
      try lia; discriminate.
Qed.

Lemma recommendation_by_kind_witness :
  recommendedModel
    (ComplexityAnalyzer.analyze (plain_task planning "Plan the release"))
  = rec_claude.
Proof.
  apply (recommendation_by_kind (plain_task planning "Plan the release"));
    discriminate.
Defined.

(* ===================================================================== *)
(** ** What detectAmbiguity accepts                                       *)
(* ===================================================================== *)

Module AmbiguityFacts.
Import JsString.

#[local] Arguments String.append : simpl nomatch.

(** An ASCII small letter matches under [/i] exactly the characters that
    [toLowerCase] sends to it, all of them word characters. *)
Lemma fold_small_letter (p c : ascii) :
  is_lower p = true -> eqb_ci p c = true ->
  lower_char c = p /\ is_word c = true.
Proof.
  intros Hp Hc.
  destruct p as [[] [] [] [] [] [] [] []]; try discriminate Hp;
    destruct c as [[] [] [] [] [] [] [] []]; try discriminate Hc;
    split; reflexivity.
Qed.

Lemma small_letter_fold (c : ascii) :
  is_lower (lower_char c) = true ->
  eqb_ci (lower_char c) c = true /\ is_word c = true.
Proof.
  destruct c as [[] [] [] [] [] [] [] []]; intros H; try discriminate H;
    split; reflexivity.
Qed.

Lemma last_app (prev : option ascii) (a b : string) :
  last prev (a ++ b) = last (last prev a) b.
Proof. revert prev; induction a as [|c a IH]; intros prev; cbn; auto. Qed.

Lemma substring_drop (n : nat) (s : string) :
  String.substring 0 n s ++ drop n s = s.
Proof.
  revert s; induction n as [|n IH]; intros [|c s]; cbn; try reflexivity.
  f_equal; apply IH.
Qed.

Lemma drop_app_length (a b : string) : drop (String.length a) (a ++ b) = b.
Proof. induction a as [|c a IH]; cbn; [destruct b; reflexivity | exact IH]. Qed.

Lemma toLowerCase_length (s : string) :
  String.length (toLowerCase s) = String.length s.
Proof. induction s as [|c s IH]; cbn; [reflexivity | f_equal; exact IH]. Qed.

(** [re.test]: the pattern matches at the end of some prefix. *)
Lemma regex_test_iff (at_pos : option ascii -> string -> bool)
      (prev : option ascii) (s : string) :
  regex_test at_pos prev s = true
  <-> exists before rest,
        s = before ++ rest /\ at_pos (last prev before) rest = true.
Proof.
  revert prev; induction s as [|c s IH]; intros prev; cbn.
  - rewrite orb_false_r. split.
    + intros Hat; exists EmptyString, EmptyString; auto.
    + intros ([|x before] & rest & Hs & Hat); [|discriminate].
      cbn in Hs; subst rest; exact Hat.
  - rewrite orb_true_iff, IH. split.
    + intros [Hat|(before & rest & -> & Hat)].
      * exists EmptyString, (String c s); auto.
      * exists (String c before), rest; auto.
    + intros ([|x before] & rest & Hs & Hat); cbn in Hs.
      * left; subst rest; exact Hat.
      * injection Hs as -> ->. right; exists before, rest; auto.
Qed.

(** A word of small letters matched under [/i] at the start of [s]. *)
Lemma prefix_ci_iff (word s : string) :
  all_chars is_lower word = true ->
  prefix_ci word s = true
  <-> exists marker after,
        s = marker ++ after /\ toLowerCase marker = word.
Proof.
  revert s; induction word as [|p word IH]; intros s Hw.
  - split; [intros _; exists EmptyString, s; auto | reflexivity].
  - cbn in Hw; apply andb_true_iff in Hw as [Hp Hw].
    destruct s as [|c s]; cbn.
    + split; [discriminate|].
      intros ([|x marker] & after & Hs & Hm); discriminate.
    + rewrite andb_true_iff, (IH s Hw). split.
      * intros [Hc (marker & after & -> & <-)].
        destruct (fold_small_letter p c Hp Hc) as [<- _].
        exists (String c marker), after; auto.
      * intros ([|x marker] & after & Hs & Hm); [discriminate|].
        cbn in Hs, Hm. injection Hs as -> ->. injection Hm as <- <-.
        split; [apply small_letter_fold, Hp | eauto].
Qed.

Lemma head_word (marker after : string) (p : ascii) (word : string) :
  is_lower p = true -> toLowerCase marker = String p word ->
  word_side (head (marker ++ after)) = true.
Proof.
  destruct marker as [|c marker]; [discriminate|]; cbn.
  intros Hp [= <- _]. apply small_letter_fold, Hp.
Qed.

(** [/\b(w1|w2|...)\b/i] at a position, for words of small letters that
    are not empty. *)
Lemma words_at_iff (words : list string) (prev : option ascii) (s : string) :
  Forall (fun w => all_chars is_lower w = true /\ w <> EmptyString) words ->
  words_at words prev s = true
  <-> exists marker after,
        s = marker ++ after /\ List.In (toLowerCase marker) words /\
        word_side prev = false /\ word_side (head after) = false.
Proof.
  intros Hwords. unfold words_at.
  rewrite andb_true_iff, existsb_exists. split.
  - intros [Hb (w & Hin & Hw)].
    apply andb_true_iff in Hw as [Hp Ha].
    rewrite Forall_forall in Hwords. destruct (Hwords w) as [Hlow Hne];
      [apply list_elem_of_In; exact Hin|].
    apply (prefix_ci_iff w s Hlow) in Hp as (marker & after & -> & Hm).
    exists marker, after.
    split; [reflexivity|]. split; [rewrite Hm; exact Hin|].
    destruct w as [|p w]; [contradiction|].
    cbn in Hlow; apply andb_true_iff in Hlow as [Hlp Hlw].
    unfold word_boundary in Hb, Ha.
    rewrite (head_word marker after p w Hlp Hm) in Hb.
    assert (word_side (last None (String p w)) = true) as Hlast.
    { clear -Hlp Hlw. cbn. revert p Hlp; induction w as [|q w IH];
        intros p Hlp; cbn.
      - unfold is_word. rewrite Hlp, !orb_true_r; reflexivity.
      - cbn in Hlw; apply andb_true_iff in Hlw as [Hq Hw].
        apply IH; assumption. }
    rewrite <- Hm, toLowerCase_length in Ha.
    rewrite drop_app_length in Ha. rewrite Hm, Hlast in Ha.
    destruct (word_side prev), (word_side (head after)); cbn in *;
      try discriminate; auto.
  - intros (marker & after & -> & Hin & Hprev & Hafter).
    rewrite Forall_forall in Hwords.
    destruct (Hwords (toLowerCase marker)) as [Hlow Hne];
      [apply list_elem_of_In; exact Hin|].
    destruct (toLowerCase marker) as [|p w] eqn:Hm; [contradiction|].
    pose proof Hlow as Hlow'.
    cbn in Hlow; apply andb_true_iff in Hlow as [Hlp Hlw].
    assert (word_side (last None (String p w)) = true) as Hlast.
    { clear -Hlp Hlw. cbn. revert p Hlp; induction w as [|q w IH];
        intros p Hlp; cbn.
      - unfold is_word. rewrite Hlp, !orb_true_r; reflexivity.
      - cbn in Hlw; apply andb_true_iff in Hlw as [Hq Hw].
        apply IH; assumption. }
    split.
    + unfold word_boundary.
      rewrite (head_word marker after p w Hlp Hm), Hprev; reflexivity.
    + exists (String p w). split; [exact Hin|].
      apply andb_true_iff; split.
      * apply (prefix_ci_iff (String p w) _ Hlow'). eauto.
      * rewrite <- Hm at 2. rewrite toLowerCase_length, drop_app_length.
        unfold word_boundary. rewrite Hlast, Hafter; reflexivity.
Qed.

Lemma line_has_iff (c : ascii) (s : string) :
  is_line_terminator c = false ->
  line_has c s = true
  <-> exists between after,
        s = between ++ String c after /\
        all_chars (fun d => negb (is_line_terminator d)) between = true.
Proof.
  intros Hc. induction s as [|d s IH]; cbn.
  - split; [discriminate|].
    intros ([|x between] & after & Hs & _); discriminate.
  - destruct (is_line_terminator d) eqn:Hd.
    + split; [discriminate|].
      intros ([|x between] & after & Hs & Hb); cbn in Hs.
      * injection Hs as <- _. congruence.
      * injection Hs as <- _. cbn in Hb. rewrite Hd in Hb. discriminate.
    + rewrite orb_true_iff, IH. split.
      * intros [Heq|(between & after & -> & Hb)].
        -- apply Ascii.eqb_eq in Heq as <-.
           exists EmptyString, s; auto.
        -- exists (String d between), after. cbn. rewrite Hd. auto.
      * intros ([|x between] & after & Hs & Hb); cbn in Hs.
        -- injection Hs as <- _. left; apply Ascii.eqb_refl.
        -- injection Hs as <- ->. cbn in Hb.
           apply andb_true_iff in Hb as [_ Hb]. right; eauto.
Qed.

End AmbiguityFacts.

(** X4: [detectAmbiguity] answers true in exactly two cases.  Either
    the prompt contains, in any mix of capital and small letters, one of
    the words maybe, might, could, should, probably, or, either, with no
    letter, digit or underscore right before it or right after it; or it
    contains two question marks with no line break between them. *)
Theorem detectAmbiguity_iff (prompt : string) :
  ComplexityAnalyzer.detectAmbiguity prompt = true
  <->
  (exists before marker after,
      prompt = before ++ marker ++ after /\
      List.In (JsString.toLowerCase marker)
              ["maybe"; "might"; "could"; "should"; "probably";
               "or"; "either"] /\
      JsString.word_side (JsString.last None before) = false /\
      JsString.word_side (JsString.head after) = false)
  \/
  (exists before between after,
      prompt = before ++ "?" ++ between ++ "?" ++ after /\
      all_chars (fun c => negb (JsString.is_line_terminator c)) between
      = true).
Proof.
  unfold ComplexityAnalyzer.detectAmbiguity,
    ComplexityAnalyzer.ambiguousPatterns.
  cbn [existsb]. rewrite orb_false_r, !orb_true_iff.
  rewrite !AmbiguityFacts.regex_test_iff.
  assert (Forall (fun w => all_chars JsString.is_lower w = true
                           /\ w <> EmptyString)
                 ComplexityAnalyzer.hedging_words) as Hh
      by (repeat constructor; discriminate).
  assert (Forall (fun w => all_chars JsString.is_lower w = true
                           /\ w <> EmptyString)
                 ComplexityAnalyzer.disjunction_words) as Hd
      by (repeat constructor; discriminate).
  split.
  - intros [(before & rest & -> & Hat)
           |[(before & rest & -> & Hat)|(before & rest & -> & Hat)]].
    + apply (AmbiguityFacts.words_at_iff _ _ _ Hh) in Hat
        as (marker & after & -> & Hin & Hp & Ha).
      left; exists before, marker, after.
      split; [reflexivity|]. split; [|auto].
      cbn in Hin |- *. tauto.
    + right. destruct rest as [|c rest]; [discriminate|].
      cbn in Hat. apply andb_true_iff in Hat as [Hc Hl].
      apply Ascii.eqb_eq in Hc as ->.
      apply AmbiguityFacts.line_has_iff in Hl as (between & after & -> & Hb);
        [|reflexivity].
      exists before, between, after. split; [reflexivity | exact Hb].
    + apply (AmbiguityFacts.words_at_iff _ _ _ Hd) in Hat
        as (marker & after & -> & Hin & Hp & Ha).
      left; exists before, marker, after.
      split; [reflexivity|]. split; [|auto].
      cbn in Hin |- *. tauto.
  - intros [(before & marker & after & -> & Hin & Hp & Ha)
           |(before & between & after & -> & Hb)].
    + assert (List.In (JsString.toLowerCase marker)
                      ComplexityAnalyzer.hedging_words
              \/ List.In (JsString.toLowerCase marker)
                         ComplexityAnalyzer.disjunction_words) as [Hw|Hw]
          by (cbn in Hin |- *; tauto).
      * left. exists before, (marker ++ after).
        split; [reflexivity|].
        apply (AmbiguityFacts.words_at_iff _ _ _ Hh). eauto 6.
      * right; right. exists before, (marker ++ after).
        split; [reflexivity|].
        apply (AmbiguityFacts.words_at_iff _ _ _ Hd). eauto 6.
    + right; left. exists before, ("?" ++ between ++ "?" ++ after).
      split; [reflexivity|]. cbn.
      apply AmbiguityFacts.line_has_iff; [reflexivity|]. eauto.
Qed.

Lemma detectAmbiguity_iff_witness :
  ComplexityAnalyzer.detectAmbiguity "Deploy now, OR wait for review" = true.
Proof.
  apply (detectAmbiguity_iff "Deploy now, OR wait for review").
  left. exists "Deploy now, ", "OR", " wait for review".
  split; [reflexivity|]. split; [|split; reflexivity].
  vm_compute. tauto.
Defined.

(* ===================================================================== *)
(** ** Strings: lemmas on the matchers                                    *)
(* ===================================================================== *)

Module StringFacts.
Import JsString.

#[local] Arguments String.append : simpl nomatch.

Lemma prefix_nil (s : string) : String.prefix EmptyString s = true.
Proof. destruct s; reflexivity. Qed.

Lemma prefix_refl (s : string) : String.prefix s s = true.
Proof.
  induction s as [|c s IH]; cbn; [reflexivity|].
  destruct (ascii_dec c c); [exact IH | contradiction].
Qed.

Lemma prefix_app (p s : string) : String.prefix p (p ++ s) = true.
Proof.
  induction p as [|c p IH]; cbn; [apply prefix_nil|].
  destruct (ascii_dec c c); [exact IH | contradiction].
Qed.

Lemma prefix_inv (p s : string) :
  String.prefix p s = true -> s = p ++ drop (String.length p) s.
Proof.
  revert s; induction p as [|c p IH]; intros s; cbn; [reflexivity|].
  destruct s as [|d s]; cbn; [discriminate|].
  destruct (ascii_dec c d) as [->|]; [|discriminate].
  intros Hp. f_equal. apply IH, Hp.
Qed.

Lemma substring_prefix (n : nat) (s : string) :
  String.prefix (String.substring 0 n s) s = true.
Proof.
  revert s; induction n as [|n IH]; intros [|c s]; cbn; try reflexivity.
  destruct (ascii_dec c c); [apply IH | contradiction].
Qed.

Lemma substring_app (p s : string) (n : nat) :
  String.substring 0 (String.length p + n) (p ++ s)
  = p ++ String.substring 0 n s.
Proof.
  induction p as [|c p IH]; cbn; [reflexivity|]. f_equal. exact IH.
Qed.

Lemma includes_cons (e : string) (c : ascii) (s : string) :
  includes e (String c s)
  = String.prefix e (String c s) || includes e s.
Proof. reflexivity. Qed.

Lemma includes_prefix (e s : string) :
  String.prefix e s = true -> includes e s = true.
Proof.
  intros H; destruct s as [|c s].
  - destruct e; [reflexivity | discriminate].
  - rewrite includes_cons, H; reflexivity.
Qed.

Lemma includes_app_r (e a b : string) :
  includes e b = true -> includes e (a ++ b) = true.
Proof.
  intros H; induction a as [|c a IH]; [exact H|].
  change (String c a ++ b) with (String c (a ++ b)).
  rewrite includes_cons, IH; apply orb_true_r.
Qed.

Lemma prefix_app_l (e a b : string) :
  String.prefix e a = true -> String.prefix e (a ++ b) = true.
Proof.
  revert a; induction e as [|c e IH]; intros a; [intros _; apply prefix_nil|].
  destruct a as [|d a]; cbn; [discriminate|].
  destruct (ascii_dec c d); [apply IH | discriminate].
Qed.

Lemma includes_app_l (e a b : string) :
  includes e a = true -> includes e (a ++ b) = true.
Proof.
  induction a as [|c a IH].
  - intros H. destruct e; [|discriminate].
    apply includes_prefix, prefix_nil.
  - rewrite includes_cons. intros H.
    change (String c a ++ b) with (String c (a ++ b)).
    rewrite includes_cons.
    apply orb_true_iff in H as [H|H].
    + pose proof (prefix_app_l e (String c a) b H) as Hp.
      change (String c a ++ b) with (String c (a ++ b)) in Hp.
      rewrite Hp; reflexivity.
    + rewrite (IH H); apply orb_true_r.
Qed.

Lemma includes_middle (pre w post : string) :
  includes w (pre ++ w ++ post) = true.
Proof. apply includes_app_r, includes_prefix, prefix_app. Qed.

Lemma toLowerCase_app (a b : string) :
  toLowerCase (a ++ b) = toLowerCase a ++ toLowerCase b.
Proof. induction a as [|c a IH]; cbn; [reflexivity|]. f_equal; exact IH. Qed.

Lemma all_chars_run (p : ascii -> bool) (s : string) :
  all_chars p (String.substring 0 (run_length p s) s) = true.
Proof.
  induction s as [|c s IH]; cbn; [reflexivity|].
  destruct (p c) eqn:Hc; cbn; [rewrite Hc; exact IH | reflexivity].
Qed.

Lemma substring_length_pos (n : nat) (s : string) :
  (0 < n)%nat -> (0 < run_length (fun _ => true) s)%nat ->
  String.substring 0 n s <> EmptyString.
Proof.
  destruct n; [lia|]. destruct s; cbn; [lia | discriminate].
Qed.

(** Every match that [match_all] reports is what [at_pos] measured at
    some position: the first [n] characters of a suffix of the input. *)
Lemma match_all_In (at_pos : option ascii -> string -> option nat)
      (e : string) (s : string) :
  forall skip prev,
    List.In e (match_all at_pos skip prev s) ->
    exists pre prev' s' n,
      s = pre ++ s' /\ at_pos prev' s' = Some n /\
      e = String.substring 0 n s'.
Proof.
  induction s as [|c s IH]; intros skip prev; cbn; [tauto|].
  assert (forall k p,
             List.In e (match_all at_pos k p s) ->
             exists pre prev' s' n,
               String c s = pre ++ s' /\ at_pos prev' s' = Some n /\
               e = String.substring 0 n s') as Hrest.
  { intros k p Hin.
    destruct (IH k p Hin) as (pre & prev' & s' & n & -> & Hat & He).
    exists (String c pre), prev', s', n; auto. }
  destruct skip as [|k]; [|apply Hrest].
  destruct (at_pos prev (String c s)) as [n|] eqn:Hat; [|apply Hrest].
  intros [<-|Hin]; [|exact (Hrest _ _ Hin)].
  exists EmptyString, prev, (String c s), n; auto.
Qed.

Lemma match_all_none (at_pos : option ascii -> string -> option nat)
      (ok : string -> Prop) :
  (forall c s, ok (String c s) -> ok s) ->
  (forall prev s, ok s -> at_pos prev s = None) ->
  forall s skip prev, ok s -> match_all at_pos skip prev s = [].
Proof.
  intros Htail Hnone s; induction s as [|c s IH]; intros skip prev Hok; cbn;
    [reflexivity|].
  destruct skip; [rewrite (Hnone _ _ Hok)|]; apply IH, (Htail c), Hok.
Qed.

(** What [url_at] and [capitalized_at] accept. *)
Lemma url_at_shape (prev : option ascii) (s : string) (n : nat) :
  url_at prev s = Some n ->
  exists scheme rest,
    (scheme = "http://" \/ scheme = "https://") /\
    String.substring 0 n s = scheme ++ rest /\
    rest <> EmptyString /\
    all_chars (fun c => negb (is_space c)) rest = true.
Proof.
  unfold url_at.
  assert (forall scheme : string,
             String.prefix scheme s = true ->
             (if (0 <? run_length (fun c => negb (is_space c))
                                  (drop (String.length scheme) s))%nat
              then Some (String.length scheme
                         + run_length (fun c => negb (is_space c))
                                      (drop (String.length scheme) s))%nat
              else None) = Some n ->
             exists rest,
               String.substring 0 n s = scheme ++ rest /\
               rest <> EmptyString /\
               all_chars (fun c => negb (is_space c)) rest = true) as Hscheme.
  { intros scheme Hp Hn.
    pose proof (prefix_inv scheme s Hp) as Hs.
    remember (drop (String.length scheme) s) as t eqn:Ht.
    destruct (Nat.ltb_spec 0 (run_length (fun c => negb (is_space c)) t))
      as [Hpos|]; [|discriminate].
    injection Hn as <-.
    rewrite Hs, substring_app.
    eexists; split; [reflexivity|]. split; [|apply all_chars_run].
    clear Hs Ht. destruct t as [|d t]; cbn in *; [lia|].
    destruct (negb (is_space d)); [discriminate | lia]. }
  destruct (String.prefix "https://" s) eqn:Hs.
  - intros Hn. destruct (Hscheme "https://" Hs Hn) as (rest & ? & ? & ?).
    exists "https://", rest; auto.
  - destruct (String.prefix "http://" s) eqn:Hh; [|discriminate].
    intros Hn. destruct (Hscheme "http://" Hh Hn) as (rest & ? & ? & ?).
    exists "http://", rest; auto.
Qed.

Lemma capitalized_at_shape (prev : option ascii) (s : string) (n : nat) :
  capitalized_at prev s = Some n ->
  exists c rest,
    String.substring 0 n s = String c rest /\
    is_upper c = true /\ rest <> EmptyString /\
    all_chars is_lower rest = true.
Proof.
  destruct s as [|c s]; [discriminate|]. unfold capitalized_at.
  match goal with
  | |- (if ?cond then _ else _) = _ -> _ => destruct cond eqn:Hcond
  end; [|discriminate].
  rewrite !andb_true_iff in Hcond. destruct Hcond as [[[_ Hu] Hpos] _].
  apply Nat.ltb_lt in Hpos.
  intros Hn; injection Hn as <-.
  exists c, (String.substring 0 (run_length is_lower s) s).
  split; [reflexivity|]. split; [exact Hu|]. split; [|apply all_chars_run].
  destruct s as [|d t]; cbn in *; [lia|].
  destruct (is_lower d); [discriminate | lia].
Qed.

Lemma includes_false_tail (e : string) (c : ascii) (s : string) :
  includes e (String c s) = false ->
  String.prefix e (String c s) = false /\ includes e s = false.
Proof. rewrite includes_cons; intros H; apply orb_false_iff in H; exact H. Qed.

Lemma prefix_trans_false (short long s : string) :
  String.prefix short long = true ->
  String.prefix short s = false -> String.prefix long s = false.
Proof.
  revert long s; induction short as [|c short IH]; intros long s.
  - intros _ H; rewrite prefix_nil in H; discriminate.
  - destruct long as [|d long]; [discriminate|]. cbn.
    destruct (ascii_dec c d) as [->|]; [|discriminate].
    intros Hl. destruct s as [|x s]; [reflexivity|]. cbn.
    destruct (ascii_dec d x); [apply IH, Hl | reflexivity].
Qed.

End StringFacts.

(* ===================================================================== *)
(** ** Further properties of QualityValidator                             *)
(* ===================================================================== *)

Module EntityFacts.
Import JsString QualityValidator.

Lemma dedupe_In (entities : list string) (e : string) :
  List.In e (dedupe [] entities) <-> List.In e entities.
Proof.
  destruct (ValidatorFacts.dedupe_spec entities []) as [_ H].
  rewrite H; cbn; tauto.
Qed.

Lemma hallucinated_nil (response_entities context_entities : list string) :
  (forall e, List.In e response_entities -> List.In e context_entities) ->
  hallucinated response_entities context_entities = [].
Proof.
  intros Hsub; unfold hallucinated.
  induction response_entities as [|e l IH]; cbn; [reflexivity|].
  assert (existsb (String.eqb e) context_entities = true) as ->.
  { apply existsb_exists; exists e; split;
      [apply Hsub; left; reflexivity | apply String.eqb_refl]. }
  cbn. apply IH. intros x Hx; apply Hsub; right; exact Hx.
Qed.

Lemma placeholderFound_eq (responseContent : string) :
  placeholderFound responseContent
  = includes "todo" (toLowerCase responseContent)
    || includes "fixme" (toLowerCase responseContent)
    || includes "example.com" (toLowerCase responseContent)
    || includes "placeholder" (toLowerCase responseContent).
Proof.
  unfold placeholderFound.
  destruct (includes "todo" _), (includes "fixme" _),
    (includes "example.com" _), (includes "placeholder" _); reflexivity.
Qed.

End EntityFacts.

(** X5: every entity that [extractEntities] returns occurs verbatim in
    the text and has one of two shapes: [http://] or [https://] followed
    by one character or more, none of them white space; or a capital
    letter A-Z followed by one small letter a-z or more and nothing
    else. *)
Theorem extractEntities_shapes (text e : string) :
  List.In e (QualityValidator.extractEntities text) ->
  JsString.includes e text = true /\
  ((exists scheme rest,
       (scheme = "http://" \/ scheme = "https://") /\
       e = scheme ++ rest /\ rest <> EmptyString /\
       all_chars (fun c => negb (JsString.is_space c)) rest = true)
   \/
   (exists c rest,
       e = String c rest /\ JsString.is_upper c = true /\
       rest <> EmptyString /\ all_chars JsString.is_lower rest = true)).
Proof.
  unfold QualityValidator.extractEntities.
  rewrite EntityFacts.dedupe_In, List.in_app_iff.
  intros [Hin|Hin];
    apply StringFacts.match_all_In in Hin
      as (pre & prev & s' & n & -> & Hat & ->);
    (split;
     [apply StringFacts.includes_app_r, StringFacts.includes_prefix,
        StringFacts.substring_prefix|]).
  - left. exact (StringFacts.url_at_shape prev s' n Hat).
  - right. exact (StringFacts.capitalized_at_shape prev s' n Hat).
Qed.

Lemma extractEntities_shapes_witness :
  JsString.includes "Alice"
    "Alice pushed to https://github.com/user/repo today" = true.
Proof.
  apply (extractEntities_shapes
           "Alice pushed to https://github.com/user/repo today" "Alice").
  vm_compute. right; left; reflexivity.
Defined.

(** X6: a text with no capital letter A-Z and without the letters
    [http] in a row has no entity; as the response of a task it
    therefore never fails the entity-overlap check, whatever the
    context. *)
Theorem no_capital_no_url_no_entity (text : string) :
  all_chars (fun c => negb (JsString.is_upper c)) text = true ->
  JsString.includes "http" text = false ->
  QualityValidator.extractEntities text = [] /\
  forall ctx : string, QualityValidator.entityCheckFails text ctx = false.
Proof.
  intros Hcap Hurl.
  assert (QualityValidator.extractEntities text = []) as Hnone.
  { unfold QualityValidator.extractEntities.
    set (ok := fun s : string =>
                 all_chars (fun c => negb (JsString.is_upper c)) s = true
                 /\ JsString.includes "http" s = false).
    assert (forall c s, ok (String c s) -> ok s) as Htail.
    { intros c s [H1 H2]; split.
      - cbn in H1; apply andb_true_iff in H1; tauto.
      - apply StringFacts.includes_false_tail in H2; tauto. }
    rewrite (StringFacts.match_all_none JsString.url_at ok Htail),
            (StringFacts.match_all_none JsString.capitalized_at ok Htail);
      [reflexivity | | split; assumption | | split; assumption].
    - intros prev [|c s] [H1 H2]; [reflexivity|]; cbn.
      cbn in H1; apply andb_true_iff in H1 as [H1 _].
      apply negb_true_iff in H1; rewrite H1, andb_false_r; reflexivity.
    - intros prev s [_ H2]. unfold JsString.url_at.
      assert (String.prefix "http" s = false) as Hp.
      { destruct s; [reflexivity|].
        apply StringFacts.includes_false_tail in H2; tauto. }
      rewrite (StringFacts.prefix_trans_false "http" "https://" s eq_refl Hp),
              (StringFacts.prefix_trans_false "http" "http://" s eq_refl Hp).
      reflexivity. }
  split; [exact Hnone|].
  intros ctx. apply not_true_iff_false.
  rewrite ValidatorFacts.entityCheckFails_iff, Hnone; cbn; lia.
Qed.

Lemma no_capital_no_url_no_entity_witness :
  QualityValidator.extractEntities "the build is green, ship it" = [].
Proof.
  apply (no_capital_no_url_no_entity "the build is green, ship it");
    vm_compute; reflexivity.
Defined.

(** X7: a response all of whose entities are among the entities of the
    context passes the entity-overlap check; in particular a response
    that repeats the context does. *)
Theorem entities_within_context_pass (response_content ctx : string) :
  (forall e, List.In e (QualityValidator.extractEntities response_content) ->
             List.In e (QualityValidator.extractEntities ctx)) ->
  QualityValidator.hallucinated
    (QualityValidator.extractEntities response_content)
    (QualityValidator.extractEntities ctx) = [] /\
  QualityValidator.entityCheckFails response_content ctx = false /\
  QualityValidator.entityCheckFails ctx ctx = false.
Proof.
  intros Hsub.
  pose proof (EntityFacts.hallucinated_nil _ _ Hsub) as Hnil.
  split; [exact Hnil|]. split; apply not_true_iff_false;
    rewrite ValidatorFacts.entityCheckFails_iff.
  - rewrite Hnil; cbn; lia.
  - rewrite (EntityFacts.hallucinated_nil _ _ (fun e H => H)); cbn; lia.
Qed.

Lemma entities_within_context_pass_witness :
  QualityValidator.entityCheckFails
    "Bob approved it"
    "Alice opened the request and Bob reviewed it" = false.
Proof.
  apply (entities_within_context_pass
           "Bob approved it" "Alice opened the request and Bob reviewed it").
  vm_compute. intros e [<-|[]]. right; left; reflexivity.
Defined.

(** X9: a response that contains [todo], [fixme], [example.com] or
    [placeholder] anywhere, in any mix of capital and small letters, is
    rejected by [validate], whatever the task. *)
Theorem placeholder_rejected_any_case `{JsRuntime}
        (response : AgentResponse) (task : AgentTask)
        (before marker after : string) :
  content response = before ++ marker ++ after ->
  List.In (JsString.toLowerCase marker)
          ["todo"; "fixme"; "example.com"; "placeholder"] ->
  QualityValidator.placeholderFound (content response) = true /\
  QualityValidator.validate response task = false.
Proof.
  intros Hc Hm.
  assert (QualityValidator.placeholderFound (content response) = true) as Hp.
  { rewrite EntityFacts.placeholderFound_eq, Hc, !StringFacts.toLowerCase_app.
    pose proof (StringFacts.includes_middle
                  (JsString.toLowerCase before) (JsString.toLowerCase marker)
                  (JsString.toLowerCase after)) as Hi.
    cbn in Hm. destruct Hm as [Hm|[Hm|[Hm|[Hm|[]]]]];
      rewrite <- Hm in Hi |- *; rewrite Hi, ?orb_true_r; reflexivity. }
  split; [exact Hp|].
  rewrite ValidatorFacts.validate_eq.
  unfold QualityValidator.detectHallucination. rewrite Hp.
  cbn. apply andb_false_r.
Qed.

Lemma placeholder_rejected_any_case_witness :
  @QualityValidator.validate ReferenceRuntime.runtime
    (mkResponse "The parser is done, ToDo: handle escapes" ollama 30 12 JsNumber.zero)
    (plain_task extraction "Summarize the change") = false.
Proof.
  apply (@placeholder_rejected_any_case ReferenceRuntime.runtime
           (mkResponse "The parser is done, ToDo: handle escapes"
                       ollama 30 12 JsNumber.zero)
           (plain_task extraction "Summarize the change")
           "The parser is done, " "ToDo" ": handle escapes").
  - reflexivity.
  - left; vm_compute; reflexivity.
Defined.

(** X10: when JSON is expected and at least one field is required, a
    content that parses to something other than an object or an array (a
    number, a string, a boolean, null) is rejected: the [in] operator
    throws on it and the exception is caught.  With an empty list of
    required fields the same content passes the JSON check. *)
Theorem required_field_of_primitive_rejected `{JsRuntime}
        (response : AgentResponse) (task : AgentTask) (parsed : JSValue) :
  expectsJSON task = Some true ->
  JSON_parse (content response) = Some parsed ->
  match parsed with
  | JObject _ | JArray _ => False
  | _ => True
  end ->
  (forall field rest,
      requiredFields task = Some (field :: rest) ->
      QualityValidator.validate response task = false) /\
  (requiredFields task = Some [] \/ requiredFields task = None ->
   QualityValidator.jsonCheckPasses response task = true).
Proof.
  intros He Hp Hprim; split.
  - intros field rest Hf.
    unfold QualityValidator.validate, QualityValidator.jsonCheckPasses.
    rewrite He, Hp, Hf; cbn.
    destruct parsed; try contradiction; reflexivity.
  - intros [Hf|Hf]; unfold QualityValidator.jsonCheckPasses;
      rewrite He, Hp, Hf; reflexivity.
Qed.

Lemma required_field_of_primitive_rejected_witness :
  @QualityValidator.validate ReferenceRuntime.runtime
    (mkResponse "42" ollama 8 1 JsNumber.zero)
    (mkTask extraction "Count the open requests" None None (Some true)
            (Some ["count"]) None None) = false.
Proof.
  apply (proj1 (@required_field_of_primitive_rejected ReferenceRuntime.runtime
           (mkResponse "42" ollama 8 1 JsNumber.zero)
           (mkTask extraction "Count the open requests" None None (Some true)
                   (Some ["count"]) None None)
           (JNumber 42) eq_refl ltac:(vm_compute; reflexivity) I)
           "count" []).
  reflexivity.
Defined.

(* ===================================================================== *)
(** ** What validate accepts                                              *)
(* ===================================================================== *)

Module AcceptFacts.
Import QualityValidator.

Lemma every_in_iff `{JsRuntime} (fields : list string) (v : JSValue) :
  JsObject.every_in fields v = Some true
  <-> forall f, List.In f fields -> JsObject.js_in f v = Some true.
Proof.
  split; [apply ValidatorFacts.every_in_true|].
  induction fields as [|x rest IH]; intros Hall; cbn; [reflexivity|].
  rewrite (Hall x) by (left; reflexivity).
  apply IH. intros f Hf; apply Hall; right; exact Hf.
Qed.

Lemma filter_length_le {A : Type} (p q : A -> bool) (l : list A) :
  (forall x, p x = true -> q x = true) ->
  (List.length (List.filter p l) <= List.length (List.filter q l))%nat.
Proof.
  intros Hpq; induction l as [|x l IH]; cbn; [lia|].
  destruct (p x) eqn:Hp.
  - rewrite (Hpq x Hp); cbn; lia.
  - destruct (q x); cbn; lia.
Qed.

End AcceptFacts.

(** X11: [validate] accepts a response exactly when all of this holds:
    if JSON is expected the content parses and every required field is
    [in] the parsed value; the content is not shorter than a minimum
    length other than 0; no placeholder occurs in it; and, if the context
    is a non-empty string, at most half of the entities of the response
    are missing from the context. *)
Theorem validate_accepts_iff `{JsRuntime}
        (response : AgentResponse) (task : AgentTask) :
  QualityValidator.validate response task = true
  <->
  (truthy_bool (expectsJSON task) = true ->
   exists parsed,
     JSON_parse (content response) = Some parsed /\
     forall fields field,
       requiredFields task = Some fields -> List.In field fields ->
       JsObject.js_in field parsed = Some true) /\
  (forall m, minLength task = Some m -> m <> 0 ->
             m <= Z.of_nat (String.length (content response))) /\
  QualityValidator.placeholderFound (content response) = false /\
  (forall ctx,
      context task = Some ctx -> ctx <> EmptyString ->
      2 * Z.of_nat (List.length
                      (QualityValidator.hallucinated
                         (QualityValidator.extractEntities (content response))
                         (QualityValidator.extractEntities ctx)))
      <= Z.of_nat (List.length
                     (QualityValidator.extractEntities (content response)))).
Proof.
  rewrite ValidatorFacts.validate_eq, !andb_true_iff, !negb_true_iff.
  assert (QualityValidator.jsonCheckPasses response task = true
          <-> (truthy_bool (expectsJSON task) = true ->
               exists parsed,
                 JSON_parse (content response) = Some parsed /\
                 forall fields field,
                   requiredFields task = Some fields -> List.In field fields ->
                   JsObject.js_in field parsed = Some true)) as ->.
  { unfold QualityValidator.jsonCheckPasses.
    destruct (truthy_bool (expectsJSON task)); [|split; [discriminate 2|auto]].
    destruct (JSON_parse (content response)) as [parsed|]; cycle 1.
    { split; [discriminate|]. intros Hp.
      destruct (Hp eq_refl) as (? & ? & _); discriminate. }
    destruct (requiredFields task) as [fields|]; cycle 1.
    { split; [|reflexivity]. intros _ _. exists parsed.
      split; [reflexivity | discriminate]. }
    split.
    - intros Hall _. exists parsed. split; [reflexivity|].
      intros fs f [= <-]. apply AcceptFacts.every_in_iff.
      destruct (JsObject.every_in fields parsed) as [[|]|];
        [reflexivity | discriminate | discriminate].
    - intros Hp. destruct (Hp eq_refl) as (v & [= <-] & Hall).
      rewrite (proj2 (AcceptFacts.every_in_iff fields parsed)
                     (fun f Hf => Hall fields f eq_refl Hf)).
      reflexivity. }
  assert (QualityValidator.tooShort response task = false
          <-> (forall m, minLength task = Some m -> m <> 0 ->
                         m <= Z.of_nat (String.length (content response))))
    as ->.
  { unfold QualityValidator.tooShort.
    destruct (minLength task) as [m|]; [|split; [discriminate 2 | reflexivity]].
    cbn. destruct (Z.eqb_spec m 0) as [->|Hm]; cbn.
    - split; [intros _ m [= <-]; contradiction | reflexivity].
    - destruct (Z.ltb_spec (Z.of_nat (String.length (content response))) m).
      + split; [discriminate|]. intros Hle.
        specialize (Hle m eq_refl Hm). lia.
      + split; [|reflexivity]. intros _ m' [= <-] _. lia. }
  assert (QualityValidator.detectHallucination response task = false
          <-> QualityValidator.placeholderFound (content response) = false /\
              (forall ctx,
                  context task = Some ctx -> ctx <> EmptyString ->
                  QualityValidator.entityCheckFails (content response) ctx
                  = false)) as ->.
  { unfold QualityValidator.detectHallucination.
    destruct (QualityValidator.placeholderFound (content response));
      [split; [discriminate | intros [? _]; discriminate]|].
    destruct (context task) as [ctx|];
      [|split; [split; [reflexivity | discriminate] | reflexivity]].
    cbn. destruct (String.eqb_spec ctx EmptyString) as [->|Hne]; cbn.
    - split; [|reflexivity]. intros _; split; [reflexivity|].
      intros c [= <-]; contradiction.
    - destruct (QualityValidator.entityCheckFails (content response) ctx)
        eqn:He.
      + split; [discriminate|]. intros [_ Hc].
        rewrite (Hc ctx eq_refl Hne) in He. discriminate.
      + split; [|reflexivity]. intros _; split; [reflexivity|].
        intros c [= <-] _. exact He. }
  assert (forall ctx,
             QualityValidator.entityCheckFails (content response) ctx = false
             <-> 2 * Z.of_nat (List.length
                                 (QualityValidator.hallucinated
                                    (QualityValidator.extractEntities
                                       (content response))
                                    (QualityValidator.extractEntities ctx)))
                 <= Z.of_nat (List.length
                                (QualityValidator.extractEntities
                                   (content response)))) as Hcheck.
  { intros ctx. rewrite <- not_true_iff_false,
      ValidatorFacts.entityCheckFails_iff. lia. }
  split.
  - intros [[Hj Hl] [Hp Hc]]. repeat split; auto.
    intros ctx Hctx Hne. apply Hcheck, Hc; assumption.
  - intros (Hj & Hl & Hp & Hc). repeat split; auto.
    intros ctx Hctx Hne. apply Hcheck, Hc; assumption.
Qed.

Lemma validate_accepts_iff_witness :
  @QualityValidator.validate ReferenceRuntime.runtime
    (mkResponse "merged by bob after two approvals" ollama 12 7 JsNumber.zero)
    (mkTask extraction "Who merged it" None None None None (Some 10) None)
  = true.
Proof.
  apply (@validate_accepts_iff ReferenceRuntime.runtime
           (mkResponse "merged by bob after two approvals" ollama 12 7 JsNumber.zero)
           (mkTask extraction "Who merged it" None None None None
                   (Some 10) None)).
  split; [discriminate|]. split; [|split; [reflexivity | discriminate]].
  intros m [= <-] _. vm_compute; discriminate.
Defined.

(** X8: a richer context never turns a pass into a failure.  If every
    entity of one context is also an entity of another, a response that
    fails the entity-overlap check against the richer one fails it
    against the poorer one too. *)
Theorem entity_check_monotone_in_context
        (response_content poorer richer : string) :
  (forall e, List.In e (QualityValidator.extractEntities poorer) ->
             List.In e (QualityValidator.extractEntities richer)) ->
  QualityValidator.entityCheckFails response_content richer = true ->
  QualityValidator.entityCheckFails response_content poorer = true.
Proof.
  intros Hsub.
  rewrite !ValidatorFacts.entityCheckFails_iff.
  assert (List.length
            (QualityValidator.hallucinated
               (QualityValidator.extractEntities response_content)
               (QualityValidator.extractEntities richer))
          <= List.length
               (QualityValidator.hallucinated
                  (QualityValidator.extractEntities response_content)
                  (QualityValidator.extractEntities poorer)))%nat as Hle.
  { apply AcceptFacts.filter_length_le. intros e He.
    apply negb_true_iff in He. apply negb_true_iff.
    apply not_true_iff_false. intros Hin.
    apply not_true_iff_false in He. apply He.
    apply existsb_exists in Hin as (x & Hx & Hex).
    apply existsb_exists. exists x. split; [apply Hsub, Hx | exact Hex]. }
  lia.
Qed.

Lemma entity_check_monotone_in_context_witness :
  QualityValidator.entityCheckFails
    "Carol and Dave approved" "Alice opened it" = true.
Proof.
  apply (entity_check_monotone_in_context
           "Carol and Dave approved" "Alice opened it"
           "Alice opened it, Bob reviewed it").
  - vm_compute. intros e [<-|[]]. left; reflexivity.
  - vm_compute; reflexivity.
Defined.

(* ===================================================================== *)
(** ** Further properties of the routers                                  *)
(* ===================================================================== *)

Module RouterCases.
Section Cases.

Context `{JsRuntime}.
Variables (local remote : LLMProvider) (config : RouterConfig).
Variable recordUsage_answer : AgentResponse -> Outcome unit.

Local Abbreviation route := (IntelligenceRouter.execute local remote config).
Local Abbreviation flow :=
  (RouterCodeFlow.execute local remote config recordUsage_answer).
Local Abbreviation options :=
  (Some (mkOptions (Some (1 # 10)%Q) (Some (ollamaTimeout config)) None)).

Lemma calls_app (kind : Event -> bool) (a b : list Event) :
  calls kind (a ++ b) = (calls kind a + calls kind b)%nat.
Proof. unfold calls. rewrite List.filter_app, List.length_app. reflexivity. Qed.

(** [executeWithOllama], every way it can end. *)
Lemma executeWithOllama_cases (task : AgentTask) (trace : list Event) :
  IntelligenceRouter.executeWithOllama local config task trace =
  match provider_isAvailable local (calls is_local_probe trace) with
  | Returned true =>
      (provider_execute local (calls is_local_execute trace) task options,
       (trace ++ [OllamaIsAvailable; OllamaExecute task options])%list)
  | Returned false =>
      (Thrown "Ollama not available", (trace ++ [OllamaIsAvailable])%list)
  | Thrown e => (Thrown e, (trace ++ [OllamaIsAvailable])%list)
  end.
Proof.
  unfold IntelligenceRouter.executeWithOllama, Effect.bind,
    IntelligenceRouter.ollama_isAvailable, IntelligenceRouter.ollama_execute,
    Effect.call, Effect.throw.
  destruct (provider_isAvailable local _) as [[|]|e]; cbn [negb];
    try reflexivity.
  rewrite calls_app, Nat.add_0_r, <- List.app_assoc. reflexivity.
Qed.

Lemma route_run (task : AgentTask) (trace : list Event) :
  exists outcome added,
    route task trace = (outcome, (trace ++ added)%list) /\
    RouterRuns.Run local remote config task trace outcome added.
Proof.
  destruct (Z.lt_ge_cases (score (ComplexityAnalyzer.analyze task)) 2) as [H2|H2].
  { eexists _, []; rewrite List.app_nil_r; split;
      [apply RouterFacts.route_trivial, H2 | apply RouterRuns.run_rejected; exact H2]. }
  destruct (Z.lt_ge_cases (score (ComplexityAnalyzer.analyze task)) 6) as [H6|H6].
  { rewrite RouterFacts.route_simple, executeWithOllama_cases by lia.
    destruct (provider_isAvailable local _) as [[|]|e] eqn:Hp.
    - eexists _, _; split; [reflexivity|]. apply RouterRuns.run_local_only; [lia|exact Hp].
    - eexists _, _; split; [reflexivity|].
      apply RouterRuns.run_probe_failed; [lia | left; split; [exact Hp | reflexivity]].
    - eexists _, _; split; [reflexivity|].
      apply RouterRuns.run_probe_failed; [lia | right; exact Hp]. }
  destruct (Z.lt_ge_cases (score (ComplexityAnalyzer.analyze task)) 8) as [H8|H8];
    [destruct (ollamaFallback config) eqn:Hf|].
  - rewrite RouterFacts.route_moderate by (lia || exact Hf). cbv zeta.
    unfold IntelligenceRouter.claude_execute, Effect.call.
    rewrite !calls_app, !Nat.add_0_r, <- !List.app_assoc.
    destruct (provider_isAvailable local _) as [[|]|e] eqn:Hp.
    + destruct (provider_execute local _ task options) as [result|e] eqn:Hl.
      * destruct (QualityValidator.validate result task) eqn:Hv.
        -- eexists _, _; split; [reflexivity|].
           apply RouterRuns.run_local_accepted; [lia | exact Hf | exact Hp | exact Hl | exact Hv].
        -- eexists _, _; split; [reflexivity|].
           apply RouterRuns.run_fallback_after_execute; [lia | exact Hf | exact Hp |].
           intros r Hr; rewrite Hl in Hr; injection Hr as <-; exact Hv.
      * eexists _, _; split; [reflexivity|].
        apply RouterRuns.run_fallback_after_execute; [lia | exact Hf | exact Hp |].
        intros r Hr; rewrite Hl in Hr; discriminate.
    + eexists _, _; split; [reflexivity|].
      apply RouterRuns.run_fallback_after_probe; [lia | exact Hf | rewrite Hp; discriminate].
    + eexists _, _; split; [reflexivity|].
      apply RouterRuns.run_fallback_after_probe; [lia | exact Hf | rewrite Hp; discriminate].
  - rewrite RouterFacts.route_complex by (right; split; [lia | exact Hf]).
    eexists _, _; split; [reflexivity|].
    apply RouterRuns.run_remote_only; right; split; [lia | exact Hf].
  - rewrite RouterFacts.route_complex by (left; lia).
    eexists _, _; split; [reflexivity|].
    apply RouterRuns.run_remote_only; left; lia.
Qed.

End Cases.
End RouterCases.

(** X12: one run of [IntelligenceRouter.execute] adds to the trace at most
    one probe of the local backend, then at most one local [execute], then
    at most one remote [execute], in this order; the local [execute]
    happens only after a probe that answered true. *)
Theorem router_call_discipline `{JsRuntime}
        (local remote : LLMProvider) (config : RouterConfig)
        (task : AgentTask) (trace : list Event) :
  let probe := OllamaIsAvailable in
  let run_local :=
    OllamaExecute task
      (Some (mkOptions (Some (1 # 10)%Q) (Some (ollamaTimeout config)) None)) in
  let run_remote := ClaudeExecute task None in
  exists added : list Event,
    snd (IntelligenceRouter.execute local remote config task trace)
    = (trace ++ added)%list /\
    List.In added [ []; [probe]; [probe; run_local];
                    [probe; run_local; run_remote];
                    [probe; run_remote]; [run_remote] ] /\
    (List.In run_local added ->
     provider_isAvailable local (calls is_local_probe trace) = Returned true).
Proof.
  cbv zeta.
  destruct (RouterCases.route_run local remote config task trace)
    as (outcome & added & Heq & Hrun).
  exists added; rewrite Heq; split; [reflexivity|].
  destruct Hrun; cbn; split; auto 10; intros Hin;
    repeat (destruct Hin as [Hin|Hin]; try discriminate Hin); tauto.
Qed.

Lemma router_call_discipline_witness :
  exists added : list Event,
    snd (Fixtures.router Fixtures.local_invalid Fixtures.remote_ok
                         Fixtures.config_fallback Fixtures.extract_json [])
    = ([] ++ added)%list /\
    List.In added
            [ []; [OllamaIsAvailable];
              [OllamaIsAvailable;
               OllamaExecute Fixtures.extract_json Fixtures.local_options];
              [OllamaIsAvailable;
               OllamaExecute Fixtures.extract_json Fixtures.local_options;
               ClaudeExecute Fixtures.extract_json None];
              [OllamaIsAvailable; ClaudeExecute Fixtures.extract_json None];
              [ClaudeExecute Fixtures.extract_json None] ] /\
    (List.In (OllamaExecute Fixtures.extract_json Fixtures.local_options)
             added ->
     provider_isAvailable Fixtures.local_invalid (calls is_local_probe [])
     = Returned true).
Proof.
  exact (@router_call_discipline ReferenceRuntime.runtime
           Fixtures.local_invalid Fixtures.remote_ok Fixtures.config_fallback
           Fixtures.extract_json []).
Defined.

(** X13: whenever a run of [IntelligenceRouter.execute] calls the remote
    backend, what the run returns or throws is what that call returned or
    threw, unchanged: a remote error is never caught and a remote answer
    is never validated. *)
Theorem remote_outcome_is_final `{JsRuntime}
        (local remote : LLMProvider) (config : RouterConfig)
        (task : AgentTask) (trace : list Event) :
  calls is_remote_execute
        (snd (IntelligenceRouter.execute local remote config task trace))
  <> calls is_remote_execute trace ->
  fst (IntelligenceRouter.execute local remote config task trace)
  = provider_execute remote (calls is_remote_execute trace) task None.
Proof.
  destruct (RouterCases.route_run local remote config task trace)
    as (outcome & added & Heq & Hrun).
  rewrite Heq; cbn [fst snd]. rewrite RouterCases.calls_app.
  destruct Hrun; cbn; intros Hne; try reflexivity; lia.
Qed.

Lemma remote_outcome_is_final_witness :
  fst (Fixtures.router Fixtures.local_throwing
         (Fixtures.steady "claude" true (Thrown "529 overloaded"))
         Fixtures.config_fallback
         (plain_task security_analysis "Audit the login handler") [])
  = Thrown "529 overloaded".
Proof.
  apply (@remote_outcome_is_final ReferenceRuntime.runtime
           Fixtures.local_throwing
           (Fixtures.steady "claude" true (Thrown "529 overloaded"))
           Fixtures.config_fallback
           (plain_task security_analysis "Audit the login handler") []).
  vm_compute; discriminate.
Defined.

(** X14: a response returned by [IntelligenceRouter.execute] is the
    answer of the remote backend, or the answer of the local backend
    after a probe that answered true; a local answer to a task of total 6
    or more is returned only if [validate] accepts it. *)
Theorem returned_response_provenance `{JsRuntime}
        (local remote : LLMProvider) (config : RouterConfig)
        (task : AgentTask) (trace : list Event) (response : AgentResponse) :
  fst (IntelligenceRouter.execute local remote config task trace)
  = Returned response ->
  provider_execute remote (calls is_remote_execute trace) task None
  = Returned response
  \/
  (provider_isAvailable local (calls is_local_probe trace) = Returned true /\
   provider_execute local (calls is_local_execute trace) task
     (Some (mkOptions (Some (1 # 10)%Q) (Some (ollamaTimeout config)) None))
   = Returned response /\
   (score (ComplexityAnalyzer.analyze task) < 6 \/
    QualityValidator.validate response task = true)).
Proof.
  destruct (RouterCases.route_run local remote config task trace)
    as (outcome & added & Heq & Hrun).
  rewrite Heq; cbn [fst]. intros Hret.
  destruct Hrun as [ | | Hs Hp | result Hs Hf Hp Hl Hv | | | ];
    try discriminate Hret; try (left; exact Hret).
  - right; split; [exact Hp|]. split; [exact Hret|]. left; lia.
  - injection Hret as ->.
    right; split; [exact Hp|]. split; [exact Hl|]. right; exact Hv.
Qed.

Lemma returned_response_provenance_witness :
  provider_execute Fixtures.remote_ok 0 Fixtures.extract_json None
  = Returned Fixtures.local_bad_json
  \/
  (provider_isAvailable Fixtures.local_invalid 0 = Returned true /\
   provider_execute Fixtures.local_invalid 0 Fixtures.extract_json
                    Fixtures.local_options
   = Returned Fixtures.local_bad_json /\
   (score (ComplexityAnalyzer.analyze Fixtures.extract_json) < 6 \/
    @QualityValidator.validate ReferenceRuntime.runtime
       Fixtures.local_bad_json Fixtures.extract_json = true)).
Proof.
  apply (@returned_response_provenance ReferenceRuntime.runtime
           Fixtures.local_invalid Fixtures.remote_ok Fixtures.config_fallback
           Fixtures.extract_json [] Fixtures.local_bad_json).
  vm_compute; reflexivity.
Defined.

Module FlowCases.
Section Cases.

Context `{JsRuntime}.
Variables (local remote : LLMProvider) (config : RouterConfig).
Variable recordUsage_answer : AgentResponse -> Outcome unit.

Local Abbreviation flow :=
  (RouterCodeFlow.execute local remote config recordUsage_answer).
Local Abbreviation remote_then_record :=
  (fun task : AgentTask =>
     result <- IntelligenceRouter.claude_execute remote task None ;;
     _ <- RouterCodeFlow.recordUsage recordUsage_answer result ;;
     Effect.ret result).

(** With the fallback off the code flow never tries the local backend. *)
Lemma flow_no_fallback (task : AgentTask) (trace : list Event) :
  2 <= score (ComplexityAnalyzer.analyze task) ->
  ollamaFallback config = false ->
  flow task trace = remote_then_record task trace.
Proof.
  intros Hs Hf. unfold RouterCodeFlow.execute; cbv zeta.
  rewrite RouterFacts.recommended_of_score.
  unfold ComplexityAnalyzer.getRecommendedModel.
  destruct (Z.ltb_spec (score (ComplexityAnalyzer.analyze task)) 2); [lia|].
  rewrite Hf.
  destruct (score (ComplexityAnalyzer.analyze task) <? 7),
           (score (ComplexityAnalyzer.analyze task) <? 8); reflexivity.
Qed.

(** [claude.execute] then [recordUsage], when [recordUsage] returns. *)
Lemma remote_then_record_ok (task : AgentTask) (trace : list Event) :
  (forall r, recordUsage_answer r = Returned tt) ->
  fst (remote_then_record task trace)
  = provider_execute remote (calls is_remote_execute trace) task None.
Proof.
  intros Hok. unfold Effect.bind, IntelligenceRouter.claude_execute,
    RouterCodeFlow.recordUsage, Effect.call, Effect.ret.
  destruct (provider_execute remote _ task None) as [r|e]; [|reflexivity].
  rewrite Hok; reflexivity.
Qed.

End Cases.
End FlowCases.

(** X15: in the code flow of the specification document, when the probe
    of the local backend answers false the remote call is made inside the
    [try] block.  If it succeeds its answer is returned at once and no
    usage is recorded; if it throws, the error is caught as if the local
    backend had failed and the remote backend is called a second time. *)
Theorem code_flow_probe_failure `{JsRuntime}
        (local remote : LLMProvider) (config : RouterConfig)
        (recordUsage_answer : AgentResponse -> Outcome unit)
        (task : AgentTask) (trace : list Event) :
  2 <= score (ComplexityAnalyzer.analyze task) < 8 ->
  ollamaFallback config = true ->
  provider_isAvailable local (calls is_local_probe trace) = Returned false ->
  let first :=
    provider_execute remote (calls is_remote_execute trace) task None in
  let second :=
    provider_execute remote (S (calls is_remote_execute trace)) task None in
  let run := RouterCodeFlow.execute local remote config recordUsage_answer
                                    task trace in
  (forall response,
      first = Returned response ->
      run = (Returned response,
             (trace ++ [OllamaIsAvailable; ClaudeExecute task None])%list)) /\
  (forall e,
      first = Thrown e ->
      List.filter is_backend (snd run)
      = (List.filter is_backend trace
         ++ [OllamaIsAvailable; ClaudeExecute task None;
             ClaudeExecute task None])%list /\
      fst run = match second with
                | Returned response =>
                    match recordUsage_answer response with
                    | Returned _ => Returned response
                    | Thrown e' => Thrown e'
                    end
                | Thrown e' => Thrown e'
                end).
Proof.
  intros Hs Hf Hp; cbv zeta.
  rewrite (RouterFacts.flow_local_first local remote config recordUsage_answer
             task trace Hs Hf); cbv zeta.
  rewrite Hp, RouterCases.calls_app, Nat.add_0_r.
  split.
  - intros response ->. rewrite <- List.app_assoc. reflexivity.
  - intros e ->.
    unfold Effect.bind, IntelligenceRouter.claude_execute,
      RouterCodeFlow.recordUsage, Effect.call, Effect.ret.
    rewrite !RouterCases.calls_app; cbn [calls List.filter is_remote_execute
      List.length Nat.add]. rewrite Nat.add_0_r, Nat.add_1_r.
    destruct (provider_execute remote _ task None) as [response|e'];
      [destruct (recordUsage_answer response)|]; cbn [fst snd];
      rewrite !List.filter_app; cbn; rewrite ?List.app_nil_r, <- ?List.app_assoc;
      split; reflexivity.
Qed.

Lemma code_flow_probe_failure_witness :
  Fixtures.code_flow Fixtures.local_down Fixtures.remote_ok
                     Fixtures.config_fallback Fixtures.extract_json []
  = (Returned Fixtures.remote_answer,
     [OllamaIsAvailable; ClaudeExecute Fixtures.extract_json None]).
Proof.
  apply (proj1 (@code_flow_probe_failure ReferenceRuntime.runtime
           Fixtures.local_down Fixtures.remote_ok Fixtures.config_fallback
           (fun _ => Returned tt) Fixtures.extract_json []
           ltac:(vm_compute; split; [discriminate | reflexivity])
           eq_refl eq_refl)
           Fixtures.remote_answer).
  reflexivity.
Defined.

(** X16: from the total 6 on the two routers agree.  Provided
    [recordUsage] does not throw, they return or throw the same and make
    the same backend calls, except in one case: the probe answers false
    and the remote call throws, where the code flow calls the remote
    backend once more. *)
Theorem routers_agree_from_score_6 `{JsRuntime}
        (local remote : LLMProvider) (config : RouterConfig)
        (recordUsage_answer : AgentResponse -> Outcome unit)
        (task : AgentTask) (trace : list Event) :
  6 <= score (ComplexityAnalyzer.analyze task) ->
  (forall response, recordUsage_answer response = Returned tt) ->
  (provider_isAvailable local (calls is_local_probe trace) = Returned false ->
   exists response,
     provider_execute remote (calls is_remote_execute trace) task None
     = Returned response) ->
  fst (IntelligenceRouter.execute local remote config task trace)
  = fst (RouterCodeFlow.execute local remote config recordUsage_answer
                                task trace) /\
  List.filter is_backend
    (snd (IntelligenceRouter.execute local remote config task trace))
  = List.filter is_backend
      (snd (RouterCodeFlow.execute local remote config recordUsage_answer
                                   task trace)).
Proof.
  intros Hs Hok Hprobe.
  assert (forall tr,
             List.filter is_backend
               (snd (IntelligenceRouter.claude_execute remote task None tr))
             = (List.filter is_backend tr ++ [ClaudeExecute task None])%list)
    as Hremote.
  { intros tr. unfold IntelligenceRouter.claude_execute, Effect.call; cbn.
    rewrite List.filter_app; reflexivity. }
  destruct (Z.lt_ge_cases (score (ComplexityAnalyzer.analyze task)) 8) as [H8|H8];
    [destruct (ollamaFallback config) eqn:Hf|].
  - rewrite (RouterFacts.route_moderate local remote config task trace)
      by (lia || exact Hf).
    rewrite (RouterFacts.flow_local_first local remote config
               recordUsage_answer task trace) by (lia || exact Hf).
    cbv zeta.
    destruct (provider_isAvailable local _) as [[|]|e] eqn:Hp.
    + destruct (provider_execute local _ task _) as [result|e];
        [destruct (QualityValidator.validate result task)|].
      * rewrite Hok; cbn [fst snd]. split; [reflexivity|].
        rewrite (List.filter_app _ _ [RecordUsage result]); cbn.
        rewrite List.app_nil_r; reflexivity.
      * rewrite FlowCases.remote_then_record_ok by exact Hok.
        rewrite RouterFacts.remote_then_record_backend, Hremote.
        split; reflexivity.
      * rewrite FlowCases.remote_then_record_ok by exact Hok.
        rewrite RouterFacts.remote_then_record_backend, Hremote.
        split; reflexivity.
    + destruct (Hprobe eq_refl) as [response Hr].
      unfold IntelligenceRouter.claude_execute, Effect.call.
      rewrite !RouterCases.calls_app, !Nat.add_0_r, Hr. cbn [fst snd].
      split; reflexivity.
    + rewrite FlowCases.remote_then_record_ok by exact Hok.
      rewrite RouterFacts.remote_then_record_backend, Hremote.
      split; reflexivity.
  - rewrite (RouterFacts.route_complex local remote config task trace)
      by (right; split; [lia | exact Hf]).
    rewrite (FlowCases.flow_no_fallback local remote config recordUsage_answer
               task trace) by (lia || exact Hf).
    rewrite FlowCases.remote_then_record_ok by exact Hok.
    rewrite RouterFacts.remote_then_record_backend; cbn [fst snd].
    rewrite List.filter_app. split; reflexivity.
  - rewrite (RouterFacts.route_complex local remote config task trace)
      by (left; lia).
    rewrite (RouterFacts.flow_complex local remote config recordUsage_answer
               task trace) by (left; lia).
    rewrite FlowCases.remote_then_record_ok by exact Hok.
    rewrite RouterFacts.remote_then_record_backend; cbn [fst snd].
    rewrite List.filter_app. split; reflexivity.
Qed.

Lemma routers_agree_from_score_6_witness :
  fst (Fixtures.router Fixtures.local_invalid Fixtures.remote_ok
                       Fixtures.config_fallback Fixtures.compile_workflow [])
  = fst (Fixtures.code_flow Fixtures.local_invalid Fixtures.remote_ok
                            Fixtures.config_fallback
                            Fixtures.compile_workflow []).
Proof.
  apply (@routers_agree_from_score_6 ReferenceRuntime.runtime
           Fixtures.local_invalid Fixtures.remote_ok Fixtures.config_fallback
           (fun _ => Returned tt) Fixtures.compile_workflow []).
  - vm_compute; discriminate.
  - reflexivity.
  - discriminate.
Defined.

(* ===================================================================== *)
(** ** Properties of the providers                                        *)
(* ===================================================================== *)

Module ProviderFacts.

#[local] Arguments String.append : simpl nomatch.

Lemma append_assoc (a b c : string) : (a ++ b) ++ c = a ++ (b ++ c).
Proof. induction a as [|x a IH]; cbn; [reflexivity|]. f_equal; exact IH. Qed.

Lemma includes_self (s : string) : JsString.includes s s = true.
Proof. apply StringFacts.includes_prefix, StringFacts.prefix_refl. Qed.

Lemma number_or_nonzero (n : option Z) (fallback : Z) :
  fallback <> 0 -> number_or n fallback <> 0.
Proof.
  intros Hf; unfold number_or. destruct n as [n|]; [|exact Hf].
  destruct (Z.eqb_spec n 0); assumption.
Qed.

Lemma rational_or_nonzero (q : option Q) (fallback : Q) :
  ~ (fallback == 0)%Q -> ~ (rational_or q fallback == 0)%Q.
Proof.
  intros Hf; unfold rational_or. destruct q as [q|]; [|exact Hf].
  destruct (Qeq_bool q 0) eqn:Hq; [exact Hf|].
  intros Hz. apply Qeq_bool_iff in Hz. congruence.
Qed.

(** What [composePrompt] always contains. *)
Lemma composePrompt_contains (instruction : string) (task : AgentTask) :
  JsString.includes (prompt task) (composePrompt instruction task) = true /\
  (forall ctx, context task = Some ctx ->
               JsString.includes ctx (composePrompt instruction task) = true) /\
  (expectsJSON task = Some true ->
   exists body,
     composePrompt instruction task
     = body ++ newline ++ newline ++ instruction) /\
  (truthy_string (context task) = false ->
   truthy_bool (expectsJSON task) = false ->
   composePrompt instruction task = prompt task).
Proof.
  unfold composePrompt.
  repeat split.
  - destruct (truthy_bool (expectsJSON task));
      [apply StringFacts.includes_app_l|];
      (destruct (context task) as [ctx|]; [|apply includes_self]);
      (destruct (truthy_string (Some ctx)); [|apply includes_self]);
      repeat apply StringFacts.includes_app_r; apply includes_self.
  - intros ctx ->.
    destruct (String.eqb_spec ctx EmptyString) as [->|Hne].
    + destruct (truthy_bool (expectsJSON task)); cbn;
        apply StringFacts.includes_prefix, StringFacts.prefix_nil.
    + assert (truthy_string (Some ctx) = true) as ->.
      { cbn. destruct (String.eqb_spec ctx EmptyString); [contradiction|].
        reflexivity. }
      destruct (truthy_bool (expectsJSON task));
        [apply StringFacts.includes_app_l|];
        apply StringFacts.includes_app_r, StringFacts.includes_app_r,
          StringFacts.includes_app_l, includes_self.
  - intros ->; cbn [truthy_bool]. eexists; reflexivity.
  - intros Hc He. rewrite He.
    destruct (context task) as [ctx|]; [|reflexivity].
    rewrite Hc; reflexivity.
Qed.

End ProviderFacts.

(** X17: the prompt that either provider sends contains the task's
    prompt verbatim and, when the task has one, its context verbatim; it
    ends with two line feeds and the provider's JSON-only instruction
    when the task expects JSON; and it is the task's prompt unchanged
    when there is neither a context nor an expectation of JSON. *)
Theorem buildPrompt_contains (task : AgentTask) :
  let sent := [OllamaProvider.buildPrompt task;
               ClaudeProvider.buildPrompt task] in
  (forall p, List.In p sent ->
             JsString.includes (prompt task) p = true /\
             (forall ctx, context task = Some ctx ->
                          JsString.includes ctx p = true) /\
             (truthy_string (context task) = false ->
              truthy_bool (expectsJSON task) = false -> p = prompt task)) /\
  (expectsJSON task = Some true ->
   (exists body,
       OllamaProvider.buildPrompt task
       = body ++ newline ++ newline
         ++ "Respond with valid JSON only. Do not include any preamble or explanation.")
   /\
   (exists body,
       ClaudeProvider.buildPrompt task
       = body ++ newline ++ newline
         ++ "Respond with valid JSON only, no other text.")).
Proof.
  cbv zeta; split.
  - intros p [<-|[<-|[]]];
      [destruct (ProviderFacts.composePrompt_contains
                   "Respond with valid JSON only. Do not include any preamble or explanation."
                   task) as (H1 & H2 & _ & H4)
      |destruct (ProviderFacts.composePrompt_contains
                   "Respond with valid JSON only, no other text." task)
        as (H1 & H2 & _ & H4)];
      repeat split; assumption.
  - intros He; split;
      [apply (ProviderFacts.composePrompt_contains
                "Respond with valid JSON only. Do not include any preamble or explanation."
                task)
      |apply (ProviderFacts.composePrompt_contains
                "Respond with valid JSON only, no other text." task)];
      exact He.
Qed.

Lemma buildPrompt_contains_witness :
  exists body,
    OllamaProvider.buildPrompt Fixtures.extract_json
    = body ++ newline ++ newline
      ++ "Respond with valid JSON only. Do not include any preamble or explanation.".
Proof.
  apply (buildPrompt_contains Fixtures.extract_json). reflexivity.
Defined.

(** X18: every error that [OllamaProvider.execute] throws carries a
    message that starts with [Ollama execution failed: ]; an HTTP reply
    that is not ok is reported as [Ollama execution failed: Ollama
    request failed: ] followed by the status text.  A response is
    returned only for an ok reply whose body could be read; it is marked
    as coming from ollama, costs 0, and counts 0 tokens where the reply
    gives no count. *)
Theorem ollama_execute_outcomes
        (baseUrl modelName : string)
        (fetch_generate :
           nat -> OllamaProvider.GenerateRequest
           -> Outcome OllamaProvider.HttpResponse)
        (calls_before : nat) (task : AgentTask)
        (options : option ExecuteOptions) :
  let run := OllamaProvider.execute baseUrl modelName fetch_generate
                                    calls_before task options in
  let reply := fetch_generate calls_before
                 (OllamaProvider.request baseUrl modelName task options) in
  (forall message,
      run = Thrown message ->
      exists cause, message = "Ollama execution failed: " ++ cause) /\
  (forall r,
      reply = Returned r -> OllamaProvider.ok r = false ->
      run = Thrown ("Ollama execution failed: Ollama request failed: "
                    ++ OllamaProvider.statusText r)) /\
  (forall result,
      run = Returned result ->
      exists r data,
        reply = Returned r /\ OllamaProvider.ok r = true /\
        OllamaProvider.json r = Returned data /\
        content result = OllamaProvider.response data /\
        modelUsed result = ollama /\ cost result = JsNumber.zero /\
        tokensInput result
        = number_or (OllamaProvider.prompt_eval_count data) 0 /\
        tokensOutput result = number_or (OllamaProvider.eval_count data) 0).
Proof.
  cbv zeta. unfold OllamaProvider.execute, OllamaProvider.attempt.
  destruct (fetch_generate calls_before _) as [r|e].
  - destruct (OllamaProvider.ok r) eqn:Hok; cbn [negb].
    + destruct (OllamaProvider.json r) as [data|e] eqn:Hj.
      * split; [discriminate|]. split; [intros ? [= <-]; congruence|].
        intros result [= <-]. exists r, data. repeat split; assumption.
      * split; [intros m [= <-]; eexists; reflexivity|].
        split; [intros ? [= <-]; congruence | discriminate].
    + split; [intros m [= <-]; eexists; reflexivity|].
      split; [|discriminate].
      intros r' [= <-] _. reflexivity.
  - split; [intros m [= <-]; eexists; reflexivity|].
    split; discriminate.
Qed.

Lemma ollama_execute_outcomes_witness :
  OllamaProvider.execute
    "http://localhost:11434" "qwen2.5:7b"
    (fun _ _ => Returned (OllamaProvider.mkHttpResponse
                            false "Service Unavailable"
                            (Thrown "Unexpected end of JSON input")))
    0 Fixtures.extract_json Fixtures.local_options
  = Thrown ("Ollama execution failed: Ollama request failed: "
            ++ "Service Unavailable").
Proof.
  pose proof (ollama_execute_outcomes
                "http://localhost:11434" "qwen2.5:7b"
                (fun _ _ => Returned (OllamaProvider.mkHttpResponse
                                        false "Service Unavailable"
                                        (Thrown "Unexpected end of JSON input")))
                0 Fixtures.extract_json Fixtures.local_options)
    as (_ & Hstatus & _).
  exact (Hstatus _ eq_refl eq_refl).
Defined.

(** X19: [isAvailable] never throws, for either provider: whatever the
    network or the API does, it returns a boolean, false when the request
    failed.  The probe of the remote provider is a real request to the
    model, of at most 10 tokens, with the content [test]. *)
Theorem isAvailable_never_throws
        (ollamaUrl ollamaModel claudeModel : string)
        (fetch_generate :
           nat -> OllamaProvider.GenerateRequest
           -> Outcome OllamaProvider.HttpResponse)
        (fetch_tags : nat -> Outcome bool)
        (messages_create probe_create :
           nat -> ClaudeProvider.MessagesRequest
           -> Outcome ClaudeProvider.Message)
        (calls_before : nat) :
  let local := OllamaProvider.provider ollamaUrl ollamaModel
                                       fetch_generate fetch_tags in
  let remote := ClaudeProvider.provider claudeModel
                                        messages_create probe_create in
  (exists available,
      provider_isAvailable local calls_before = Returned available /\
      (available = true <-> fetch_tags calls_before = Returned true)) /\
  (exists available,
      provider_isAvailable remote calls_before = Returned available /\
      (available = true <->
       exists reply,
         probe_create calls_before
           (ClaudeProvider.mkMessagesRequest claudeModel 10 None "test")
         = Returned reply)).
Proof.
  cbv zeta; cbn [provider_isAvailable OllamaProvider.provider
                 ClaudeProvider.provider].
  unfold OllamaProvider.isAvailable, ClaudeProvider.isAvailable. split.
  - destruct (fetch_tags calls_before) as [[|]|e];
      eexists; (split; [reflexivity|]); split; congruence.
  - destruct (probe_create calls_before _) as [reply|e];
      eexists; (split; [reflexivity|]); split;
      try congruence; eauto.
    intros [reply Hr]; discriminate.
Qed.

Lemma isAvailable_never_throws_witness :
  exists available,
    provider_isAvailable
      (OllamaProvider.provider
         "http://localhost:11434" "qwen2.5:7b"
         (fun _ _ => Thrown "fetch failed")
         (fun _ => Thrown "connect ECONNREFUSED 127.0.0.1:11434")) 0
    = Returned available /\
    (available = true <->
     (fun _ : nat => @Thrown bool "connect ECONNREFUSED 127.0.0.1:11434") O
     = Returned true).
Proof.
  exact (proj1 (isAvailable_never_throws
                  "http://localhost:11434" "qwen2.5:7b"
                  "claude-sonnet-4-5-20250929"
                  (fun _ _ => Thrown "fetch failed")
                  (fun _ => Thrown "connect ECONNREFUSED 127.0.0.1:11434")
                  (fun _ _ => Thrown "401") (fun _ _ => Thrown "401") 0)).
Defined.

(** X20: neither provider ever sends a zero setting.  An option of 0 is
    read as missing, so the request carries the default in its place:
    for ollama the temperature 0.1, 2048 tokens and a deadline of 5000 ms,
    for claude the temperature 0.7 and 4096 tokens. *)
Theorem requests_never_carry_zero
        (baseUrl modelName : string) (task : AgentTask)
        (options : option ExecuteOptions) :
  let sent := OllamaProvider.request baseUrl modelName task options in
  let asked := ClaudeProvider.request modelName task options in
  ~ (OllamaProvider.request_temperature sent == 0)%Q /\
  OllamaProvider.num_predict sent <> 0 /\
  OllamaProvider.abort_after sent <> 0 /\
  (exists t, ClaudeProvider.request_temperature asked = Some t
             /\ ~ (t == 0)%Q) /\
  ClaudeProvider.max_tokens asked <> 0 /\
  (option_field timeout options = Some 0 ->
   OllamaProvider.abort_after sent = 5000) /\
  (option_field temperature options = Some 0%Q ->
   OllamaProvider.request_temperature sent = (1 # 10)%Q /\
   ClaudeProvider.request_temperature asked = Some (7 # 10)%Q).
Proof.
  cbv zeta; cbn.
  split; [apply ProviderFacts.rational_or_nonzero; discriminate|].
  split; [apply ProviderFacts.number_or_nonzero; discriminate|].
  split; [apply ProviderFacts.number_or_nonzero; discriminate|].
  split; [eexists; split; [reflexivity|];
          apply ProviderFacts.rational_or_nonzero; discriminate|].
  split; [apply ProviderFacts.number_or_nonzero; discriminate|].
  split; [intros ->; reflexivity | intros ->; split; reflexivity].
Qed.

Lemma requests_never_carry_zero_witness :
  OllamaProvider.abort_after
    (OllamaProvider.request "http://localhost:11434" "qwen2.5:7b"
       Fixtures.extract_json
       (Some (mkOptions (Some (1 # 10)%Q) (Some 0) None)))
  = 5000.
Proof.
  apply (requests_never_carry_zero
           "http://localhost:11434" "qwen2.5:7b" Fixtures.extract_json
           (Some (mkOptions (Some (1 # 10)%Q) (Some 0) None))).
  reflexivity.
Defined.

Module PriceFacts.

Lemma price_not_negative (tokensInput tokensOutput : Z) :
  0 <= tokensInput -> 0 <= tokensOutput ->
  JsNumber.not_negative (ClaudeProvider.price tokensInput tokensOutput) = true.
Proof.
  intros Hi Ho. unfold ClaudeProvider.price.
  assert (forall rate : Z,
             0 < rate <= 2 ^ 53 ->
             exists m e, JsNumber.of_Z rate = SpecFloat.S754_finite false m e)
    as Hfinite.
  { intros rate Hr. destruct (Z.eq_dec rate (2 ^ 53)) as [->|].
    - eexists _, _. reflexivity.
    - rewrite DoubleFacts.of_Z_canon by lia.
      destruct (DoubleFacts.canon_finite rate ltac:(lia)) as [-> _].
      eexists _, _. reflexivity. }
  destruct (Hfinite 3 ltac:(cbn; lia)) as (m3 & e3 & ->).
  destruct (Hfinite 15 ltac:(cbn; lia)) as (m15 & e15 & ->).
  destruct (Hfinite 1000000 ltac:(cbn; lia)) as (mm & em & ->).
  apply DoubleFacts.add_not_negative;
    apply DoubleFacts.div_not_negative, DoubleFacts.mul_not_negative,
          DoubleFacts.of_Z_not_negative; assumption.
Qed.

End PriceFacts.

(** X21: [ClaudeProvider.execute] passes an error of the API on as it
    is, and throws when the reply has no content block; otherwise it
    returns a response marked claude whose content is the text of the
    first block, or empty when that block is not a text, and whose cost
    is computed in doubles: the input tokens times 3 divided by a
    million, plus the output tokens times 15 divided by a million, each
    step rounded.  That cost is never NaN and never negative for token
    counts that are not negative, and it is 0 when both counts are; it
    is not always the double nearest to the exact price: for 1 input
    and 6 output tokens it is the next one above. *)
Theorem claude_execute_outcomes
        (modelName : string)
        (messages_create :
           nat -> ClaudeProvider.MessagesRequest
           -> Outcome ClaudeProvider.Message)
        (calls_before : nat) (task : AgentTask)
        (options : option ExecuteOptions) :
  let run := ClaudeProvider.execute modelName messages_create
                                    calls_before task options in
  let reply := messages_create calls_before
                 (ClaudeProvider.request modelName task options) in
  (forall e, reply = Thrown e -> run = Thrown e) /\
  (forall m, reply = Returned m -> ClaudeProvider.message_content m = [] ->
             exists e, run = Thrown e) /\
  (forall result,
      run = Returned result ->
      exists m block rest,
        reply = Returned m /\
        ClaudeProvider.message_content m = block :: rest /\
        content result = match block with
                         | ClaudeProvider.TextBlock text => text
                         | ClaudeProvider.OtherBlock _ => EmptyString
                         end /\
        modelUsed result = claude /\
        tokensInput result = ClaudeProvider.input_tokens m /\
        tokensOutput result = ClaudeProvider.output_tokens m /\
        cost result
        = JsNumber.add
            (JsNumber.div
               (JsNumber.mul (JsNumber.of_Z (tokensInput result))
                             (JsNumber.of_Z 3))
               (JsNumber.of_Z 1000000))
            (JsNumber.div
               (JsNumber.mul (JsNumber.of_Z (tokensOutput result))
                             (JsNumber.of_Z 15))
               (JsNumber.of_Z 1000000)) /\
        (0 <= tokensInput result -> 0 <= tokensOutput result ->
         JsNumber.not_negative (cost result) = true) /\
        (tokensInput result = 0 -> tokensOutput result = 0 ->
         cost result = JsNumber.zero)) /\
  ClaudeProvider.price 1 6
  = SpecFloat.S754_finite false 6862188795419954 (-66) /\
  ClaudeProvider.nearest_price 1 6
  = SpecFloat.S754_finite false 6862188795419953 (-66).
Proof.
  cbv zeta. unfold ClaudeProvider.execute.
  split; [|split; [|split; [|split; reflexivity]]];
    destruct (messages_create calls_before _) as [m|e];
    try discriminate.
  - intros e' [= <-]. reflexivity.
  - intros m' [= <-] Hc. rewrite Hc. eexists; reflexivity.
  - destruct (ClaudeProvider.message_content m) as [|block rest] eqn:Hc;
      [discriminate|].
    intros result [= <-]. exists m, block, rest.
    cbn [content modelUsed tokensInput tokensOutput cost].
    split; [reflexivity|]. split; [exact Hc|].
    do 5 (split; [reflexivity|]).
    split.
    + apply PriceFacts.price_not_negative.
    + intros -> ->. reflexivity.
Qed.

Lemma claude_execute_outcomes_witness :
  ClaudeProvider.execute
    "claude-sonnet-4-5-20250929" (fun _ _ => Thrown "401 invalid x-api-key")
    0 Fixtures.compile_workflow None
  = Thrown "401 invalid x-api-key".
Proof.
  pose proof (claude_execute_outcomes
                "claude-sonnet-4-5-20250929"
                (fun _ _ => Thrown "401 invalid x-api-key")
                0 Fixtures.compile_workflow None) as (Hthrown & _).
  exact (Hthrown _ eq_refl).
Defined.

(** X22: with the ollama provider as the local backend, a task whose
    total is between 2 and 5 never reaches the remote backend:
    [IntelligenceRouter.execute] returns a response of ollama at cost 0,
    or throws [Ollama not available] or an error whose message starts
    with [Ollama execution failed: ]. *)
Theorem simple_band_with_ollama_provider `{JsRuntime}
        (baseUrl modelName : string)
        (fetch_generate :
           nat -> OllamaProvider.GenerateRequest
           -> Outcome OllamaProvider.HttpResponse)
        (fetch_tags : nat -> Outcome bool)
        (remote : LLMProvider) (config : RouterConfig)
        (task : AgentTask) (trace : list Event) :
  2 <= score (ComplexityAnalyzer.analyze task) < 6 ->
  let local := OllamaProvider.provider baseUrl modelName
                                       fetch_generate fetch_tags in
  let run := IntelligenceRouter.execute local remote config task trace in
  calls is_remote_execute (snd run) = calls is_remote_execute trace /\
  match fst run with
  | Returned result => modelUsed result = ollama /\ cost result = JsNumber.zero
  | Thrown message =>
      message = "Ollama not available" \/
      exists cause, message = "Ollama execution failed: " ++ cause
  end.
Proof.
  intros Hs; cbv zeta.
  rewrite RouterFacts.route_simple, RouterCases.executeWithOllama_cases
    by exact Hs.
  cbn [provider_isAvailable provider_execute OllamaProvider.provider].
  unfold OllamaProvider.isAvailable.
  destruct (fetch_tags _) as [[|]|e]; cbn [fst snd];
    rewrite RouterCases.calls_app; cbn; rewrite Nat.add_0_r;
    (split; [reflexivity|]); auto.
  unfold OllamaProvider.execute, OllamaProvider.attempt.
  destruct (fetch_generate _ _) as [r|e]; [|right; eexists; reflexivity].
  destruct (OllamaProvider.ok r); cbn [negb];
    [|right; eexists; reflexivity].
  destruct (OllamaProvider.json r) as [data|e];
    [split; reflexivity | right; eexists; reflexivity].
Qed.

Lemma simple_band_with_ollama_provider_witness :
  let run :=
    Fixtures.router
      (OllamaProvider.provider
         "http://localhost:11434" "qwen2.5:7b"
         (fun _ _ => Thrown "fetch failed") (fun _ => Returned true))
      Fixtures.remote_ok Fixtures.config_fallback Fixtures.extract_json [] in
  calls is_remote_execute (snd run) = calls is_remote_execute [] /\
  match fst run with
  | Returned result => modelUsed result = ollama /\ cost result = JsNumber.zero
  | Thrown message =>
      message = "Ollama not available" \/
      exists cause, message = "Ollama execution failed: " ++ cause
  end.
Proof.
  exact (@simple_band_with_ollama_provider ReferenceRuntime.runtime
           "http://localhost:11434" "qwen2.5:7b"
           (fun _ _ => Thrown "fetch failed") (fun _ => Returned true)
           Fixtures.remote_ok Fixtures.config_fallback
           Fixtures.extract_json []
           ltac:(vm_compute; split; [discriminate | reflexivity])).
Defined.

(* ===================================================================== *)
(** ** Further properties of the cost ledger                              *)
(* ===================================================================== *)

Module LedgerTotals.
Import StateManager.

#[local] Arguments String.append : simpl nomatch.

Lemma before_T_date (date rest : string) :
  all_chars (fun c => negb (Ascii.eqb c "T")) date = true ->
  before_T (date ++ "T" ++ rest) = date.
Proof.
  induction date as [|c date IH]; cbn; [reflexivity|].
  intros Hc. apply andb_true_iff in Hc as [Hc Hd].
  apply negb_true_iff in Hc. rewrite Hc. f_equal. exact (IH Hd).
Qed.

Lemma column_total_insert_fresh (column : CostRow -> Z) (db : CostTable)
      (k : string * string) (row : CostRow) :
  db !! k = None ->
  Ledger.column_total column (<[k := row]> db)
  = column row + Ledger.column_total column db.
Proof.
  intros Hk. unfold Ledger.column_total.
  apply (map_fold_insert_L (fun _ r acc => column r + acc)); [|exact Hk].
  intros; lia.
Qed.

Lemma column_total_delete (column : CostRow -> Z) (db : CostTable)
      (k : string * string) (row : CostRow) :
  db !! k = Some row ->
  Ledger.column_total column db
  = column row + Ledger.column_total column (delete k db).
Proof.
  intros Hk. unfold Ledger.column_total.
  apply (map_fold_delete_L (fun _ r acc => column r + acc) 0 k row db);
    [intros; lia | exact Hk].
Qed.

Lemma column_total_insert (column : CostRow -> Z) (db : CostTable)
      (k : string * string) (old new : CostRow) :
  db !! k = Some old ->
  Ledger.column_total column (<[k := new]> db)
  = Ledger.column_total column db - column old + column new.
Proof.
  intros Hk.
  rewrite <- (insert_delete_eq db k new).
  rewrite column_total_insert_fresh by apply lookup_delete_eq.
  rewrite (column_total_delete column db k old Hk). lia.
Qed.

Lemma column_total_nonnegative (column : CostRow -> Z) (db : CostTable) :
  (forall k row, db !! k = Some row -> 0 <= column row) ->
  0 <= Ledger.column_total column db.
Proof.
  unfold Ledger.column_total.
  induction db as [|k row db Hk Hfold IH] using map_first_key_ind.
  - intros _. rewrite map_fold_empty. lia.
  - intros Hall. rewrite map_fold_insert_first_key by assumption.
    assert (0 <= column row) by (apply (Hall k); apply lookup_insert_eq).
    assert (0 <= map_fold (fun _ r acc => column r + acc) 0 db); [|lia].
    apply IH. intros k' row' Hk'. apply (Hall k').
    rewrite lookup_insert_ne; [exact Hk'|congruence].
Qed.

(** Where no row is negative in a column, no row exceeds the total. *)
Lemma column_total_bounds (column : CostRow -> Z) (db : CostTable)
      (k : string * string) (row : CostRow) :
  (forall k row, db !! k = Some row -> 0 <= column row) ->
  db !! k = Some row ->
  column row <= Ledger.column_total column db.
Proof.
  intros Hall Hk. rewrite (column_total_delete column db k row Hk).
  assert (0 <= Ledger.column_total column (delete k db)); [|lia].
  apply column_total_nonnegative. intros k' row' Hk'.
  apply lookup_delete_Some in Hk' as [_ Hk']. exact (Hall k' row' Hk').
Qed.

Lemma is_count_of_Z (z : Z) :
  0 <= z <= 2 ^ 53 ->
  Ledger.is_count (JsNumber.of_Z z) /\ JsNumber.to_Z (JsNumber.of_Z z) = z.
Proof.
  intros Hz. pose proof (DoubleFacts.to_Z_of_Z z Hz) as Ht.
  unfold Ledger.is_count. rewrite Ht. repeat split; lia.
Qed.

(** One call on a ledger of counts, while the totals stay in range. *)
Lemma record_counting (db : CostTable) (c : Call) (i o : Z) :
  Ledger.counting db ->
  call_tokensInput c = JsNumber.of_Z i -> 0 <= i ->
  call_tokensOutput c = JsNumber.of_Z o -> 0 <= o ->
  Ledger.column_total Ledger.input_count db + i <= 2 ^ 53 ->
  Ledger.column_total Ledger.output_count db + o <= 2 ^ 53 ->
  Ledger.column_total execution_count db + 1 < 2 ^ 63 ->
  Ledger.counting (record db c) /\
  Ledger.column_total execution_count (record db c)
  = Ledger.column_total execution_count db + 1 /\
  Ledger.column_total Ledger.input_count (record db c)
  = Ledger.column_total Ledger.input_count db + i /\
  Ledger.column_total Ledger.output_count (record db c)
  = Ledger.column_total Ledger.output_count db + o.
Proof.
  intros Hdb Hi Hi0 Ho Ho0 Hti Hto Htn.
  assert (0 <= Ledger.column_total Ledger.input_count db) as Hin0
      by (apply column_total_nonnegative; intros k r Hr;
          destruct (Hdb k r Hr) as ((?&_)&_); assumption).
  assert (0 <= Ledger.column_total Ledger.output_count db) as Hout0
      by (apply column_total_nonnegative; intros k r Hr;
          destruct (Hdb k r Hr) as (_&(?&_)&_); assumption).
  assert (0 <= Ledger.column_total execution_count db) as Hn0
      by (apply column_total_nonnegative; intros k r Hr;
          destruct (Hdb k r Hr) as (_&_&?); assumption).
  remember (upsert (db !! call_key c) c) as new eqn:Hnew.
  assert (record db c = <[call_key c := new]> db) as Hrec.
  { subst new. unfold record, recordCost, call_key, upsert.
    destruct (db !! _); reflexivity. }
  assert (Ledger.is_count (tokens_input new) /\
          Ledger.is_count (tokens_output new) /\
          0 <= execution_count new /\
          Ledger.input_count new
          = match db !! call_key c with
            | Some row => Ledger.input_count row + i
            | None => i
            end /\
          Ledger.output_count new
          = match db !! call_key c with
            | Some row => Ledger.output_count row + o
            | None => o
            end /\
          execution_count new
          = match db !! call_key c with
            | Some row => execution_count row + 1
            | None => 1
            end) as (Nci & Nco & Nn & Ni & No & Ncount).
  { subst new. destruct (db !! call_key c) as [row|] eqn:Hk;
      cbn [upsert tokens_input tokens_output execution_count];
      unfold Ledger.input_count, Ledger.output_count;
      cbn [tokens_input tokens_output].
    - destruct (Hdb _ _ Hk) as ((Ri0 & Ri) & (Ro0 & Ro) & Rn).
      pose proof (column_total_bounds Ledger.input_count db _ row
                    ltac:(intros k r Hr; destruct (Hdb k r Hr) as ((?&_)&_);
                          assumption) Hk) as Bi.
      pose proof (column_total_bounds Ledger.output_count db _ row
                    ltac:(intros k r Hr; destruct (Hdb k r Hr) as (_&(?&_)&_);
                          assumption) Hk) as Bo.
      pose proof (column_total_bounds execution_count db _ row
                    ltac:(intros k r Hr; destruct (Hdb k r Hr) as (_&_&?);
                          assumption) Hk) as Bn.
      change (Ledger.input_count row)
        with (JsNumber.to_Z (tokens_input row)) in Bi.
      change (Ledger.output_count row)
        with (JsNumber.to_Z (tokens_output row)) in Bo.
      remember (JsNumber.to_Z (tokens_input row)) as a eqn:Ha.
      remember (JsNumber.to_Z (tokens_output row)) as b eqn:Hb.
      rewrite Hi, Ho, Ri, Ro.
      rewrite !DoubleFacts.plus_of_Z by lia.
      destruct (is_count_of_Z (a + i)) as [Ci Ti]; [lia|].
      destruct (is_count_of_Z (b + o)) as [Co To]; [lia|].
      rewrite LedgerFacts.increment_succ by lia.
      repeat split; try assumption; try lia; congruence.
    - rewrite Hi, Ho, !DoubleFacts.stored_of_Z by assumption.
      destruct (is_count_of_Z i) as [Ci Ti]; [lia|].
      destruct (is_count_of_Z o) as [Co To]; [lia|].
      repeat split; try assumption; try lia; congruence. }
  rewrite Hrec. split.
  - intros k row Hk.
    destruct (decide (call_key c = k)) as [<-|Hne].
    + rewrite lookup_insert_eq in Hk. injection Hk as <-.
      repeat split; assumption || apply Nci || apply Nco.
    + rewrite lookup_insert_ne in Hk by exact Hne. exact (Hdb k row Hk).
  - destruct (db !! call_key c) as [row|] eqn:Hk.
    + rewrite !(column_total_insert _ db _ row new Hk). lia.
    + rewrite !(column_total_insert_fresh _ db _ new Hk). lia.
Qed.

End LedgerTotals.

(** X23: [recordCost] files a call under the calendar day of its
    timestamp.  Two calls on the same day for the same model, whatever
    their times, share one row, which then counts 2 executions; the same
    two calls on different days leave two rows of one execution each. *)
Theorem recordCost_groups_by_day
        (db : CostTable) (day other_day time1 time2 model : string)
        (in1 out1 in2 out2 cost1 cost2 : JsNumber.number) :
  all_chars (fun c => negb (Ascii.eqb c "T")) day = true ->
  all_chars (fun c => negb (Ascii.eqb c "T")) other_day = true ->
  db !! (day, model) = None ->
  db !! (other_day, model) = None ->
  day <> other_day ->
  let first := StateManager.recordCost db (day ++ "T" ++ time1) model
                                       in1 out1 cost1 in
  StateManager.recordCost first (day ++ "T" ++ time2) model in2 out2 cost2
  !! (day, model)
  = Some (mkRow (Sqlite.plus (Sqlite.stored in1) in2)
                (Sqlite.plus (Sqlite.stored out1) out2)
                (Sqlite.plus (Sqlite.stored cost1) cost2) 2) /\
  let apart :=
    StateManager.recordCost first (other_day ++ "T" ++ time2) model
                            in2 out2 cost2 in
  apart !! (day, model)
  = Some (mkRow (Sqlite.stored in1) (Sqlite.stored out1)
                (Sqlite.stored cost1) 1) /\
  apart !! (other_day, model)
  = Some (mkRow (Sqlite.stored in2) (Sqlite.stored out2)
                (Sqlite.stored cost2) 1).
Proof.
  intros Hd Ho Hk Hk' Hne; cbv zeta.
  change (StateManager.recordCost db (day ++ "T" ++ time1) model
                                  in1 out1 cost1)
    with (StateManager.record
            db (StateManager.mkCall (day ++ "T" ++ time1) model
                                    in1 out1 cost1)).
  change (StateManager.recordCost ?d (day ++ "T" ++ time2) model
                                  in2 out2 cost2)
    with (StateManager.record
            d (StateManager.mkCall (day ++ "T" ++ time2) model
                                   in2 out2 cost2)).
  change (StateManager.recordCost ?d (other_day ++ "T" ++ time2) model
                                  in2 out2 cost2)
    with (StateManager.record
            d (StateManager.mkCall (other_day ++ "T" ++ time2) model
                                   in2 out2 cost2)).
  rewrite !LedgerFacts.record_lookup.
  unfold StateManager.call_key; cbn [StateManager.call_now
                                     StateManager.call_model].
  rewrite !(LedgerTotals.before_T_date day) by exact Hd.
  rewrite !(LedgerTotals.before_T_date other_day) by exact Ho.
  rewrite Hk, Hk'.
  repeat split; repeat case_decide; congruence || reflexivity.
Qed.

Lemma recordCost_groups_by_day_witness :
  StateManager.recordCost
    (StateManager.recordCost ∅ ("2026-02-11" ++ "T" ++ "09:30:00.000Z")
                             "ollama" (JsNumber.of_Z 20) (JsNumber.of_Z 10)
                             JsNumber.zero)
    ("2026-02-11" ++ "T" ++ "23:59:59.999Z") "ollama"
    (JsNumber.of_Z 30) (JsNumber.of_Z 5) JsNumber.zero
  !! ("2026-02-11", "ollama")
  = Some (mkRow (JsNumber.of_Z 50) (JsNumber.of_Z 15) JsNumber.zero 2).
Proof.
  apply (recordCost_groups_by_day
           ∅ "2026-02-11" "2026-02-12" "09:30:00.000Z" "23:59:59.999Z"
           "ollama" (JsNumber.of_Z 20) (JsNumber.of_Z 10)
           (JsNumber.of_Z 30) (JsNumber.of_Z 5) JsNumber.zero JsNumber.zero);
    first [reflexivity | discriminate].
Defined.

(** X24: nothing is lost across rows while the totals stay in range.  On
    a ledger whose rows hold counts, calls whose tokens are counts leave
    a ledger of counts; the execution counts of all rows add up to what
    they added up to before plus the number of calls, and the input and
    output tokens of all rows add up to what they did before plus the
    tokens of the calls: provided each token total stays within
    [2 ^ 53], up to where doubles hold every integer, and the number of
    executions below [2 ^ 63]. *)
Theorem ledger_totals_conserved
        (db : CostTable) (cs : list StateManager.Call)
        (inputs outputs : list Z) :
  Ledger.counting db ->
  map StateManager.call_tokensInput cs = map JsNumber.of_Z inputs ->
  map StateManager.call_tokensOutput cs = map JsNumber.of_Z outputs ->
  Forall (fun n => 0 <= n) inputs ->
  Forall (fun n => 0 <= n) outputs ->
  Ledger.column_total Ledger.input_count db + StateManager.Zsum inputs
  <= 2 ^ 53 ->
  Ledger.column_total Ledger.output_count db + StateManager.Zsum outputs
  <= 2 ^ 53 ->
  Ledger.column_total execution_count db + Z.of_nat (List.length cs)
  < 2 ^ 63 ->
  Ledger.counting (StateManager.record_all db cs) /\
  Ledger.column_total execution_count (StateManager.record_all db cs)
  = Ledger.column_total execution_count db + Z.of_nat (List.length cs) /\
  Ledger.column_total Ledger.input_count (StateManager.record_all db cs)
  = Ledger.column_total Ledger.input_count db + StateManager.Zsum inputs /\
  Ledger.column_total Ledger.output_count (StateManager.record_all db cs)
  = Ledger.column_total Ledger.output_count db + StateManager.Zsum outputs.
Proof.
  revert db inputs outputs.
  induction cs as [|c cs IH]; intros db inputs outputs Hdb Hi Ho Hi0 Ho0
                                     Hti Hto Htn.
  - destruct inputs; [|discriminate]. destruct outputs; [|discriminate].
    split; [exact Hdb|]. unfold StateManager.Zsum. cbn. repeat split; lia.
  - destruct inputs as [|i inputs]; [discriminate|].
    destruct outputs as [|o outputs]; [discriminate|].
    cbn [map] in Hi, Ho. injection Hi as Hi Hirest.
    injection Ho as Ho Horest.
    apply Forall_cons in Hi0 as [Hi0 Hirest0].
    apply Forall_cons in Ho0 as [Ho0 Horest0].
    assert (forall l, Forall (fun n => 0 <= n) l -> 0 <= StateManager.Zsum l)
      as Hsum0.
    { intros l Hl. induction Hl; unfold StateManager.Zsum in *; cbn; lia. }
    pose proof (Hsum0 _ Hirest0). pose proof (Hsum0 _ Horest0).
    unfold StateManager.Zsum in *.
    cbn [List.fold_right List.length] in Hti, Hto, Htn |- *.
    destruct (LedgerTotals.record_counting db c i o Hdb Hi Hi0 Ho Ho0)
      as (Hdb1 & Hn1 & Hi1 & Ho1); [lia|lia|lia|].
    cbn [StateManager.record_all List.fold_left].
    destruct (IH (StateManager.record db c) inputs outputs Hdb1 Hirest Horest
                 Hirest0 Horest0) as (Hdb2 & Hn2 & Hi2 & Ho2); [lia|lia|lia|].
    unfold StateManager.record_all in *.
    split; [exact Hdb2|]. rewrite Hn2, Hi2, Ho2, Hn1, Hi1, Ho1.
    repeat split; lia.
Qed.

Lemma ledger_totals_conserved_witness :
  let calls :=
    [StateManager.mkCall "2026-02-11T09:30:00.000Z" "claude"
                         (JsNumber.of_Z 100) (JsNumber.of_Z 50)
                         (JsNumber.ratio 105 100000);
     StateManager.mkCall "2026-02-11T23:10:00.000Z" "ollama"
                         (JsNumber.of_Z 20) (JsNumber.of_Z 10) JsNumber.zero;
     StateManager.mkCall "2026-02-12T00:05:00.000Z" "claude"
                         (JsNumber.of_Z 7) (JsNumber.of_Z 3)
                         (JsNumber.ratio 66 1000000)] in
  Ledger.column_total execution_count (StateManager.record_all ∅ calls) = 3 /\
  Ledger.column_total Ledger.input_count (StateManager.record_all ∅ calls)
  = 127 /\
  Ledger.column_total Ledger.output_count (StateManager.record_all ∅ calls)
  = 63.
Proof.
  cbv zeta.
  destruct (ledger_totals_conserved
              ∅
              [StateManager.mkCall "2026-02-11T09:30:00.000Z" "claude"
                                   (JsNumber.of_Z 100) (JsNumber.of_Z 50)
                                   (JsNumber.ratio 105 100000);
               StateManager.mkCall "2026-02-11T23:10:00.000Z" "ollama"
                                   (JsNumber.of_Z 20) (JsNumber.of_Z 10)
                                   JsNumber.zero;
               StateManager.mkCall "2026-02-12T00:05:00.000Z" "claude"
                                   (JsNumber.of_Z 7) (JsNumber.of_Z 3)
                                   (JsNumber.ratio 66 1000000)]
              [100; 20; 7] [50; 10; 3])
    as (_ & Hn & Hi & Ho).
  - intros k row Hk. rewrite lookup_empty in Hk. discriminate.
  - reflexivity.
  - reflexivity.
  - repeat constructor; lia.
  - repeat constructor; lia.
  - vm_compute. discriminate.
  - vm_compute. discriminate.
  - vm_compute. reflexivity.
  - split; [exact Hn|]. split; [exact Hi|exact Ho].
Defined.

(** X25: when the order of two calls matters.  Two calls under
    different keys commute, and so do two calls under one key that has
    no row yet, since the sum of two doubles does not depend on their
    order; the tables are then equal.  On a row that exists the order
    can matter: after 0.1 dollars, adding 0.3 and then 0.7 does not give
    the cost that adding 0.7 and then 0.3 gives. *)
Theorem record_order
        (db : CostTable) (c1 c2 : StateManager.Call) :
  (StateManager.call_key c1 <> StateManager.call_key c2 ->
   StateManager.record (StateManager.record db c1) c2
   = StateManager.record (StateManager.record db c2) c1) /\
  (StateManager.call_key c1 = StateManager.call_key c2 ->
   db !! StateManager.call_key c1 = None ->
   StateManager.record (StateManager.record db c1) c2
   = StateManager.record (StateManager.record db c2) c1) /\
  (let call time cost :=
     StateManager.mkCall time "claude" (JsNumber.of_Z 100) (JsNumber.of_Z 50)
                         cost in
   let first := call "2026-02-11T09:00:00.000Z" (JsNumber.ratio 1 10) in
   let a := call "2026-02-11T12:00:00.000Z" (JsNumber.ratio 3 10) in
   let b := call "2026-02-11T18:00:00.000Z" (JsNumber.ratio 7 10) in
   StateManager.record_all ∅ [first; a; b]
   <> StateManager.record_all ∅ [first; b; a]).
Proof.
  split; [|split].
  - intros Hne. apply map_eq. intros k.
    rewrite !LedgerFacts.record_lookup.
    destruct (decide (StateManager.call_key c2 = k)) as [H2|H2],
             (decide (StateManager.call_key c1 = k)) as [H1|H1];
      try reflexivity.
    congruence.
  - intros Heq Hk. apply map_eq. intros k.
    rewrite !LedgerFacts.record_lookup.
    rewrite <- Heq.
    destruct (decide (StateManager.call_key c1 = k)) as [<-|H1];
      [|reflexivity].
    rewrite Hk. cbn. f_equal. f_equal; apply DoubleFacts.plus_comm_fresh.
  - cbv zeta. intros Heq.
    apply (f_equal (fun db => db !! ("2026-02-11", "claude"))) in Heq.
    vm_compute in Heq. discriminate.
Qed.

Lemma record_order_witness :
  let morning := StateManager.mkCall "2026-02-11T09:30:00.000Z" "claude"
                                     (JsNumber.of_Z 100) (JsNumber.of_Z 50)
                                     (JsNumber.ratio 105 100000) in
  let night := StateManager.mkCall "2026-02-11T23:10:00.000Z" "claude"
                                   (JsNumber.of_Z 20) (JsNumber.of_Z 10)
                                   (JsNumber.ratio 21 100000) in
  StateManager.record (StateManager.record ∅ morning) night
  = StateManager.record (StateManager.record ∅ night) morning.
Proof.
  cbv zeta.
  apply (record_order
           ∅ (StateManager.mkCall "2026-02-11T09:30:00.000Z" "claude"
                                  (JsNumber.of_Z 100) (JsNumber.of_Z 50)
                                  (JsNumber.ratio 105 100000))
           (StateManager.mkCall "2026-02-11T23:10:00.000Z" "claude"
                                (JsNumber.of_Z 20) (JsNumber.of_Z 10)
                                (JsNumber.ratio 21 100000))).
  - reflexivity.
  - reflexivity.
Defined.

(* ===================================================================== *)
(** ** Properties of StateManager.updateExecution                         *)
(* ===================================================================== *)

(** X26: [updateExecution] throws, and writes nothing, exactly when the
    update names no status, no completion date and no cost and its error
    text is absent or empty.  Otherwise it succeeds: an unknown id leaves
    the table as it was, rows under other ids are untouched, and the row
    of the id gets the given status, completion date and cost (a cost of
    0 included) and the given error text unless that is empty, all its
    other columns staying as they were.  Doing the same update twice
    changes nothing more. *)
Theorem updateExecution_behaviour
        (db : Executions.Table) (execution_id : string)
        (updates : Executions.Updates) :
  ((exists message,
       Executions.updateExecution db execution_id updates = Thrown message)
   <-> Executions.new_status updates = None /\
       Executions.new_completedAt updates = None /\
       Executions.new_cost updates = None /\
       truthy_string (Executions.new_error updates) = false) /\
  (forall db',
      Executions.updateExecution db execution_id updates = Returned db' ->
      (db !! execution_id = None -> db' = db) /\
      (forall other, other <> execution_id -> db' !! other = db !! other) /\
      (forall row,
          db !! execution_id = Some row ->
          exists row',
            db' !! execution_id = Some row' /\
            Executions.status row'
            = default (Executions.status row) (Executions.new_status updates)
            /\ Executions.completed_at row'
               = match Executions.new_completedAt updates with
                 | Some d => Some d
                 | None => Executions.completed_at row
                 end
            /\ Executions.cost row'
               = match Executions.new_cost updates with
                 | Some c => Some c
                 | None => Executions.cost row
                 end
            /\ Executions.error row'
               = (if truthy_string (Executions.new_error updates)
                  then Executions.new_error updates
                  else Executions.error row)
            /\ Executions.id row' = Executions.id row
            /\ Executions.workflow_id row' = Executions.workflow_id row
            /\ Executions.started_at row' = Executions.started_at row
            /\ Executions.trigger_type row' = Executions.trigger_type row
            /\ Executions.trigger_data row' = Executions.trigger_data row
            /\ Executions.created_at row' = Executions.created_at row) /\
      Executions.updateExecution db' execution_id updates = Returned db').
Proof.
  unfold Executions.updateExecution, Executions.assignments.
  destruct updates as [[s|] [d|] [c|] [e|]]; cbn [Executions.new_status
    Executions.new_completedAt Executions.new_cost Executions.new_error];
    try destruct (truthy_string (Some e)) eqn:He; cbn [app];
    (split;
     [split;
      [intros [message Hm]; try discriminate Hm; repeat split; congruence
      |intros (H1 & H2 & H3 & H4); try discriminate;
       try (cbn in H4; congruence); eexists; reflexivity]
     |]);
    intros db' Hdb'; try discriminate Hdb'; injection Hdb' as <-;
    (destruct (db !! execution_id) as [row|] eqn:Hrow;
     [|repeat split; try reflexivity; try discriminate;
       rewrite Hrow; reflexivity]);
    (split; [discriminate|]);
    (split; [intros other Hne; apply lookup_insert_ne; congruence|]);
    (split;
     [intros r [= <-]; eexists; split; [apply lookup_insert_eq|];
      cbn; rewrite ?He; repeat split; reflexivity
     |rewrite lookup_insert_eq, insert_insert_eq; reflexivity]).
Qed.

Lemma updateExecution_behaviour_witness :
  exists message,
    Executions.updateExecution
      ∅ "run-1" (Executions.mkUpdates None None None (Some EmptyString))
    = Thrown message.
Proof.
  apply (updateExecution_behaviour
           ∅ "run-1" (Executions.mkUpdates None None None (Some EmptyString))).
  repeat split; reflexivity.
Defined.
